(** * SwingScanner: the breakout-signal validator, its data fetcher and
      the two batch loops, embedded from the Python sources.

    - [backend/backtest_engine.py]: [calculate_indicators], [validate_setup]
    - [backend/smart_api_client.py]: [SmartApiClient]
    - [backend/main.py]: [run_backtest.event_generator]
    - [app.py]: the dashboard's batch loop
    - [debug_mapping.py]: [check_symbols]

    Prices are Python floats, that is IEEE-754 binary64 numbers; they are
    modelled by Rocq's primitive floats, whose operations are the same
    correctly rounded ones.  Dates are proleptic Gregorian ordinals.

    Code that may raise returns an [Exc]; code that acts on the outside
    (the upstream services, the clock, the scrip master file, the client
    object) is a function of a [World], which also keeps the log of what
    was done.  The texts the program reads (dates, cells of the upstream
    rows) are represented by what the library parsers make of them.  Calls
    of [print], the widgets of the dashboard and the JSON encoding of the
    streamed lines have no counterpart here. *)

From Stdlib Require Import Floats ZArith List String Bool Lia.
Import ListNotations.

Set Warnings "-inexact-float".
Set Implicit Arguments.

(** [len(x)] on a list or a frame. *)
Definition len {A : Type} (l : list A) : nat := List.length l.

(** ** Python exceptions

    A computation that may raise is a value of [Exc]: [Raise e] carries
    [str(e)], the text the handlers of the program interpolate. *)

Inductive Exc (A : Type) : Type :=
| Ok (a : A)
| Raise (e : string).

Arguments Ok {A} a.
Arguments Raise {A} e.

(** ** Dates and timestamps *)

(** [datetime.date], by [date.toordinal()]. *)
Definition date := Z.

(** A timestamp: its calendar date and the seconds elapsed in that day. *)
Record datetime : Type := mk_datetime {
  dt_date : date;
  dt_seconds : Z
}.

(** [(a - b).days] on two dates. *)
Definition days_between (a b : date) : Z := (a - b)%Z.

(** [dt - timedelta(days=n)]. *)
Definition minus_days (t : datetime) (n : Z) : datetime :=
  mk_datetime (dt_date t - n)%Z (dt_seconds t).

(** [dt.strftime("%Y-%m-%d %H:%M")]: the text keeps the date, the hour and
    the minute; it is represented by the timestamp cut to the minute. *)
Definition strftime_minute (t : datetime) : datetime :=
  mk_datetime (dt_date t) (60 * (dt_seconds t / 60))%Z.

(** The text of a signal's ['date'] field, by what the two library parsers
    the program applies to it make of it:
    [datetime.strptime(_, "%Y-%m-%dT%H:%M:%S.%fZ")] in the batch loops and
    [pd.to_datetime] in the validator. *)
Inductive date_text : Type :=
| IsoZ (t : datetime)       (* in the exact format: both parsers read [t] *)
| LooseDate (t : datetime)  (* only [pd.to_datetime] reads it *)
| NotADate (s : string).    (* both parsers raise *)

Definition strptime_iso (s : date_text) : Exc datetime :=
  match s with
  | IsoZ t => Ok t
  | LooseDate _ => Raise "time data does not match format '%Y-%m-%dT%H:%M:%S.%fZ'"
  | NotADate _ => Raise "time data does not match format '%Y-%m-%dT%H:%M:%S.%fZ'"
  end.

Definition pd_to_datetime (s : date_text) : Exc datetime :=
  match s with
  | IsoZ t => Ok t
  | LooseDate t => Ok t
  | NotADate s => Raise ("Unknown datetime string format, unable to parse: " ++ s)
  end.

(** ** backtest_engine.py *)

(** A cell of the frame's ['date'] column: a pandas Timestamp, or some
    other object (the column is then not datetime-like). *)
Inductive date_cell : Type :=
| Timestamp (t : datetime)
| NotDatetime (repr : string).

(** One row of the price frame.  The two indicator columns exist once
    [calculate_indicators] has assigned them. *)
Record Candle : Type := mk_candle {
  c_date : date_cell;
  c_open : float;
  c_high : float;
  c_low : float;
  c_close : float;
  c_volume : Z;
  c_EMA_9 : option float;
  c_EMA_20 : option float
}.

Definition DataFrame := list Candle.

(** [Series.ewm(span=span, adjust=False).mean()], as pandas computes it
    (its window aggregation [ewm], here with [adjust=False],
    [ignore_na=False], no minimum of observations and rows one step apart).

    [alpha = 1 / (1 + com)], where [com = (span - 1) / 2] is the centre of
    mass of the span. *)
Definition ewm_alpha (span : float) : float :=
  (1 / (1 + (span - 1) / 2))%float.

(** The values handed to the aggregation: an infinite value is made a NaN,
    that is a missing observation. *)
Definition prep_values (vals : list float) : list float :=
  map (fun x => if is_infinity x then nan else x) vals.

(** The loop over the rows after the first.  [weighted] is the average so
    far and [old_wt] the weight it carries.  A row that is no observation
    leaves the average as it is and lets its weight decay; an observation
    equal to the average leaves it as it is too ("avoid numerical errors on
    constant series"); while there is no average yet, the first observation
    becomes the average. *)
Fixpoint ewm_loop (alpha weighted old_wt : float) (vals : list float)
  : list float :=
  match vals with
  | [] => []
  | cur :: rest =>
      let old_wt_factor := (1 - alpha)%float in
      let new_wt := alpha in
      let is_observation := (cur =? cur)%float in
      let step :=
        if (weighted =? weighted)%float then
          let old_wt := (old_wt * old_wt_factor)%float in
          if is_observation then
            (if negb (weighted =? cur)%float
             then ((old_wt * weighted + new_wt * cur)
                   / (old_wt + new_wt))%float
             else weighted,
             1%float)
          else (weighted, old_wt)
        else if is_observation then (cur, old_wt)
        else (weighted, old_wt) in
      fst step :: ewm_loop alpha (fst step) (snd step) rest
  end.

Definition ewm_mean (span : float) (vals : list float) : list float :=
  match prep_values vals with
  | [] => []
  | x0 :: rest => x0 :: ewm_loop (ewm_alpha span) x0 1 rest
  end.

(** [df['close']]. *)
Definition close_column (df : DataFrame) : list float := map c_close df.

(** [df['EMA_9'] = values] and [df['EMA_20'] = values]: the values are
    aligned with the rows. *)
Definition set_EMA_9 (c : Candle) (v : float) : Candle :=
  mk_candle (c_date c) (c_open c) (c_high c) (c_low c) (c_close c)
            (c_volume c) (Some v) (c_EMA_20 c).

Definition set_EMA_20 (c : Candle) (v : float) : Candle :=
  mk_candle (c_date c) (c_open c) (c_high c) (c_low c) (c_close c)
            (c_volume c) (c_EMA_9 c) (Some v).

Fixpoint assign (set : Candle -> float -> Candle) (df : DataFrame)
         (values : list float) : DataFrame :=
  match df, values with
  | c :: df', v :: values' => set c v :: assign set df' values'
  | _, _ => []
  end.

Definition calculate_indicators (df : option DataFrame) : option DataFrame :=
  match df with
  | None => None
  | Some d =>
      if (len d <? 20)%nat then Some d
      else
        let d1 := assign set_EMA_9 d (ewm_mean 9 (close_column d)) in
        let d2 := assign set_EMA_20 d1 (ewm_mean 20 (close_column d1)) in
        Some d2
  end.

(** A signal row.  The keys read with [row[...]] are always there; the
    keys read with [row.get(..., default)] may be missing. *)
Record Row : Type := mk_row {
  r_tradingsymbol : string;
  r_date : date_text;
  r_ltp : float;
  r_is_stage2 : bool;
  r_stop_loss : option float;
  r_next_target : option float;
  r_close : option float;
  r_is_mtf : option bool;
  r_note : option string
}.

(** The ['reason'] of a result.  The two spread reasons interpolate the
    spread ([f'Too Squeezed ({spread_pct:.2f}%)']); they carry the number
    that is printed. *)
Inductive Reason : Type :=
| InsufficientData                (* 'Insufficient Data' *)
| DataOutdated                    (* 'Data Outdated' *)
| DateError (detail : string)     (* f"Date Error: {e}" *)
| EmaCrossBelow                   (* 'EMA 9 < EMA 20' *)
| PriceBelowEmas                  (* 'Price below EMAs' *)
| CloseBelowFastEma               (* 'Close below EMA 9' *)
| TooSqueezed (spread_pct : float)
| Overextended (spread_pct : float)
| NotStage2.                      (* 'Not Stage 2' *)

(** The fields of a result with ['valid': True] (its reason is
    ['Valid Setup']). *)
Record Setup : Type := mk_setup {
  v_stop_loss : float;
  v_target : float;
  v_ltp : float;
  v_close : float;
  v_ema_9 : float;
  v_ema_20 : float;
  v_spread_pct : float;
  v_is_mtf : bool;
  v_is_stage2 : bool;
  v_note : string
}.

Inductive Verdict : Type :=
| Rejected (reason : Reason)      (* {'valid': False, 'reason': ...} *)
| Valid (setup : Setup).

(** [d.get(key, default)]. *)
Definition get {A : Type} (field : option A) (default : A) : A :=
  match field with
  | Some a => a
  | None => default
  end.

(** [historical_df['date'].dt.date]: the accessor exists only on a
    datetime-like column. *)
Fixpoint dt_date_column (df : DataFrame) : Exc (list date) :=
  match df with
  | [] => Ok []
  | c :: df' =>
      match c_date c, dt_date_column df' with
      | Timestamp t, Ok ds => Ok (dt_date t :: ds)
      | _, _ => Raise "Can only use .dt accessor with datetimelike values"
      end
  end.

(** [historical_df[mask]]. *)
Fixpoint select (df : DataFrame) (mask : list bool) : DataFrame :=
  match df, mask with
  | c :: df', b :: mask' =>
      if b then c :: select df' mask' else select df' mask'
  | _, _ => []
  end.

(** [df.iloc[-1]]. *)
Fixpoint iloc_last (df : DataFrame) : Exc Candle :=
  match df with
  | [] => Raise "single positional indexer is out-of-bounds"
  | [c] => Ok c
  | _ :: df' => iloc_last df'
  end.

(** [trigger_candle['date'].date()]. *)
Definition cell_date (c : date_cell) : Exc date :=
  match c with
  | Timestamp t => Ok (dt_date t)
  | NotDatetime _ => Raise "object has no attribute 'date'"
  end.

(** What the [try] block of [validate_setup] leaves: the trigger candle, or
    the early return of ['Data Outdated']. *)
Inductive Located : Type :=
| Trigger (trigger_candle : Candle)
| Outdated.

(** The body of the [try] block (lines 45 to 58). *)
Definition locate_trigger (historical_df : DataFrame) (signal_date : date)
  : Exc Located :=
  match dt_date_column historical_df with
  | Raise e => Raise e
  | Ok dates =>
      match select historical_df (map (Z.eqb signal_date) dates) with
      | [] =>
          match iloc_last historical_df with
          | Raise e => Raise e
          | Ok trigger_candle =>
              match cell_date (c_date trigger_candle) with
              | Raise e => Raise e
              | Ok trigger_date =>
                  if (5 <? Z.abs (days_between trigger_date signal_date))%Z
                  then Ok Outdated
                  else Ok (Trigger trigger_candle)
              end
          end
      | first :: _ => Ok (Trigger first)
      end
  end.

(** [spread_pct = abs(ema_9 - ema_20) / ema_20 * 100]. *)
Definition spread_pct (ema_9 ema_20 : float) : float :=
  (abs (ema_9 - ema_20) / ema_20 * 100)%float.

(** [a > b] on floats. *)
Definition gt (a b : float) : bool := (b <? a)%float.

(** Lines 63 to 111: the rules on the trigger candle.  A missing indicator
    column raises [KeyError]. *)
Definition check_rules (row : Row) (trigger_candle : Candle) : Exc Verdict :=
  let close := c_close trigger_candle in
  match c_EMA_9 trigger_candle with
  | None => Raise "'EMA_9'"
  | Some ema_9 =>
      match c_EMA_20 trigger_candle with
      | None => Raise "'EMA_20'"
      | Some ema_20 =>
          if negb (gt ema_9 ema_20) then Ok (Rejected EmaCrossBelow)
          else if negb (gt close ema_9 && gt close ema_20)
          then Ok (Rejected PriceBelowEmas)
          else if negb (gt close ema_9) then Ok (Rejected CloseBelowFastEma)
          else
            let spread := spread_pct ema_9 ema_20 in
            if (spread <? 0.3)%float then Ok (Rejected (TooSqueezed spread))
            else if gt spread 1.2 then Ok (Rejected (Overextended spread))
            else if negb (r_is_stage2 row) then Ok (Rejected NotStage2)
            else
              Ok (Valid {|
                v_stop_loss := get (r_stop_loss row) 0%float;
                v_target := get (r_next_target row) 0%float;
                v_ltp := r_ltp row;
                v_close := get (r_close row) close;
                v_ema_9 := ema_9;
                v_ema_20 := ema_20;
                v_spread_pct := spread;
                v_is_mtf := get (r_is_mtf row) false;
                v_is_stage2 := r_is_stage2 row;
                v_note := get (r_note row) EmptyString
              |})
      end
  end.

Definition validate_setup (row : Row) (historical_df : option DataFrame)
  : Exc Verdict :=
  match historical_df with
  | None => Ok (Rejected InsufficientData)
  | Some df =>
      if (len df <? 20)%nat then Ok (Rejected InsufficientData)
      else
        match pd_to_datetime (r_date row) with
        | Raise e => Raise e
        | Ok stamp =>
            let signal_date := dt_date stamp in
            match locate_trigger df signal_date with
            | Raise e => Ok (Rejected (DateError e))
            | Ok Outdated => Ok (Rejected DataOutdated)
            | Ok (Trigger trigger_candle) => check_rules row trigger_candle
            end
        end
  end.

(** ** smart_api_client.py *)

(** *** Strings and dictionaries *)

(** [s.endswith(suffix)]. *)
Definition endswith (s suffix : string) : bool :=
  let n := String.length s in
  let m := String.length suffix in
  (m <=? n)%nat && (substring (n - m) m s =? suffix)%string.

(** [s.replace(old, new)] for a non-empty [old]: every occurrence, from the
    left; [skip] counts the characters of a matched occurrence still to
    drop. *)
Fixpoint replace_from (old new : string) (skip : nat) (s : string) : string :=
  match s with
  | EmptyString => EmptyString
  | String c rest =>
      match skip with
      | S k => replace_from old new k rest
      | O =>
          if prefix old s
          then (new ++ replace_from old new (String.length old - 1) rest)%string
          else String c (replace_from old new 0 rest)
      end
  end.

Definition replace (old new s : string) : string := replace_from old new 0 s.

(** [sub in s]. *)
Definition contains (sub s : string) : bool :=
  match index 0 sub s with
  | Some _ => true
  | None => false
  end.

(** [x in [a, b, ...]] on strings. *)
Definition str_in (x : string) (l : list string) : bool :=
  existsb (String.eqb x) l.

(** A Python [dict] with string keys: the newest binding of a key is the
    one that is found. *)
Definition dict (V : Type) : Type := list (string * V).

Definition dict_set {V : Type} (k : string) (v : V) (d : dict V) : dict V :=
  (k, v) :: d.

Fixpoint dict_get {V : Type} (k : string) (d : dict V) : option V :=
  match d with
  | [] => None
  | (k', v) :: d' => if (k =? k')%string then Some v else dict_get k d'
  end.

(** What [fetch_historical_data] returns: [(df, None)] or
    [(None, error_message)]. *)
Inductive FetchError : Type :=
| TokenNotFound (symbol : string)       (* f"Token Not Found for {symbol}" *)
| ApiReturnedNone                       (* "API returned None" *)
| ApiError (msg error_code : string)    (* f"API Error: {msg} ({error_code})" *)
| ExceptionError (e : string)           (* f"Exception: {str(e)}" *)
| MaxRetriesExceeded.                   (* "Max Retries Exceeded" *)

Inductive FetchResult : Type :=
| Fetched (df : DataFrame)
| Failed (error_message : FetchError).

(** *** What the batch loops accumulate and stream *)

(** The ['reason'] of an entry of [rejected_trades]. *)
Inductive RejectReason : Type :=
| FromValidator (reason : Reason)   (* the validator's own reason *)
| NoData (error_msg : FetchError)   (* f"No Data ({error_msg})" *)
| Error (detail : string).          (* f"Error: {str(e)}" *)

(** An entry of [rejected_trades]; its ['valid'] is [False]. *)
Record Rejection : Type := mk_rejection {
  rej_symbol : string;
  rej_reason : RejectReason
}.

(** An entry of [valid_trades]: the validator's result with the symbol and
    the target date. *)
Record Trade : Type := mk_trade {
  t_setup : Setup;
  t_symbol : string;
  t_date : string
}.

(** The lines main.py's generator yields, by their ["type"]. *)
Inductive StatusMessage : Type :=
| FetchingSignals (target_date_str : string)
| FoundRawSignals (n : nat)
| LoadingScripMaster.

Inductive ErrorMessage : Type :=
| NoSignalsFound (target_date_str : string)
| LoginFailed (e : string)          (* f"SmartAPI Login Failed: {str(e)}" *)
| CriticalError (e : string).       (* f"Critical Error: {str(e)}" *)

Inductive Yield : Type :=
| YStatus (message : StatusMessage)
| YError (message : ErrorMessage)
| YProgress (current_symbol : string) (i total : nat)
| YMatchFound (data : Trade)
| YMatchRejected (message : RejectReason) (current_symbol : string)
| YComplete (valid_count rejected_count : nat) (valid_trades : list Trade).

(** *** The outside world *)

(** An entry of the scrip master. *)
Record ScripItem : Type := mk_item {
  symbol : string;
  exch_seg : string;
  token : string
}.

(** The reply of [requests.get(SCRIP_MASTER_URL)]; [text] is the body by
    what [json.load] makes of it once it is written to the file. *)
Record HttpReply : Type := mk_http {
  status_code : Z;
  text : Exc (list ScripItem)
}.

(** A row of the ['data'] of a candle reply, cell by cell, each cell by what
    the coercion of its column makes of it ([pd.to_datetime],
    [astype(float)], [astype(int)]). *)
Record RawRow : Type := mk_raw {
  raw_date : Exc datetime;
  raw_open : Exc float;
  raw_high : Exc float;
  raw_low : Exc float;
  raw_close : Exc float;
  raw_volume : Exc Z
}.

(** The dict [getCandleData] answers with; [None] is a missing key. *)
Record Response : Type := mk_response {
  status : option bool;
  data : option (list RawRow);
  message : option string;
  errorcode : option string
}.

Inductive CandleReply : Type :=
| ReplyNone                     (* the call returned [None] *)
| ReplyDict (response : Response)
| ReplyRaises (e : string).     (* the call raised *)

(** The argument of [getCandleData]. *)
Record Params : Type := mk_params {
  exchange : string;
  symboltoken : option string;
  interval : string;
  fromdate : datetime;
  todate : datetime
}.

(** The services the client talks to.  Each answers by the number of calls
    it has received before (and, for candles, by the request). *)
Record Env : Type := mk_env {
  getCandleData : nat -> Params -> CandleReply;
  scrip_master_url : nat -> Exc HttpReply;
  generateSession : nat -> Exc bool;
  (* brkpoint_api.fetch_signals: the rows of the day, [None] on failure *)
  fetch_signals : string -> option (list Row)
}.

(** What the program does to the outside, newest first in the log. *)
Inductive Event : Type :=
| Request (params : Params)     (* a call of [getCandleData] *)
| Sleep (secs : Z)              (* [time.sleep(secs)] *)
| Login                         (* a call of [generateSession] *)
| Download                      (* a call of [_download_scrip_master] *)
| AsyncSleep                    (* [await asyncio.sleep(0.01)] *)
| Yielded (line : Yield).       (* a line streamed by main.py *)

(** The mutable state: the clock ([time.time()], in milliseconds), the
    scrip master file with its modification time, the client's [token_map]
    ([None] until it is loaded), whether the global client of main.py
    exists, and the log. *)
Record World : Type := mk_world {
  now : Z;
  scrip_master_file : option (Z * Exc (list ScripItem));
  token_map : option (dict ScripItem);
  client : bool;
  log : list Event
}.

Definition is_request (e : Event) : bool :=
  match e with Request _ => true | _ => false end.
Definition is_download (e : Event) : bool :=
  match e with Download => true | _ => false end.
Definition is_login (e : Event) : bool :=
  match e with Login => true | _ => false end.

Definition count (p : Event -> bool) (l : list Event) : nat :=
  len (filter p l).

(** The events in the order they happened. *)
Definition trace (w : World) : list Event := rev (log w).

(** *** Stateful computations that may raise *)

Definition M (A : Type) : Type := World -> Exc A * World.

Definition ret {A : Type} (a : A) : M A := fun w => (Ok a, w).

Definition raise {A : Type} (e : string) : M A := fun w => (Raise e, w).

Definition bind {A B : Type} (m : M A) (k : A -> M B) : M B :=
  fun w =>
    match m w with
    | (Ok a, w') => k a w'
    | (Raise e, w') => (Raise e, w')
    end.

(** [try: body  except Exception as e: handler]. *)
Definition try_except {A : Type} (body : M A) (handler : string -> M A) : M A :=
  fun w =>
    match body w with
    | (Ok a, w') => (Ok a, w')
    | (Raise e, w') => handler e w'
    end.

Definition lift {A : Type} (x : Exc A) : M A := fun w => (x, w).

Definition gets {A : Type} (f : World -> A) : M A := fun w => (Ok (f w), w).

Definition modify (f : World -> World) : M unit := fun w => (Ok tt, f w).

Declare Scope py_scope.
Delimit Scope py_scope with py.
Notation "x <- m ;; k" := (bind m (fun x => k))
  (at level 61, m at next level, right associativity) : py_scope.
Notation "m ;; k" := (bind m (fun _ => k))
  (at level 61, right associativity) : py_scope.
Open Scope py_scope.

(** The state after an event is logged. *)
Definition add_event (e : Event) (w : World) : World :=
  mk_world (now w) (scrip_master_file w) (token_map w) (client w)
           (e :: log w).

Definition emit (e : Event) : M unit := modify (add_event e).

(** [time.sleep(secs)]. *)
Definition after_sleep (secs : Z) (w : World) : World :=
  mk_world (now w + 1000 * secs)%Z (scrip_master_file w) (token_map w)
           (client w) (Sleep secs :: log w).

Definition time_sleep (secs : Z) : M unit := modify (after_sleep secs).

(** [await asyncio.sleep(0.01)]. *)
Definition after_async_sleep (w : World) : World :=
  mk_world (now w + 10)%Z (scrip_master_file w) (token_map w) (client w)
           (AsyncSleep :: log w).

Definition asyncio_sleep : M unit := modify after_async_sleep.

(** [with open(SCRIP_MASTER_FILE, 'w') as f: f.write(r.text)]. *)
Definition with_file (content : Exc (list ScripItem)) (w : World) : World :=
  mk_world (now w) (Some (now w, content)) (token_map w) (client w) (log w).

Definition write_file (content : Exc (list ScripItem)) : M unit :=
  modify (with_file content).

(** [self.token_map = ...]. *)
Definition with_token_map (d : dict ScripItem) (w : World) : World :=
  mk_world (now w) (scrip_master_file w) (Some d) (client w) (log w).

Definition set_token_map (d : dict ScripItem) : M unit :=
  modify (with_token_map d).

(** [client = SmartApiClient()] in main.py: a new client, with no
    [token_map] yet, becomes the global one. *)
Definition with_new_client (w : World) : World :=
  mk_world (now w) (scrip_master_file w) None true (log w).

(** *** class SmartApiClient *)

(** The dictionary [load_scrip_master] builds from the entries, in their
    order. *)
Definition index_item (token_map : dict ScripItem) (item : ScripItem)
  : dict ScripItem :=
  if (exch_seg item =? "NSE")%string && endswith (symbol item) "-EQ" then
    let symbol_root := replace "-EQ" EmptyString (symbol item) in
    dict_set symbol_root item token_map
  else if (exch_seg item =? "NSE")%string then
    dict_set (symbol item) item token_map
  else token_map.

Definition build_token_map (data : list ScripItem) : dict ScripItem :=
  fold_left index_item data [].

(** [if not token]: [None] and the empty string are false. *)
Definition truthy (token : option string) : bool :=
  match token with
  | None => false
  | Some s => negb (s =? EmptyString)%string
  end.

(** The columns of the frame, coerced one after the other; the first cell
    that does not convert raises. *)
Fixpoint column {A : Type} (cell : RawRow -> Exc A) (rows : list RawRow)
  : Exc (list A) :=
  match rows with
  | [] => Ok []
  | r :: rows' =>
      match cell r with
      | Raise e => Raise e
      | Ok a =>
          match column cell rows' with
          | Raise e => Raise e
          | Ok l => Ok (a :: l)
          end
      end
  end.

Fixpoint frame (dates : list datetime) (opens highs lows closes : list float)
         (volumes : list Z) : DataFrame :=
  match dates, opens, highs, lows, closes, volumes with
  | d :: ds, o :: os, h :: hs, l :: ls, c :: cs, v :: vs =>
      mk_candle (Timestamp d) o h l c v None None :: frame ds os hs ls cs vs
  | _, _, _, _, _, _ => []
  end.

(** Lines 125 to 131. *)
Definition parse_frame (rows : list RawRow) : Exc DataFrame :=
  match column raw_date rows with
  | Raise e => Raise e
  | Ok dates =>
  match column raw_open rows with
  | Raise e => Raise e
  | Ok opens =>
  match column raw_high rows with
  | Raise e => Raise e
  | Ok highs =>
  match column raw_low rows with
  | Raise e => Raise e
  | Ok lows =>
  match column raw_close rows with
  | Raise e => Raise e
  | Ok closes =>
  match column raw_volume rows with
  | Raise e => Raise e
  | Ok volumes => Ok (frame dates opens highs lows closes volumes)
  end end end end end end.

(** How one pass of the retry loop ends: [continue] (or the fall through
    after the handler) with the token now in [params], or [return]. *)
Inductive Step : Type :=
| Continue (token : option string)
| Return (result : FetchResult).

Section Client.

Variable env : Env.

(** [self.login()]: every exception is caught inside. *)
Definition login : M bool :=
  n <- gets (fun w => count is_login (log w)) ;;
  emit Login ;;
  match generateSession env n with
  | Raise _ => ret false
  | Ok session_status => ret session_status
  end.

Definition _download_scrip_master : M unit :=
  n <- gets (fun w => count is_download (log w)) ;;
  emit Download ;;
  r <- lift (scrip_master_url env n) ;;
  if (status_code r =? 200)%Z then write_file (text r) else ret tt.

Definition load_scrip_master : M unit :=
  file <- gets scrip_master_file ;;
  match file with
  | Some (file_time, _) =>
      t <- gets now ;;
      if (1000 * 86400 <? t - file_time)%Z
      then _download_scrip_master else ret tt
  | None => _download_scrip_master
  end ;;
  file <- gets scrip_master_file ;;
  match file with
  | None => raise "No such file or directory: 'OpenAPIScripMaster.json'"
  | Some (_, content) =>
      data <- lift content ;;
      set_token_map (build_token_map data)
  end.

Definition get_token (symbol : string) : M (option string) :=
  loaded <- gets token_map ;;
  match loaded with
  | None => load_scrip_master
  | Some _ => ret tt
  end ;;
  loaded <- gets token_map ;;
  match loaded with
  | None => raise "argument of type 'NoneType' is not iterable"
  | Some d =>
      match dict_get symbol d with
      | Some item => ret (Some (token item))
      | None => ret None
      end
  end.

(** [self.smartApi.getCandleData(params)]. *)
Definition call_getCandleData (params : Params) : M (option Response) :=
  n <- gets (fun w => count is_request (log w)) ;;
  emit (Request params) ;;
  match getCandleData env n params with
  | ReplyNone => ret None
  | ReplyDict response => ret (Some response)
  | ReplyRaises e => raise e
  end.

(** The body of [for attempt in range(5)]. *)
Definition attempt_body (symbol : string) (from_date to_date : datetime)
           (interval : string) (attempt : nat) (token : option string)
  : M Step :=
  try_except
    (response <- call_getCandleData
                   (mk_params "NSE" token interval from_date to_date) ;;
     match response with
     | None => ret (Return (Failed ApiReturnedNone))
     | Some response =>
         let status := get (status response) false in
         if Bool.eqb status true
            && negb (len (get (data response) []) =? 0)%nat
         then
           df <- lift (parse_frame (get (data response) [])) ;;
           ret (Return (Fetched df))
         else
           let msg := get (message response) "Unknown API Error"%string in
           let error_code := get (errorcode response) EmptyString in
           if str_in error_code ["AB1004"; "AB1005"; "AB2001"]%string then
             time_sleep 5 ;;
             (if (attempt =? 2)%nat then login ;; ret tt else ret tt) ;;
             ret (Continue token)
           else if contains "Invalid Token" msg
                   || (error_code =? "AG8001")%string then
             _download_scrip_master ;;
             load_scrip_master ;;
             token' <- get_token symbol ;;
             time_sleep 2 ;;
             ret (Continue token')
           else ret (Return (Failed (ApiError msg error_code)))
     end)
    (fun e =>
       time_sleep 2 ;;
       if (attempt =? 4)%nat then ret (Return (Failed (ExceptionError e)))
       else ret (Continue token)).

Fixpoint retry_loop (symbol : string) (from_date to_date : datetime)
         (interval : string) (attempts : list nat) (token : option string)
  : M FetchResult :=
  match attempts with
  | [] => ret (Failed MaxRetriesExceeded)
  | attempt :: rest =>
      step <- attempt_body symbol from_date to_date interval attempt token ;;
      match step with
      | Return result => ret result
      | Continue token' =>
          retry_loop symbol from_date to_date interval rest token'
      end
  end.

(** [range(n)]. *)
Definition range (n : nat) : list nat := seq 0 n.

Definition fetch_historical_data (symbol : string)
           (from_date to_date : datetime) : M FetchResult :=
  token <- get_token symbol ;;
  if negb (truthy token) then ret (Failed (TokenNotFound symbol))
  else retry_loop symbol from_date to_date "ONE_DAY" (range 5) token.

End Client.

(** ** The batch loops *)

(** The two accumulators of a run. *)
Record Batch : Type := mk_batch {
  valid_trades : list Trade;
  rejected_trades : list Rejection
}.

Definition empty_batch : Batch := mk_batch [] [].

(** [valid_trades.append(res_row)] and [rejected_trades.append(rej_row)]. *)
Definition append_valid (res_row : Trade) (b : Batch) : Batch :=
  mk_batch (valid_trades b ++ [res_row]) (rejected_trades b).

Definition append_rejected (rej_row : Rejection) (b : Batch) : Batch :=
  mk_batch (valid_trades b) (rejected_trades b ++ [rej_row]).

Section Orchestrators.

Variable env : Env.

(** *** backend/main.py

    A [yield json.dumps(...)] is logged as a [Yielded] event. *)

Definition yield (line : Yield) : M unit := emit (Yielded line).

(** [get_client()]: the global is assigned before the login is tried. *)
Definition get_client : M unit :=
  c <- gets client ;;
  if c then ret tt
  else
    modify with_new_client ;;
    logged_in <- login env ;;
    if logged_in then ret tt else raise "Failed to login to SmartAPI".

(** Lines 95 to 127: the [try] statement of one row. *)
Definition process_row (target_date_str : string) (row : Row) (b : Batch)
  : M Batch :=
  let symbol := r_tradingsymbol row in
  try_except
    (to_date_obj <- lift (strptime_iso (r_date row)) ;;
     let to_date_str := strftime_minute to_date_obj in
     let from_date_obj := minus_days to_date_obj 60 in
     let from_date_str := strftime_minute from_date_obj in
     fetched <- fetch_historical_data env symbol from_date_str to_date_str ;;
     match fetched with
     | Fetched hist_df =>
         let hist_df := calculate_indicators (Some hist_df) in
         result <- lift (validate_setup row hist_df) ;;
         match result with
         | Valid setup =>
             let res_row := mk_trade setup symbol target_date_str in
             let b := append_valid res_row b in
             yield (YMatchFound res_row) ;;
             ret b
         | Rejected reason =>
             let rej_row := mk_rejection symbol (FromValidator reason) in
             let b := append_rejected rej_row b in
             let b := append_rejected rej_row b in
             yield (YMatchRejected (FromValidator reason) symbol) ;;
             ret b
         end
     | Failed error_msg =>
         let msg := NoData error_msg in
         let b := append_rejected (mk_rejection symbol msg) b in
         yield (YMatchRejected msg symbol) ;;
         ret b
     end)
    (fun e => ret (append_rejected (mk_rejection symbol (Error e)) b)).

(** Lines 82 to 134: [for i, row in signals_df.iterrows()], from row [i]. *)
Fixpoint for_rows (target_date_str : string) (total i : nat)
         (rows : list Row) (b : Batch) : M Batch :=
  match rows with
  | [] => ret b
  | row :: rest =>
      yield (YProgress (r_tradingsymbol row) i total) ;;
      b' <- process_row target_date_str row b ;;
      asyncio_sleep ;;
      for_rows target_date_str total (S i) rest b'
  end.

(** [run_backtest.event_generator]; it ends with the accumulators when
    it reaches the final ["complete"] line. *)
Definition event_generator (target_date_str : string) : M (option Batch) :=
  try_except
    (yield (YStatus (FetchingSignals target_date_str)) ;;
     match fetch_signals env target_date_str with
     | None | Some [] =>
         yield (YError (NoSignalsFound target_date_str)) ;;
         ret None
     | Some signals_df =>
         yield (YStatus (FoundRawSignals (len signals_df))) ;;
         failure <- try_except (get_client ;; ret None)
                               (fun e => ret (Some e)) ;;
         match failure with
         | Some e => yield (YError (LoginFailed e)) ;; ret None
         | None =>
             loaded <- gets token_map ;;
             match loaded with
             | None =>
                 yield (YStatus LoadingScripMaster) ;;
                 load_scrip_master env
             | Some _ => ret tt
             end ;;
             b <- for_rows target_date_str (len signals_df) 0 signals_df
                           empty_batch ;;
             yield (YComplete (len (valid_trades b))
                              (len (rejected_trades b))
                              (valid_trades b)) ;;
             ret (Some b)
         end
     end)
    (fun e => yield (YError (CriticalError e)) ;; ret None).

(** *** app.py

    The script from line 43, once the cached client is logged in and the
    Run button is pressed.  Nothing catches an exception here: it ends
    the script. *)

(** Lines 72 to 109: one row. *)
Definition app_row (date_str : string) (row : Row) (b : Batch) : M Batch :=
  let symbol := r_tradingsymbol row in
  to_date_obj <- lift (strptime_iso (r_date row)) ;;
  let to_date_str := strftime_minute to_date_obj in
  let from_date_obj := minus_days to_date_obj 60 in
  let from_date_str := strftime_minute from_date_obj in
  fetched <- fetch_historical_data env symbol from_date_str to_date_str ;;
  b' <- match fetched with
        | Fetched hist_df =>
            let hist_df := calculate_indicators (Some hist_df) in
            result <- lift (validate_setup row hist_df) ;;
            match result with
            | Valid setup =>
                ret (append_valid (mk_trade setup symbol date_str) b)
            | Rejected reason =>
                ret (append_rejected
                       (mk_rejection symbol (FromValidator reason)) b)
            end
        | Failed error_msg =>
            ret (append_rejected (mk_rejection symbol (NoData error_msg)) b)
        end ;;
  time_sleep 1 ;;
  ret b'.

Fixpoint app_rows (date_str : string) (rows : list Row) (b : Batch)
  : M Batch :=
  match rows with
  | [] => ret b
  | row :: rest =>
      b' <- app_row date_str row b ;;
      app_rows date_str rest b'
  end.

Definition app_run_backtest (date_str : string) : M (option Batch) :=
  loaded <- gets token_map ;;
  match loaded with
  | None => load_scrip_master env
  | Some _ => ret tt
  end ;;
  match fetch_signals env date_str with
  | None | Some [] => ret None
  | Some signals_df =>
      b <- app_rows date_str signals_df empty_batch ;;
      ret (Some b)
  end.

End Orchestrators.

(** ** debug_mapping.py

    The script that lists, for six symbols, the NSE entries of the scrip
    master file whose symbol contains them.  What it prints is what it
    returns here. *)

Inductive Printed : Type :=
| LoadedItems (n : nat)          (* f"Loaded {len(data)} items." *)
| MatchesFor (t : string) (found : option (list string))
                                 (* f"Matches for {t}: {...}", 'None' *)
| ErrorLine (e : string).        (* f"Error: {e}" *)

Definition target_symbols : list string :=
  ["3MINDIA"; "5PAISA"; "ABCAPITAL"; "AJANTPHARM"; "ORIENTCER"; "SAIL"]%string.

(** Lines 18 to 21, for one entry and one target; [found_map[t]] is bound
    by the line before the [append]. *)
Definition note_match (item : ScripItem) (found_map : dict (list string))
           (t : string) : dict (list string) :=
  if contains t (symbol item) && (exch_seg item =? "NSE")%string then
    let found_map :=
      match dict_get t found_map with
      | None => dict_set t [] found_map
      | Some _ => found_map
      end in
    dict_set t (get (dict_get t found_map) [] ++ [symbol item]) found_map
  else found_map.

(** Lines 14 to 21: the two loops. *)
Definition find_matches (targets : list string) (data : list ScripItem)
  : dict (list string) :=
  fold_left (fun found_map item =>
               fold_left (note_match item) targets found_map)
            data [].

Definition check_symbols (w : World) : list Printed :=
  match scrip_master_file w with
  | None => [ErrorLine "No such file or directory: 'OpenAPIScripMaster.json'"]
  | Some (_, Raise e) => [ErrorLine e]
  | Some (_, Ok data) =>
      let found_map := find_matches target_symbols data in
      LoadedItems (len data)
      :: map (fun t => MatchesFor t (dict_get t found_map)) target_symbols
  end.

(** * What the properties are stated with *)

(** ** The rule gates as the specification lists them

    Section 4.3 of the specification: five gates, "evaluated in order,
    first failure wins".  Each gate is a test on the numbers of the trigger
    bar and the stage flag; [first_failure] runs a list of gates in order.
    These definitions follow the specification's words and are compared
    with [check_rules] below. *)

Record GateInput : Type := mk_gate_input {
  g_ema_9 : float;
  g_ema_20 : float;
  g_close : float;
  g_is_stage2 : bool
}.

Definition Gate : Type := GateInput -> option Reason.

Definition gate_a : Gate := fun x =>
  if gt (g_ema_9 x) (g_ema_20 x) then None else Some EmaCrossBelow.

Definition gate_b : Gate := fun x =>
  if gt (g_close x) (g_ema_9 x) && gt (g_close x) (g_ema_20 x)
  then None else Some PriceBelowEmas.

Definition gate_c : Gate := fun x =>
  if gt (g_close x) (g_ema_9 x) then None else Some CloseBelowFastEma.

Definition gate_d : Gate := fun x =>
  let spread := spread_pct (g_ema_9 x) (g_ema_20 x) in
  if (spread <? 0.3)%float then Some (TooSqueezed spread)
  else if gt spread 1.2 then Some (Overextended spread)
  else None.

Definition gate_e : Gate := fun x =>
  if g_is_stage2 x then None else Some NotStage2.

Definition gates_in_order : list Gate :=
  [gate_a; gate_b; gate_c; gate_d; gate_e].

Fixpoint first_failure (gates : list Gate) (x : GateInput) : option Reason :=
  match gates with
  | [] => None
  | g :: rest =>
      match g x with
      | Some reason => Some reason
      | None => first_failure rest x
      end
  end.

(** What the rules read: the trigger bar's numbers and the row's flag. *)
Definition gate_input (row : Row) (trigger_candle : Candle)
           (ema_9 ema_20 : float) : GateInput :=
  mk_gate_input ema_9 ema_20 (c_close trigger_candle) (r_is_stage2 row).

(** The same row with another ['is_mtf'] key (or without it). *)
Definition with_is_mtf (is_mtf : option bool) (row : Row) : Row :=
  mk_row (r_tradingsymbol row) (r_date row) (r_ltp row) (r_is_stage2 row)
         (r_stop_loss row) (r_next_target row) (r_close row) is_mtf
         (r_note row).

(** A result with its echoed ['is_mtf'] replaced. *)
Definition echo_is_mtf (is_mtf : bool) (result : Exc Verdict) : Exc Verdict :=
  match result with
  | Ok (Valid s) =>
      Ok (Valid (mk_setup (v_stop_loss s) (v_target s) (v_ltp s) (v_close s)
                          (v_ema_9 s) (v_ema_20 s) (v_spread_pct s) is_mtf
                          (v_is_stage2 s) (v_note s)))
  | other => other
  end.

(** ['valid'] and ['reason'] of a result: [None] stands for the accepted
    result's ['Valid Setup']. *)
Definition outcome (result : Exc Verdict) : Exc (option Reason) :=
  match result with
  | Ok (Valid _) => Ok None
  | Ok (Rejected reason) => Ok (Some reason)
  | Raise e => Raise e
  end.

(** A frame is short when it is missing or has fewer than 20 rows. *)
Definition short (df : option DataFrame) : bool :=
  match df with
  | None => true
  | Some d => (len d <? 20)%nat
  end.

(** ** Numbers among the floats

    A float by its IEEE-754 description: [sf_number] for one that is no
    NaN, [sf_finite] for one that is neither a NaN nor infinite. *)
Definition sf_number (x : spec_float) : Prop :=
  match x with
  | S754_nan => False
  | _ => True
  end.

Definition sf_finite (x : spec_float) : Prop :=
  match x with
  | S754_zero _ | S754_finite _ _ _ => True
  | _ => False
  end.

(** A weight of the average: a finite float that is not zero; and one that
    is below 2^-1, which every [alpha] of a span above 3 is. *)
Definition weight (a : float) : bool :=
  match Prim2SF a with
  | S754_finite _ _ _ => true
  | _ => false
  end.

Definition small_weight (a : float) : bool :=
  match Prim2SF a with
  | S754_finite _ _ e => (e <=? -54)%Z
  | _ => false
  end.

(** ** The moving average as the specification states it

    Section 4.2: value[0] = close[0] and value[i] = alpha * close[i] +
    (1 - alpha) * value[i-1], with alpha = 2 / (span + 1).
    [ema_value span close i] is value[i] for the closes [close 0],
    [close 1], ... *)
Fixpoint ema_value (span : float) (close : nat -> float) (i : nat) : float :=
  match i with
  | O => close O
  | S j =>
      let alpha := (2 / (span + 1))%float in
      (alpha * close (S j) + (1 - alpha) * ema_value span close j)%float
  end.

(** The close of bar [i] of the frame, for [i] in range. *)
Definition close_at (df : DataFrame) (i : nat) : float :=
  match nth_error df i with
  | Some c => c_close c
  | None => 0%float
  end.

(** Every close of the frame is a finite number, neither NaN nor
    infinite. *)
Definition observations (df : DataFrame) : bool :=
  forallb (fun c => is_finite (c_close c)) df.

(** ** The moving average as the program computes it on finite closes

    One step from [prev = value[i-1]] and [close = close[i]]: the value is
    kept when the close equals it; otherwise it is the recurrence of
    section 4.2, every operation being one of binary64. *)
Definition ema_step (alpha prev close : float) : float :=
  if (prev =? close)%float then prev
  else (alpha * close + (1 - alpha) * prev)%float.

Fixpoint ema_guarded (span : float) (close : nat -> float) (i : nat)
  : float :=
  match i with
  | O => close O
  | S j =>
      ema_step (2 / (span + 1)) (ema_guarded span close j) (close (S j))
  end.

(** ** The response classes of the specification

    Section 4.1, step 2, names the classes of an upstream answer; they are
    told apart by the tests of the retry loop.  A dict with a true status
    and data is a Success, whether or not its rows convert (step 5 parses
    them afterwards); TransportException is a call that raised. *)
Inductive ResponseClass : Type :=
| Success
| RateLimited
| InvalidIdentifier
| OtherApiError
| ReturnedNone
| TransportException.

Definition classify (reply : CandleReply) : ResponseClass :=
  match reply with
  | ReplyRaises _ => TransportException
  | ReplyNone => ReturnedNone
  | ReplyDict response =>
      if Bool.eqb (get (status response) false) true
         && negb (len (get (data response) []) =? 0)%nat
      then Success
      else if str_in (get (errorcode response) EmptyString)
                     ["AB1004"; "AB1005"; "AB2001"]%string
      then RateLimited
      else if contains "Invalid Token"
                       (get (message response) "Unknown API Error"%string)
              || (get (errorcode response) EmptyString =? "AG8001")%string
      then InvalidIdentifier
      else OtherApiError
  end.

(** What the coercion of the rows of an answer gives (lines 125 to 131). *)
Definition parsed (reply : CandleReply) : Exc DataFrame :=
  match reply with
  | ReplyDict response => parse_frame (get (data response) [])
  | _ => Raise "no rows"
  end.

(** The request [fetch_historical_data] sends for a token. *)
Definition candle_params (token : option string) (from_date to_date : datetime)
  : Params :=
  mk_params "NSE" token "ONE_DAY" from_date to_date.

(** How many candle requests and downloads a state has logged. *)
Definition requests (w : World) : nat := count is_request (log w).
Definition downloads (w : World) : nat := count is_download (log w).

(** The token the table of the scrip master gives a symbol. *)
Definition resolve (table : list ScripItem) (symbol : string) : option string :=
  option_map token (dict_get symbol (build_token_map table)).

(** [at_most n m]: running [m] logs at most [n] candle requests, whether it
    returns or raises. *)
Definition at_most {A : Type} (n : nat) (m : M A) : Prop :=
  forall w, (requests (snd (m w)) <= requests w + n)%nat.

(** How many records a run has accumulated. *)
Definition records (b : Batch) : nat :=
  (len (valid_trades b) + len (rejected_trades b))%nat.

(** * Sample inputs *)

(** 2025-12-31T18:30:00.000Z, the example of app.py. *)
Definition signal_day : date := 739616%Z.
Definition signal_time : datetime := mk_datetime signal_day 66600%Z.

(** A trigger candle with the three numbers the rules read. *)
Definition trigger_bar (t : datetime) (close ema_9 ema_20 : float) : Candle :=
  mk_candle (Timestamp t) close close close close 0%Z (Some ema_9)
            (Some ema_20).

(** A signal row of the given date, in stage 2 or not, with no optional
    key. *)
Definition plain_row (t : datetime) (stage2 : bool) : Row :=
  mk_row "RELIANCE" (IsoZ t) 101.5 stage2 None None None None None.

(** A frame of [n] copies of one candle. *)
Definition flat_frame (n : nat) (c : Candle) : DataFrame := repeat c n.

(** Twenty bars on consecutive days ending on [last_day], closes 100, 101,
    ..., 119, not yet annotated. *)
Definition rising_closes : list float :=
  [100; 101; 102; 103; 104; 105; 106; 107; 108; 109;
   110; 111; 112; 113; 114; 115; 116; 117; 118; 119]%float.

Fixpoint bars_from (day : date) (closes : list float) : DataFrame :=
  match closes with
  | [] => []
  | c :: rest =>
      mk_candle (Timestamp (mk_datetime day 0%Z)) c c c c 1000%Z None None
      :: bars_from (day + 1)%Z rest
  end.

Definition rising_frame (last_day : date) : DataFrame :=
  bars_from (last_day - 19)%Z rising_closes.

(** Twenty bars with the same close, 100.05; and the rising frame with an
    infinite close on its second bar. *)
Definition level_frame : DataFrame :=
  bars_from (signal_day - 19)%Z (repeat 100.05%float 20).

Definition spiked_frame : DataFrame :=
  bars_from (signal_day - 19)%Z
            (100%float :: infinity :: skipn 2 rising_closes).

(** The same frame with the date of its first bar replaced by an object
    that is no timestamp. *)
Definition broken_frame (last_day : date) : DataFrame :=
  match rising_frame last_day with
  | [] => []
  | c :: rest =>
      mk_candle (NotDatetime "n/a") (c_open c) (c_high c) (c_low c)
                (c_close c) (c_volume c) (c_EMA_9 c) (c_EMA_20 c) :: rest
  end.

(** The annotated frames the validator is given in the examples. *)
Definition annotated (df : DataFrame) : DataFrame :=
  match calculate_indicators (Some df) with
  | Some d => d
  | None => []
  end.

(** Annotated frames whose last bar is 3 and 6 days before the signal. *)
Definition frame_3_days_old : DataFrame :=
  annotated (rising_frame (signal_day - 3)%Z).

Definition frame_6_days_old : DataFrame :=
  annotated (rising_frame (signal_day - 6)%Z).

(** The scrip master entry of one share, the state of a client that has
    loaded it, and a window of 60 days. *)
Definition reliance : ScripItem := mk_item "RELIANCE-EQ" "NSE" "2885".

Definition ready_world : World :=
  mk_world 0%Z (Some (0%Z, Ok [reliance]))
           (Some (build_token_map [reliance])) true [].

Definition to_date_sample : datetime := strftime_minute signal_time.
Definition from_date_sample : datetime :=
  strftime_minute (minus_days signal_time 60).

(** An upstream that answers every request with a rate limit error. *)
Definition rate_limited_response : Response :=
  mk_response (Some false) None
              (Some "Access denied because of exceeding access rate"%string)
              (Some "AB1004"%string).

Definition busy_upstream : Env :=
  mk_env (fun _ _ => ReplyDict rate_limited_response)
         (fun _ => Raise "connection refused")
         (fun _ => Ok true)
         (fun _ => None).

(** An upstream that has renumbered the share: it knows the token 2886 and
    answers "Invalid Token" to any other; the scrip master it serves has the
    new token. *)
Definition renumbered : ScripItem := mk_item "RELIANCE-EQ" "NSE" "2886".

Definition invalid_token_response : Response :=
  mk_response (Some false) None (Some "Invalid Token"%string)
              (Some "AG8001"%string).

Definition one_bar : list RawRow :=
  [mk_raw (Ok (mk_datetime signal_day 0%Z)) (Ok 100%float) (Ok 102%float)
          (Ok 99%float) (Ok 101%float) (Ok 1000%Z)].

Definition success_response (rows : list RawRow) : Response :=
  mk_response (Some true) (Some rows) (Some "SUCCESS"%string)
              (Some EmptyString).

Definition answer_by_token (rows : list RawRow) (p : Params) : CandleReply :=
  match symboltoken p with
  | Some t =>
      if (t =? "2886")%string then ReplyDict (success_response rows)
      else ReplyDict invalid_token_response
  | None => ReplyDict invalid_token_response
  end.

Definition renumbered_upstream : Env :=
  mk_env (fun _ p => answer_by_token one_bar p)
         (fun _ => Ok (mk_http 200 (Ok [renumbered])))
         (fun _ => Ok true)
         (fun _ => None).

(** An upstream that answers every request with the same rows, and a signal
    source that gives the same rows for every day. *)
Definition steady_upstream (rows : list RawRow) (signals : list Row) : Env :=
  mk_env (fun _ _ => ReplyDict (success_response rows))
         (fun _ => Raise "connection refused")
         (fun _ => Ok true)
         (fun _ => Some signals).

(** A signal whose ['date'] is not in the format the loops parse. *)
Definition misdated_row : Row :=
  mk_row "RELIANCE" (NotADate "31/12/2025") 101.5 true None None None None
         None.

(** A signal whose ['date'] no parser reads, and the text [pd.to_datetime]
    raises with on it (its wording varies with the version of pandas). *)
Definition undated_row : Row :=
  mk_row "RELIANCE" (NotADate "not a date") 101.5 true None None None None
         None.

Definition unreadable_text : string :=
  "Unknown datetime string format, unable to parse: not a date".

(** The text [strptime] raises with on a date it cannot read. *)
Definition bad_date_text : string :=
  "time data does not match format '%Y-%m-%dT%H:%M:%S.%fZ'".

(** The rejection of the sample signal on a series that is too short. *)
Definition short_rejection : Rejection :=
  mk_rejection "RELIANCE" (FromValidator InsufficientData).

(** An upstream whose every answer is a success with a close that is no
    number. *)
Definition bad_close_row : list RawRow :=
  [mk_raw (Ok (mk_datetime signal_day 0%Z)) (Ok 100%float) (Ok 102%float)
          (Ok 99%float) (Raise "could not convert string to float: 'abc'")
          (Ok 1000%Z)].

Definition garbled_upstream : Env :=
  mk_env (fun _ _ => ReplyDict (success_response bad_close_row))
         (fun _ => Raise "connection refused")
         (fun _ => Ok true)
         (fun _ => None).

(** ** Shapes of frames *)

(** The ['date'] column holds timestamps only. *)
Definition datetimelike (df : DataFrame) : Prop :=
  Forall (fun c => exists t, c_date c = Timestamp t) df.

(** Both indicator columns are there. *)
Definition has_indicators (df : DataFrame) : Prop :=
  Forall (fun c => c_EMA_9 c <> None /\ c_EMA_20 c <> None) df.

(** A row of the upstream's table converts to a candle: every cell
    converts, and the candle has the six values and no indicator. *)
Definition converts_to (r : RawRow) (c : Candle) : Prop :=
  exists d o h l cl v,
    raw_date r = Ok d /\ raw_open r = Ok o /\ raw_high r = Ok h
    /\ raw_low r = Ok l /\ raw_close r = Ok cl /\ raw_volume r = Ok v
    /\ c = mk_candle (Timestamp d) o h l cl v None None.

(** An annotated frame whose sixth bar is on the signal's day and whose
    last bar is 14 days later. *)
Definition frame_ahead : DataFrame :=
  Eval vm_compute in annotated (rising_frame (signal_day + 14)%Z).

(** An upstream whose every call raises, with the number of the call in
    the text. *)
Definition timeout_text (n : nat) : string :=
  match n with
  | 4 => "Read timed out (fifth call)"
  | _ => "Read timed out"
  end.

Definition dead_upstream : Env :=
  mk_env (fun n _ => ReplyRaises (timeout_text n))
         (fun _ => Raise "connection refused")
         (fun _ => Ok true)
         (fun _ => None).

(** An upstream that rejects every token, while the scrip master is served
    unchanged. *)
Definition rejecting_upstream : Env :=
  mk_env (fun _ _ => ReplyDict invalid_token_response)
         (fun _ => Ok (mk_http 200 (Ok [reliance])))
         (fun _ => Ok true)
         (fun _ => None).

(** An upstream that answers with an error of its own. *)
Definition other_error_response : Response :=
  mk_response (Some false) None (Some "Something Went Wrong"%string)
              (Some "AB1010"%string).

Definition erring_upstream : Env :=
  mk_env (fun _ _ => ReplyDict other_error_response)
         (fun _ => Raise "connection refused")
         (fun _ => Ok true)
         (fun _ => None).

(** ** The key of an entry of the scrip master *)

(** The key under which [load_scrip_master] files an NSE entry: the symbol
    without its "-EQ" for an equity, the symbol itself otherwise. *)
Definition root (item : ScripItem) : string :=
  if endswith (symbol item) "-EQ"
  then replace "-EQ" EmptyString (symbol item)
  else symbol item.

(** A scrip master with an entry of another exchange, an equity and an
    index of NSE, and a later entry for the same equity. *)
Definition sample_table : list ScripItem :=
  [mk_item "RELIANCE" "BSE" "500325";
   mk_item "RELIANCE-EQ" "NSE" "2885";
   mk_item "Nifty 50" "NSE" "99926000";
   mk_item "RELIANCE-EQ" "NSE" "2886"].

(** A state whose scrip master file is two days old. *)
Definition stale_world : World :=
  mk_world (2 * 86400000)%Z (Some (0%Z, Ok [reliance])) None false [].

(** ** What a fetch may do *)

(** [steps R m]: running [m] takes every state to one related to it by
    [R], whether [m] returns or raises. *)
Definition steps {A : Type} (R : World -> World -> Prop) (m : M A) : Prop :=
  forall w, R w (snd (m w)).

(** The events of a fetch for the window from [from_date] to [to_date]:
    requests to NSE for daily candles of that window, sleeps of 2 or 5
    seconds, logins and downloads; never a streamed line. *)
Definition fetch_event (from_date to_date : datetime) (e : Event) : Prop :=
  match e with
  | Request p =>
      exchange p = "NSE"%string /\ interval p = "ONE_DAY"%string
      /\ fromdate p = from_date /\ todate p = to_date
  | Sleep secs => secs = 2%Z \/ secs = 5%Z
  | Login => True
  | Download => True
  | AsyncSleep => False
  | Yielded _ => False
  end.

(** A fetch only adds such events to the log, never puts the clock back,
    leaves the global client as it is and keeps a table that is loaded. *)
Definition fetch_step (from_date to_date : datetime) (w w' : World) : Prop :=
  (exists new,
      log w' = new ++ log w /\ Forall (fetch_event from_date to_date) new)
  /\ (now w <= now w')%Z
  /\ client w' = client w
  /\ (token_map w <> None -> token_map w' <> None).

(** An upstream that refuses the login. *)
Definition locked_out : Env :=
  mk_env (fun _ _ => ReplyNone)
         (fun _ => Raise "connection refused")
         (fun _ => Ok false)
         (fun _ => Some [plain_row signal_time true]).

(** A state with no client yet. *)
Definition fresh_world : World :=
  mk_world 0%Z (Some (0%Z, Ok [reliance])) None false [].


(** No event of the list is a streamed line. *)
Definition no_line (l : list Event) : Prop :=
  Forall (fun e => match e with Yielded _ => False | _ => True end) l.

(** An upstream that is rate limited for its first three answers and then
    answers with the rows. *)
Definition recovering_upstream : Env :=
  mk_env (fun n _ => if (n <? 3)%nat then ReplyDict rate_limited_response
                     else ReplyDict (success_response one_bar))
         (fun _ => Raise "connection refused")
         (fun _ => Ok true)
         (fun _ => None).

(** The state after [k] rate-limited passes of the retry loop, the first of
    them being pass [a]: a request and a sleep of 5 seconds each, and a
    login after pass 2. *)
Fixpoint after_rate_limits (p : Params) (a k : nat) (w : World) : World :=
  match k with
  | O => w
  | S k' =>
      let w' := after_sleep 5 (add_event (Request p) w) in
      after_rate_limits p (S a) k'
        (if (a =? 2)%nat then add_event Login w' else w')
  end.




(** Whether a result of the validator is a rejection with a reason
    ['Date Error: ...']. *)
Definition is_date_error (result : Exc Verdict) : bool :=
  match result with
  | Ok (Rejected (DateError _)) => true
  | _ => false
  end.

(** Whether a result of the validator is the rejection with reason
    ['Close below EMA 9']. *)
Definition is_close_below_ema_9 (result : Exc Verdict) : bool :=
  match result with
  | Ok (Rejected CloseBelowFastEma) => true
  | _ => false
  end.

(** ** What the mapping script should list *)

(** Whether an entry is one the script lists for [t]. *)
Definition hit (t : string) (item : ScripItem) : bool :=
  contains t (symbol item) && (exch_seg item =? "NSE")%string.

(** The symbols of the NSE entries that contain [t], in the order of the
    file; 'None' when there is none. *)
Definition listed (data : list ScripItem) (t : string) : list string :=
  map symbol (filter (hit t) data).

Definition matches (data : list ScripItem) (t : string)
  : option (list string) :=
  match listed data t with
  | [] => None
  | l => Some l
  end.

(** An entry whose symbol holds "-EQ" at its end only, if at all: its key in
    the token table is its symbol, or its symbol without that ending. *)
Definition plain (item : ScripItem) : Prop :=
  root item = symbol item \/ symbol item = (root item ++ "-EQ")%string.

(** A scrip master file with two NSE symbols that contain "SAIL". *)
Definition sail_table : list ScripItem :=
  [mk_item "SAIL-EQ" "NSE" "2963";
   mk_item "SAIL" "BSE" "500113";
   mk_item "SAILIFE-EQ" "NSE" "27839"].

Definition sail_world : World :=
  mk_world 0%Z (Some (0%Z, Ok sail_table)) None false [].

(** * Properties *)

Unset Implicit Arguments.

(** ** Strings and the token table *)

Example replace_EQ :
  replace "-EQ" EmptyString "RELIANCE-EQ" = "RELIANCE"%string
  /\ replace "-EQ" EmptyString "M-EQ-EQ" = "M"%string
  /\ replace "-EQ" EmptyString "NIFTY" = "NIFTY"%string.
Proof. repeat split. Qed.

Example endswith_EQ :
  endswith "RELIANCE-EQ" "-EQ" = true
  /\ endswith "EQ" "-EQ" = false
  /\ endswith "RELIANCE-BE" "-EQ" = false.
Proof. repeat split. Qed.

Example contains_invalid_token :
  contains "Invalid Token" "Invalid Token" = true
  /\ contains "Invalid Token" "AG8001: Invalid Token passed" = true
  /\ contains "Invalid Token" "Invalid symbol" = false
  /\ contains "Invalid Token" EmptyString = false.
Proof. repeat split. Qed.

Example token_of_reliance :
  get_token busy_upstream "RELIANCE" ready_world
  = (Ok (Some "2885"%string), ready_world)
  /\ get_token busy_upstream "UNKNOWN" ready_world = (Ok None, ready_world).
Proof. split; reflexivity. Qed.

(** ** Floats *)

Lemma SF64add_comm (x y : spec_float) : SF64add x y = SF64add y x.
Proof.
  unfold SF64add, SFadd.
  destruct x as [[]|[]| |[] mx ex], y as [[]|[]| |[] my ey]; try reflexivity;
    rewrite (Z.min_comm ey ex); f_equal; apply Z.add_comm.
Qed.

Lemma float_add_comm (x y : float) : (x + y = y + x)%float.
Proof. apply Prim2SF_inj. rewrite !add_spec. apply SF64add_comm. Qed.

(** *** Dividing by one

    The division of a float by 1 is exact. *)

Lemma Zdigits2_double (m : positive) :
  Zdigits2 (Zpos m~0) = (Zdigits2 (Zpos m) + 1)%Z.
Proof. cbn [Zdigits2 digits2_pos]. lia. Qed.

Lemma SF64div_one (s : bool) (m : positive) (e : Z) :
  valid_binary (S754_finite s m e) = true ->
  SF64div (S754_finite s m e) (S754_finite false 4503599627370496 (-52))
  = S754_finite s m e.
Proof.
  unfold valid_binary. cbn [SpecFloat.valid_binary].
  unfold bounded, canonical_mantissa.
  intros H. apply andb_true_iff in H. destruct H as [C B].
  apply Z.eqb_eq in C. apply Z.leb_le in B.
  unfold fexp, emin, prec, emax in C, B.
  set (d := Zpos (digits2_pos m)) in *.
  assert (Hd : (0 < d)%Z) by (unfold d; lia).
  unfold SF64div, SFdiv, SFdiv_core_binary.
  change (Zdigits2 (Zpos m)) with d.
  change (Zdigits2 4503599627370496) with 53%Z.
  unfold fexp, emin, prec, emax.
  destruct (Z.eq_dec e (-1074)) as [E|E].
  - (* no shift of the result *)
    replace (Z.min (Z.max (d + e - (53 + -52) - 53) (3 - 1024 - 53))
                   (e - -52)) with e by lia.
    replace (e - -52 - e)%Z with 52%Z by lia.
    assert (Q : Z.div_eucl (Z.shiftl (Zpos m) 52) 4503599627370496
                = (Zpos m, 0%Z)).
    { rewrite Z.shiftl_mul_pow2 by lia.
      change (2 ^ 52)%Z with 4503599627370496%Z.
      pose proof (Z.div_eucl_eq (Zpos m * 4503599627370496) 4503599627370496
                    ltac:(lia)) as De.
      pose proof (Z.mod_pos_bound (Zpos m * 4503599627370496)
                    4503599627370496 ltac:(lia)) as Mb.
      unfold Z.modulo in Mb.
      destruct (Z.div_eucl (Zpos m * 4503599627370496) 4503599627370496)
        as [q r].
      f_equal; lia. }
    rewrite Q, xorb_false_r.
    unfold binary_round_aux, shr_fexp.
    change (Zdigits2 (Zpos m)) with d.
    unfold fexp, emin.
    replace (Z.max (d + e - 53) (3 - 1024 - 53) - e)%Z with 0%Z by lia.
    change (new_location 4503599627370496 0) with loc_Exact.
    cbn [shr shr_record_of_loc shr_m loc_of_shr_record round_nearest_even].
    change (Zdigits2 (Zpos m)) with d.
    replace (Z.max (d + e - 53) (3 - 1024 - 53) - e)%Z with 0%Z by lia.
    cbn [shr shr_m].
    destruct (e <=? 1024 - 53)%Z eqn:L; [reflexivity|].
    apply Z.leb_gt in L. lia.
  - replace (Z.min (Z.max (d + e - (53 + -52) - 53) (3 - 1024 - 53))
                   (e - -52)) with (e - 1)%Z by lia.
    replace (e - -52 - (e - 1))%Z with 53%Z by lia.
    assert (Q : Z.div_eucl (Z.shiftl (Zpos m) 53) 4503599627370496
                = (Zpos m~0, 0%Z)).
    { rewrite Z.shiftl_mul_pow2 by lia.
      change (2 ^ 53)%Z with 9007199254740992%Z.
      pose proof (Z.div_eucl_eq (Zpos m * 9007199254740992) 4503599627370496
                    ltac:(lia)) as De.
      pose proof (Z.mod_pos_bound (Zpos m * 9007199254740992)
                    4503599627370496 ltac:(lia)) as Mb.
      unfold Z.modulo in Mb.
      destruct (Z.div_eucl (Zpos m * 9007199254740992) 4503599627370496)
        as [q r].
      f_equal; lia. }
    rewrite Q, xorb_false_r.
    unfold binary_round_aux, shr_fexp.
    rewrite Zdigits2_double. change (Zdigits2 (Zpos m)) with d.
    unfold fexp, emin.
    replace (Z.max (d + 1 + (e - 1) - 53) (3 - 1024 - 53) - (e - 1))%Z
      with 1%Z by lia.
    change (new_location 4503599627370496 0) with loc_Exact.
    cbn [shr shr_record_of_loc shr_m loc_of_shr_record round_nearest_even
         SpecFloat.iter_pos shr_1 orb].
    change (Zdigits2 (Zpos m)) with d.
    replace (e - 1 + 1)%Z with e by lia.
    replace (Z.max (d + e - 53) (3 - 1024 - 53) - e)%Z with 0%Z by lia.
    cbn [shr shr_m].
    destruct (e <=? 1024 - 53)%Z eqn:L; [reflexivity|].
    apply Z.leb_gt in L. lia.
Qed.

Lemma float_div_one (x : float) : (x / 1)%float = x.
Proof.
  apply Prim2SF_inj. rewrite div_spec.
  change (Prim2SF 1) with (S754_finite false 4503599627370496 (-52)).
  pose proof (Prim2SF_valid x) as V.
  destruct (Prim2SF x) as [s|s| |s m e]; try reflexivity.
  - now destruct s.
  - now destruct s.
  - now apply SF64div_one.
Qed.

(** *** Rounding never makes a NaN

    The rounding of a positive mantissa is a number, and a finite one when
    the exponent leaves room: a product with a small weight does not
    overflow, and the recurrence of the average never makes a NaN of
    numbers. *)

(** Number of binary digits and base-2 logarithm. *)
Lemma digits2_log2 (p : positive) :
  Zpos (digits2_pos p) = (Z.log2 (Zpos p) + 1)%Z.
Proof.
  assert (S : forall q, digits2_pos q = Pos.size q).
  { induction q as [q IH|q IH|]; cbn [digits2_pos Pos.size];
      [now rewrite IH | now rewrite IH | reflexivity]. }
  rewrite S. destruct p; cbn [Z.log2 Pos.size]; lia.
Qed.

Lemma Zdigits2_nonneg (m : Z) : (0 <= Zdigits2 m)%Z.
Proof. destruct m; cbn [Zdigits2]; lia. Qed.

Lemma Zdigits2_shiftr (m n : Z) :
  (0 < m)%Z -> (0 <= n)%Z ->
  (Zdigits2 (Z.shiftr m n) <= Z.max 1 (Zdigits2 m - n))%Z.
Proof.
  intros Hm Hn.
  pose proof (Z.shiftr_nonneg m n) as N.
  pose proof (Z.log2_shiftr m n Hm) as L.
  destruct m as [|p|p]; try lia.
  destruct (Z.shiftr (Zpos p) n) as [|q|q]; cbn [Zdigits2]; try lia.
  rewrite !digits2_log2. lia.
Qed.

Lemma Zdigits2_succ (m : Z) :
  (0 <= m)%Z -> (Zdigits2 (m + 1) <= Zdigits2 m + 1)%Z.
Proof.
  intros Hm. destruct m as [|p|p]; try lia; [cbn; lia|].
  pose proof (Z.log2_succ_le (Zpos p)) as L.
  replace (Zpos p + 1)%Z with (Z.succ (Zpos p)) by lia.
  destruct (Z.succ (Zpos p)) as [|q|q] eqn:E; try lia.
  cbn [Zdigits2]. rewrite !digits2_log2. lia.
Qed.

Lemma shr_1_m (r : shr_record) :
  (0 <= shr_m r)%Z -> shr_m (shr_1 r) = Z.div2 (shr_m r).
Proof.
  destruct r as [m b s]. cbn [shr_m]. intros H.
  destruct m as [|[p|p|]|p]; try reflexivity; lia.
Qed.

Lemma iter_shr_m (p : positive) :
  forall r : shr_record,
    (0 <= shr_m r)%Z ->
    shr_m (SpecFloat.iter_pos shr_1 p r) = Z.shiftr (shr_m r) (Zpos p).
Proof.
  induction p as [p IH|p IH|]; intros r H; cbn [SpecFloat.iter_pos].
  - assert (H1 : (0 <= shr_m (shr_1 r))%Z)
      by (rewrite shr_1_m by exact H; apply Z.div2_nonneg; exact H).
    assert (H2 : (0 <= shr_m (SpecFloat.iter_pos shr_1 p (shr_1 r)))%Z)
      by (rewrite IH by exact H1; apply Z.shiftr_nonneg; exact H1).
    rewrite IH by exact H2. rewrite IH by exact H1.
    rewrite shr_1_m by exact H. rewrite Z.div2_spec.
    rewrite !Z.shiftr_shiftr by lia. f_equal. lia.
  - assert (H2 : (0 <= shr_m (SpecFloat.iter_pos shr_1 p r))%Z)
      by (rewrite IH by exact H; apply Z.shiftr_nonneg; exact H).
    rewrite IH by exact H2. rewrite IH by exact H.
    rewrite !Z.shiftr_shiftr by lia. f_equal. lia.
  - rewrite shr_1_m by exact H. now rewrite Z.div2_spec.
Qed.

(** What [shr_fexp] leaves of a mantissa that is not negative. *)
Lemma shr_fexp_bounds (m e : Z) (l : location) :
  (0 <= m)%Z ->
  let r := fst (shr_fexp prec emax m e l) in
  let e1 := snd (shr_fexp prec emax m e l) in
  (0 <= shr_m r)%Z
  /\ (Zdigits2 (shr_m r) <= Z.max 1 (Z.min (Zdigits2 m) 53))%Z
  /\ (e1 = Z.max e (fexp prec emax (Zdigits2 m + e)))%Z.
Proof.
  intros Hm. unfold shr_fexp, shr.
  assert (M : shr_m (shr_record_of_loc m l) = m)
    by (destruct l as [|[]]; reflexivity).
  pose proof (Zdigits2_nonneg m) as Dn.
  unfold fexp, emin, prec, emax.
  set (n := (Z.max (Zdigits2 m + e - 53) (3 - 1024 - 53) - e)%Z).
  destruct n as [|p|p] eqn:E; cbn [fst snd].
  - rewrite M. repeat split; lia.
  - rewrite iter_shr_m by (rewrite M; exact Hm). rewrite M.
    split; [apply Z.shiftr_nonneg; exact Hm|]. split; [|lia].
    destruct (Z.eq_dec m 0) as [->|Hz].
    + rewrite Z.shiftr_0_l. cbn. lia.
    + pose proof (Zdigits2_shiftr m (Zpos p) ltac:(lia) ltac:(lia)). lia.
  - rewrite M. repeat split; lia.
Qed.

Lemma round_nearest_even_bounds (m : Z) (l : location) :
  (0 <= m)%Z ->
  (0 <= round_nearest_even m l)%Z
  /\ (Zdigits2 (round_nearest_even m l) <= Zdigits2 m + 1)%Z.
Proof.
  intros Hm. pose proof (Zdigits2_succ m Hm).
  unfold round_nearest_even.
  destruct l as [|[]]; try destruct (Z.even m); split; lia.
Qed.

(** The rounding of a positive mantissa is never a NaN, and is finite when
    the exponent leaves room. *)
Lemma binary_round_aux_shape (s : bool) (m : positive) (e : Z)
      (l : location) :
  match binary_round_aux prec emax s (Zpos m) e l with
  | S754_nan => False
  | S754_infinity _ =>
      (970 < e)%Z \/ (1023 < Zpos (digits2_pos m) + e)%Z
  | _ => True
  end.
Proof.
  unfold binary_round_aux.
  destruct (shr_fexp_bounds (Zpos m) e l ltac:(lia)) as [A [B C]].
  destruct (shr_fexp prec emax (Zpos m) e l) as [r1 e1].
  cbn [fst snd] in A, B, C.
  destruct (round_nearest_even_bounds (shr_m r1) (loc_of_shr_record r1) A)
    as [R1 R2].
  set (m2 := round_nearest_even (shr_m r1) (loc_of_shr_record r1)) in *.
  destruct (shr_fexp_bounds m2 e1 loc_Exact R1) as [A' [B' C']].
  destruct (shr_fexp prec emax m2 e1 loc_Exact) as [r2 e2].
  cbn [fst snd] in A', B', C'.
  destruct (shr_m r2) as [|q|q]; [exact I| |lia].
  destruct (e2 <=? emax - prec)%Z eqn:L; [exact I|].
  apply Z.leb_gt in L. unfold emax, prec in L.
  unfold fexp, emin, prec, emax in C, C'.
  cbn [Zdigits2] in B, C.
  pose proof (Zdigits2_nonneg m2). lia.
Qed.

Lemma valid_finite_bounds (s : bool) (m : positive) (e : Z) :
  valid_binary (S754_finite s m e) = true ->
  (Zpos (digits2_pos m) <= 53)%Z /\ (e <= 971)%Z.
Proof.
  unfold valid_binary. cbn [SpecFloat.valid_binary].
  unfold bounded, canonical_mantissa, fexp, emin, prec, emax.
  intros H. apply andb_true_iff in H. destruct H as [C B].
  apply Z.eqb_eq in C. apply Z.leb_le in B. lia.
Qed.

Lemma digits2_mul (a b : positive) :
  (Zpos (digits2_pos (a * b))
   <= Zpos (digits2_pos a) + Zpos (digits2_pos b))%Z.
Proof.
  rewrite !digits2_log2, Pos2Z.inj_mul.
  pose proof (Z.log2_mul_above (Zpos a) (Zpos b) ltac:(lia) ltac:(lia)).
  lia.
Qed.

(** A weight below one half times a finite number does not overflow. *)
Lemma SF64mul_small (sa : bool) (ma : positive) (ea : Z) (c : spec_float) :
  valid_binary (S754_finite sa ma ea) = true ->
  (ea <= -54)%Z ->
  valid_binary c = true ->
  sf_finite c ->
  sf_finite (SF64mul (S754_finite sa ma ea) c).
Proof.
  intros Va Ha Vc Fc.
  destruct c as [sc|sc| |sc mc ec]; try contradiction; [exact I|].
  unfold SF64mul, SFmul.
  pose proof (binary_round_aux_shape (xorb sa sc) (ma * mc) (ea + ec)
                loc_Exact) as S.
  destruct (valid_finite_bounds _ _ _ Va) as [Da _].
  destruct (valid_finite_bounds _ _ _ Vc) as [Dc Ec].
  pose proof (digits2_mul ma mc) as D.
  destruct (binary_round_aux prec emax (xorb sa sc) (Z.pos (ma * mc))
              (ea + ec) loc_Exact); try exact I; try contradiction.
  lia.
Qed.

Lemma SF64mul_number (sa : bool) (ma : positive) (ea : Z) (b : spec_float) :
  sf_number b -> sf_number (SF64mul (S754_finite sa ma ea) b).
Proof.
  intros Nb. destruct b as [sb|sb| |sb mb eb]; try contradiction;
    try exact I.
  unfold SF64mul, SFmul.
  pose proof (binary_round_aux_shape (xorb sa sb) (ma * mb) (ea + eb)
                loc_Exact) as S.
  destruct (binary_round_aux prec emax (xorb sa sb) (Z.pos (ma * mb))
              (ea + eb) loc_Exact); try exact I. contradiction.
Qed.

Lemma binary_normalize_number (z e : Z) (s : bool) :
  sf_number (binary_normalize prec emax z e s).
Proof.
  unfold binary_normalize, binary_round.
  destruct z as [|m|m]; [exact I| |].
  - destruct (shl_align m e (fexp prec emax (Z.pos (digits2_pos m) + e)))
      as [mz ez].
    pose proof (binary_round_aux_shape false mz ez loc_Exact) as S.
    destruct (binary_round_aux prec emax false (Z.pos mz) ez loc_Exact);
      try exact I. contradiction.
  - destruct (shl_align m e (fexp prec emax (Z.pos (digits2_pos m) + e)))
      as [mz ez].
    pose proof (binary_round_aux_shape true mz ez loc_Exact) as S.
    destruct (binary_round_aux prec emax true (Z.pos mz) ez loc_Exact);
      try exact I. contradiction.
Qed.

Lemma SF64add_number (a b : spec_float) :
  sf_finite a -> sf_number b -> sf_number (SF64add a b).
Proof.
  intros Fa Nb. unfold SF64add, SFadd.
  destruct a as [sa|sa| |sa ma ea]; try contradiction;
    destruct b as [sb|sb| |sb mb eb]; try contradiction; try exact I.
  - destruct sa, sb; exact I.
  - apply binary_normalize_number.
Qed.

Lemma is_nan_number (x : float) :
  is_nan x = false <-> sf_number (Prim2SF x).
Proof.
  unfold is_nan. rewrite FloatAxioms.eqb_spec. unfold SFeqb.
  destruct (Prim2SF x) as [s|s| |s m e]; cbn [sf_number SFcompare].
  - now split.
  - destruct s; now split.
  - now split.
  - rewrite Z.compare_refl.
    assert (R : Pos.compare_cont Eq m m = Eq) by apply Pos.compare_cont_refl.
    rewrite R. destruct s; now split.
Qed.

Lemma is_finite_finite (x : float) :
  is_finite x = true -> sf_finite (Prim2SF x).
Proof.
  unfold is_finite, is_infinity. intros H.
  apply negb_true_iff, orb_false_iff in H. destruct H as [N F].
  apply is_nan_number in N.
  rewrite FloatAxioms.eqb_spec, abs_spec in F.
  destruct (Prim2SF x) as [s|s| |s m e]; try exact I; try contradiction.
  discriminate.
Qed.

(** The recurrence never makes a NaN of numbers. *)
Lemma recurrence_number (alpha beta prev close : float) :
  small_weight alpha = true ->
  weight beta = true ->
  is_nan prev = false ->
  is_finite close = true ->
  is_nan (alpha * close + beta * prev)%float = false.
Proof.
  unfold small_weight, weight. intros Ha Hb Np Fc.
  apply is_nan_number. apply is_nan_number in Np.
  apply is_finite_finite in Fc.
  rewrite add_spec, !mul_spec.
  pose proof (Prim2SF_valid alpha) as Va.
  pose proof (Prim2SF_valid close) as Vc.
  destruct (Prim2SF alpha) as [?|?| |sa ma ea]; try discriminate.
  destruct (Prim2SF beta) as [?|?| |sb mb eb]; try discriminate.
  apply Z.leb_le in Ha.
  apply SF64add_number.
  - now apply SF64mul_small.
  - now apply SF64mul_number.
Qed.

(** ** backtest_engine.py: the rules *)

(** Past the length test and the signal date, the validator's answer on a
    located trigger candle is the answer of the rules. *)
Lemma validate_setup_located (row : Row) (df : DataFrame) (stamp : datetime)
      (trigger_candle : Candle) :
  (20 <= len df)%nat ->
  pd_to_datetime (r_date row) = Ok stamp ->
  locate_trigger df (dt_date stamp) = Ok (Trigger trigger_candle) ->
  validate_setup row (Some df) = check_rules row trigger_candle.
Proof.
  intros Hlen Hdate Hloc. unfold validate_setup.
  destruct (len df <? 20)%nat eqn:E.
  - apply Nat.ltb_lt in E. lia.
  - rewrite Hdate, Hloc. reflexivity.
Qed.

Lemma check_rules_overextended (row : Row) (c : Candle) (s : float) :
  check_rules row c = Ok (Rejected (Overextended s)) -> gt s 1.2 = true.
Proof.
  unfold check_rules.
  destruct (c_EMA_9 c) as [e9|]; [|discriminate].
  destruct (c_EMA_20 c) as [e20|]; [|discriminate].
  destruct (gt e9 e20); simpl; [|discriminate].
  destruct (gt (c_close c) e9); simpl; [|discriminate].
  destruct (gt (c_close c) e20); simpl; [|discriminate].
  destruct (spread_pct e9 e20 <? 0.3)%float; [discriminate|].
  destruct (gt (spread_pct e9 e20) 1.2) eqn:G.
  - intros H. injection H as <-. exact G.
  - destruct (r_is_stage2 row); discriminate.
Qed.

(** C1, as stated, says that the spread computed for fastEMA 101.2 and
    slowEMA 100.0 is 1.2 and that the candidate is rejected with it.  The
    validator computes the binary64 number 1.2000000000000028, which is not
    the float 1.2 but lies above it; and a stage-2 candidate whose spread is
    the float 1.2 (fastEMA 31.625, slowEMA 31.25, close 32) is accepted. *)
Lemma example_spread_is_above_1_2 :
  spread_pct 101.2 100.0 = 0x1.3333333333340p+0%float
  /\ (spread_pct 101.2 100.0 =? 1.2)%float = false
  /\ gt (spread_pct 101.2 100.0) 1.2 = true
  /\ spread_pct 31.625 31.25 = 1.2%float
  /\ outcome (check_rules (plain_row signal_time true)
                          (trigger_bar signal_time 32 31.625 31.25))
     = Ok None.
Proof. repeat split; vm_compute; reflexivity. Qed.

(** C1, amended: for a stage-2 candidate whose trigger bar has fastEMA 101.2,
    slowEMA 100.0 and close 101.5, the validator computes the binary64
    spread 1.2000000000000028 (printed 1.20), which is above 1.2, and
    rejects with Overextended; the bound is exclusive: every Overextended
    rejection has a spread strictly above 1.2, and a spread of exactly 1.2
    (fastEMA 31.625, slowEMA 31.25) is accepted. *)
Theorem overextended_example (row : Row) (df : DataFrame) (stamp : datetime)
        (trigger_candle : Candle) :
  (20 <= len df)%nat ->
  pd_to_datetime (r_date row) = Ok stamp ->
  locate_trigger df (dt_date stamp) = Ok (Trigger trigger_candle) ->
  r_is_stage2 row = true ->
  c_EMA_9 trigger_candle = Some 101.2%float ->
  c_EMA_20 trigger_candle = Some 100.0%float ->
  c_close trigger_candle = 101.5%float ->
  validate_setup row (Some df)
  = Ok (Rejected (Overextended 0x1.3333333333340p+0))
  /\ gt 0x1.3333333333340p+0 1.2 = true
  /\ (forall row' c s,
        check_rules row' c = Ok (Rejected (Overextended s)) ->
        gt s 1.2 = true)
  /\ spread_pct 31.625 31.25 = 1.2%float
  /\ outcome (check_rules row (trigger_bar stamp 32 31.625 31.25)) = Ok None.
Proof.
  intros Hlen Hdate Hloc Hstage H9 H20 Hclose.
  split; [|split; [|split; [|split]]].
  - rewrite (validate_setup_located row df stamp trigger_candle Hlen Hdate Hloc).
    unfold check_rules. rewrite H9, H20, Hclose, Hstage.
    vm_compute. reflexivity.
  - vm_compute. reflexivity.
  - exact check_rules_overextended.
  - vm_compute. reflexivity.
  - unfold check_rules, trigger_bar. simpl. rewrite Hstage.
    vm_compute. reflexivity.
Qed.

Lemma overextended_example_witness :
  validate_setup (plain_row signal_time true)
    (Some (flat_frame 20 (trigger_bar signal_time 101.5 101.2 100.0)))
  = Ok (Rejected (Overextended 0x1.3333333333340p+0)).
Proof.
  apply (overextended_example
           (plain_row signal_time true)
           (flat_frame 20 (trigger_bar signal_time 101.5 101.2 100.0))
           signal_time
           (trigger_bar signal_time 101.5 101.2 100.0)).
  - vm_compute. lia.
  - reflexivity.
  - vm_compute. reflexivity.
  - reflexivity.
  - reflexivity.
  - reflexivity.
  - reflexivity.
Defined.

(** C6: on a trigger bar that carries both indicators the validator's answer
    is the first failure of the gates (a) fastEMA > slowEMA, (b) close above
    both, (c) close above fastEMA, (d) spread bounds, (e) stage 2, taken in
    this order, and acceptance when none fails; a candidate failing both
    gate (a) and gate (d) is rejected with EmaCrossBelow. *)
Theorem gates_first_failure_wins (row : Row) (df : DataFrame)
        (stamp : datetime) (trigger_candle : Candle) (ema_9 ema_20 : float) :
  (20 <= len df)%nat ->
  pd_to_datetime (r_date row) = Ok stamp ->
  locate_trigger df (dt_date stamp) = Ok (Trigger trigger_candle) ->
  c_EMA_9 trigger_candle = Some ema_9 ->
  c_EMA_20 trigger_candle = Some ema_20 ->
  let x := gate_input row trigger_candle ema_9 ema_20 in
  outcome (validate_setup row (Some df))
  = Ok (first_failure gates_in_order x)
  /\ (gate_a x <> None -> gate_d x <> None ->
      validate_setup row (Some df) = Ok (Rejected EmaCrossBelow)).
Proof.
  intros Hlen Hdate Hloc H9 H20 x.
  rewrite (validate_setup_located row df stamp trigger_candle Hlen Hdate Hloc).
  unfold check_rules. rewrite H9, H20.
  subst x. unfold gates_in_order, first_failure, gate_a, gate_b, gate_c,
             gate_d, gate_e, gate_input. cbn [g_ema_9 g_ema_20 g_close g_is_stage2].
  destruct (gt ema_9 ema_20); cbn [negb].
  - split; [|intros A; now elim A].
    destruct (gt (c_close trigger_candle) ema_9); cbn [negb andb];
      [|reflexivity].
    destruct (gt (c_close trigger_candle) ema_20); cbn [negb];
      [|reflexivity].
    destruct (spread_pct ema_9 ema_20 <? 0.3)%float; [reflexivity|].
    destruct (gt (spread_pct ema_9 ema_20) 1.2); [reflexivity|].
    destruct (r_is_stage2 row); reflexivity.
  - split; reflexivity.
Qed.

Lemma gates_first_failure_wins_witness :
  outcome (validate_setup (plain_row signal_time true)
             (Some (flat_frame 20 (trigger_bar signal_time 94.0 95.0 100.0))))
  = Ok (Some EmaCrossBelow)
  /\ gate_d (gate_input (plain_row signal_time true)
                        (trigger_bar signal_time 94.0 95.0 100.0) 95.0 100.0)
     = Some (Overextended 5)
  /\ validate_setup (plain_row signal_time true)
       (Some (flat_frame 20 (trigger_bar signal_time 94.0 95.0 100.0)))
     = Ok (Rejected EmaCrossBelow).
Proof.
  pose proof (gates_first_failure_wins
                (plain_row signal_time true)
                (flat_frame 20 (trigger_bar signal_time 94.0 95.0 100.0))
                signal_time
                (trigger_bar signal_time 94.0 95.0 100.0) 95.0 100.0
                ltac:(vm_compute; lia) eq_refl ltac:(vm_compute; reflexivity)
                eq_refl eq_refl) as H.
  cbv zeta in H. destruct H as [H1 H2].
  split; [exact H1 | split; [vm_compute; reflexivity|]].
  apply H2; vm_compute; discriminate.
Defined.

(** C9: on a missing series or one of fewer than 20 bars (the empty one
    included) [calculate_indicators] returns its input as it is, with no
    indicator value added, and the validator rejects with InsufficientData,
    on the input and on what the calculator returned. *)
Theorem short_series_insufficient (row : Row) (df : option DataFrame) :
  short df = true ->
  calculate_indicators df = df
  /\ validate_setup row df = Ok (Rejected InsufficientData)
  /\ validate_setup row (calculate_indicators df)
     = Ok (Rejected InsufficientData).
Proof.
  intros Hshort.
  assert (Hcalc : calculate_indicators df = df).
  { destruct df as [d|]; [|reflexivity].
    simpl in Hshort. unfold calculate_indicators. now rewrite Hshort. }
  assert (Hval : validate_setup row df = Ok (Rejected InsufficientData)).
  { destruct df as [d|]; [|reflexivity].
    simpl in Hshort. unfold validate_setup. now rewrite Hshort. }
  rewrite Hcalc. auto.
Qed.

Lemma short_series_insufficient_witness :
  calculate_indicators
    (Some (flat_frame 19 (mk_candle (Timestamp signal_time) 1 2 1 2 10
                                    None None)))
  = Some (flat_frame 19 (mk_candle (Timestamp signal_time) 1 2 1 2 10
                                   None None))
  /\ validate_setup (plain_row signal_time true) None
     = Ok (Rejected InsufficientData).
Proof.
  split.
  - apply (short_series_insufficient (plain_row signal_time true)
             (Some (flat_frame 19 (mk_candle (Timestamp signal_time) 1 2 1 2
                                             10 None None)))).
    reflexivity.
  - apply (short_series_insufficient (plain_row signal_time true) None).
    reflexivity.
Defined.

(** C10: the candidate's ['is_mtf'] key does not influence the verdict.
    Changing it (or dropping it) in a row leaves the validator's result the
    same but for the echoed [is_mtf] field: the same acceptance, the same
    reason, the same exception if one is raised, and every other field of
    an accepted result. *)
Theorem is_mtf_only_echoed (row : Row) (is_mtf : option bool)
        (df : option DataFrame) :
  validate_setup (with_is_mtf is_mtf row) df
  = echo_is_mtf (get is_mtf false) (validate_setup row df)
  /\ outcome (validate_setup (with_is_mtf is_mtf row) df)
     = outcome (validate_setup row df).
Proof.
  assert (R : forall c,
             check_rules (with_is_mtf is_mtf row) c
             = echo_is_mtf (get is_mtf false) (check_rules row c)).
  { intros c. unfold check_rules.
    destruct (c_EMA_9 c) as [e9|]; [|reflexivity].
    destruct (c_EMA_20 c) as [e20|]; [|reflexivity].
    cbn [with_is_mtf r_is_stage2 r_stop_loss r_next_target r_ltp r_close
         r_is_mtf r_note].
    destruct (gt e9 e20); [|reflexivity].
    destruct (gt (c_close c) e9); [|reflexivity].
    destruct (gt (c_close c) e20); [|reflexivity].
    cbn [negb andb].
    destruct (spread_pct e9 e20 <? 0.3)%float; [reflexivity|].
    destruct (gt (spread_pct e9 e20) 1.2); [reflexivity|].
    destruct (r_is_stage2 row); reflexivity. }
  assert (V : validate_setup (with_is_mtf is_mtf row) df
              = echo_is_mtf (get is_mtf false) (validate_setup row df)).
  { unfold validate_setup. destruct df as [d|]; [|reflexivity].
    destruct (len d <? 20)%nat; [reflexivity|].
    cbn [with_is_mtf r_date].
    destruct (pd_to_datetime (r_date row)) as [stamp|e]; [|reflexivity].
    destruct (locate_trigger d (dt_date stamp)) as [[c|]|e];
      [apply R | reflexivity | reflexivity]. }
  split; [exact V|].
  rewrite V. destruct (validate_setup row df) as [[r|s]|e]; reflexivity.
Qed.

(** ** backtest_engine.py: the indicators *)

Lemma ewm_loop_length (alpha : float) (vals : list float) :
  forall w old_wt : float, len (ewm_loop alpha w old_wt vals) = len vals.
Proof.
  induction vals as [|c rest IH]; intros w old_wt; [reflexivity|].
  cbn [ewm_loop]. unfold len in *. cbn [List.length]. now rewrite IH.
Qed.

Lemma ewm_mean_length (span : float) (vals : list float) :
  len (ewm_mean span vals) = len vals.
Proof.
  unfold ewm_mean, prep_values.
  destruct vals as [|x0 rest]; [reflexivity|].
  cbn [map]. unfold len. cbn [List.length]. f_equal.
  change (len (ewm_loop (ewm_alpha span)
                 (if is_infinity x0 then nan else x0) 1
                 (map (fun x => if is_infinity x then nan else x) rest))
          = len rest).
  rewrite ewm_loop_length. unfold len. apply length_map.
Qed.

(** A finite value is an observation, and is handed to the aggregation as
    it is. *)
Lemma finite_observation (x : float) :
  is_finite x = true -> (x =? x)%float = true /\ is_infinity x = false.
Proof.
  unfold is_finite, is_nan.
  destruct (x =? x)%float; destruct (is_infinity x); now intros.
Qed.

Lemma prep_values_finite (vals : list float) :
  forallb is_finite vals = true -> prep_values vals = vals.
Proof.
  induction vals as [|x rest IH]; [reflexivity|].
  cbn [forallb]. intros H. apply andb_true_iff in H. destruct H as [Hx Hr].
  unfold prep_values in *. cbn [map].
  destruct (finite_observation x Hx) as [_ ->]. now rewrite IH.
Qed.

(** On finite values each value of the loop is one step from the value
    before it: the weight of the average is 1 at every row, the divisor is 1
    and no value is a NaN. *)
Lemma ewm_loop_step (alpha : float) (rest : list float) :
  (1 * (1 - alpha) = 1 - alpha)%float ->
  ((1 - alpha) + alpha = 1)%float ->
  small_weight alpha = true ->
  weight (1 - alpha) = true ->
  forallb is_finite rest = true ->
  forall (w : float) (i : nat),
    is_nan w = false ->
    (i < len rest)%nat ->
    nth i (ewm_loop alpha w 1 rest) 0%float
    = ema_step alpha (nth i (w :: ewm_loop alpha w 1 rest) 0%float)
               (nth i rest 0%float).
Proof.
  intros H1 H2 Hs Hw. induction rest as [|c r IH]; intros Hfin w i Nw Hi.
  - unfold len in Hi. simpl in Hi. lia.
  - cbn [forallb] in Hfin. apply andb_true_iff in Hfin.
    destruct Hfin as [Hc Hr].
    destruct (finite_observation c Hc) as [Oc _].
    assert (Ow : (w =? w)%float = true).
    { unfold is_nan in Nw. now destruct (w =? w)%float. }
    assert (S : ewm_loop alpha w 1 (c :: r)
                = ema_step alpha w c
                  :: ewm_loop alpha (ema_step alpha w c) 1 r).
    { cbn [ewm_loop]. rewrite Oc, Ow, H1, H2. unfold ema_step.
      destruct (w =? c)%float; cbn [negb fst snd]; [reflexivity|].
      now rewrite float_div_one,
                  (float_add_comm (alpha * c) ((1 - alpha) * w)). }
    assert (N : is_nan (ema_step alpha w c) = false).
    { unfold ema_step. destruct (w =? c)%float; [exact Nw|].
      now apply recurrence_number. }
    rewrite S. destruct i as [|i]; [reflexivity|].
    cbn [nth]. apply (IH Hr _ _ N).
    unfold len in *. simpl in Hi. lia.
Qed.

Lemma ewm_mean_nth (span : float) (vals : list float) (i : nat) :
  ewm_alpha span = (2 / (span + 1))%float ->
  (1 * (1 - ewm_alpha span) = 1 - ewm_alpha span)%float ->
  ((1 - ewm_alpha span) + ewm_alpha span = 1)%float ->
  small_weight (ewm_alpha span) = true ->
  weight (1 - ewm_alpha span) = true ->
  forallb is_finite vals = true ->
  (i < len vals)%nat ->
  nth i (ewm_mean span vals) 0%float
  = ema_guarded span (fun k => nth k vals 0%float) i.
Proof.
  intros Ha H1 H2 Hs Hw Hfin.
  unfold ewm_mean. rewrite (prep_values_finite _ Hfin).
  destruct vals as [|x0 rest]; [unfold len; simpl; lia|].
  cbn [forallb] in Hfin. apply andb_true_iff in Hfin.
  destruct Hfin as [H0 Hr].
  assert (N0 : is_nan x0 = false).
  { unfold is_nan. now destruct (finite_observation x0 H0) as [-> _]. }
  induction i as [|i IH]; intros Hi; [reflexivity|].
  assert (Hi' : (i < len rest)%nat) by (unfold len in *; simpl in Hi; lia).
  cbn [ema_guarded]. rewrite <- IH by (unfold len in *; simpl; lia).
  cbn [nth].
  rewrite (ewm_loop_step (ewm_alpha span) rest H1 H2 Hs Hw Hr x0 i N0 Hi').
  now rewrite Ha.
Qed.

Lemma assign_nth_error (set : Candle -> float -> Candle) (df : DataFrame) :
  forall (values : list float) (i : nat) (c : Candle),
    len values = len df ->
    nth_error df i = Some c ->
    nth_error (assign set df values) i = Some (set c (nth i values 0%float)).
Proof.
  induction df as [|c0 df IH]; intros values i c Hlen Hc.
  - destruct i; discriminate.
  - destruct values as [|v values]; [discriminate|].
    destruct i as [|i]; simpl in *.
    + now injection Hc as ->.
    + apply IH; [|exact Hc]. unfold len in *. simpl in Hlen. lia.
Qed.

Lemma assign_length (set : Candle -> float -> Candle) (df : DataFrame) :
  forall values, len values = len df -> len (assign set df values) = len df.
Proof.
  induction df as [|c0 df IH]; intros values Hlen; [reflexivity|].
  destruct values as [|v values]; [discriminate|].
  unfold len in *. simpl in *. f_equal. apply IH. lia.
Qed.

Lemma assign_EMA_9_closes (df : DataFrame) :
  forall values,
    len values = len df ->
    close_column (assign set_EMA_9 df values) = close_column df.
Proof.
  induction df as [|c0 df IH]; intros values Hlen; [reflexivity|].
  destruct values as [|v values]; [discriminate|].
  simpl. f_equal. apply IH. unfold len in *. simpl in Hlen. lia.
Qed.

Lemma close_column_length (df : DataFrame) : len (close_column df) = len df.
Proof. unfold len, close_column. apply length_map. Qed.

Lemma close_column_nth (df : DataFrame) (i : nat) :
  nth i (close_column df) 0%float = close_at df i.
Proof.
  unfold close_column, close_at. revert i.
  induction df as [|c df IH]; intros [|i]; try reflexivity. apply IH.
Qed.

Lemma ema_guarded_ext (span : float) (f g : nat -> float) :
  (forall k, f k = g k) ->
  forall i, ema_guarded span f i = ema_guarded span g i.
Proof.
  intros E. induction i as [|i IH]; cbn [ema_guarded]; [apply E|].
  now rewrite IH, E.
Qed.

Lemma observations_closes (df : DataFrame) :
  observations df = true -> forallb is_finite (close_column df) = true.
Proof.
  unfold observations, close_column.
  induction df as [|c df IH]; [reflexivity|].
  cbn [forallb map]. intros H. apply andb_true_iff in H.
  destruct H as [-> H]. now apply IH.
Qed.

(** C7, as stated, makes every value after the first the recurrence
    alpha * close[i] + (1 - alpha) * value[i-1].  On twenty bars that all
    close at 100.05 the program keeps EMA_9 at 100.05, while the recurrence,
    evaluated in binary64, gives 100.05000000000001 on the second bar; and
    on a series whose second close is infinite the program keeps EMA_9 at
    the first close, 100, while the recurrence gives infinity. *)
Lemma constant_closes_keep_their_average :
  option_map c_EMA_9 (nth_error (annotated level_frame) 1)
  = Some (Some 100.05%float)
  /\ ema_value 9 (close_at level_frame) 1 = 100.05000000000001%float
  /\ (100.05 =? 100.05000000000001)%float = false
  /\ option_map c_EMA_9 (nth_error (annotated spiked_frame) 1)
     = Some (Some 100%float)
  /\ ema_value 9 (close_at spiked_frame) 1 = infinity.
Proof. vm_compute. repeat split. Qed.

(** C7, amended: on a series of at least 20 bars whose closes are finite
    numbers [calculate_indicators] keeps every bar with its date and its
    prices, and stores in bar [i] the two indicators EMA_9 = value_9[i] and
    EMA_20 = value_20[i] of the close prices, in the order of the bars,
    where value[0] = close[0] and, with alpha = 2 / (span + 1), value[i] is
    value[i-1] when close[i] equals it, and otherwise
    alpha * close[i] + (1 - alpha) * value[i-1], every operation being one
    of binary64. *)
Theorem indicators_are_unadjusted_ema (df : DataFrame) :
  (20 <= len df)%nat ->
  observations df = true ->
  exists out : DataFrame,
    calculate_indicators (Some df) = Some out
    /\ len out = len df
    /\ forall (i : nat) (c : Candle),
         nth_error df i = Some c ->
         exists o : Candle,
           nth_error out i = Some o
           /\ c_date o = c_date c /\ c_open o = c_open c
           /\ c_high o = c_high c /\ c_low o = c_low c
           /\ c_close o = c_close c /\ c_volume o = c_volume c
           /\ c_EMA_9 o = Some (ema_guarded 9 (close_at df) i)
           /\ c_EMA_20 o = Some (ema_guarded 20 (close_at df) i).
Proof.
  intros Hlen Hobs. unfold calculate_indicators.
  destruct (len df <? 20)%nat eqn:E; [apply Nat.ltb_lt in E; lia|].
  assert (L9 : len (ewm_mean 9 (close_column df)) = len df)
    by (rewrite ewm_mean_length; apply close_column_length).
  rewrite (assign_EMA_9_closes df _ L9).
  assert (L1 : len (assign set_EMA_9 df (ewm_mean 9 (close_column df)))
               = len df) by (apply assign_length; exact L9).
  assert (L20 : len (ewm_mean 20 (close_column df))
                = len (assign set_EMA_9 df (ewm_mean 9 (close_column df))))
    by (rewrite ewm_mean_length, close_column_length; now rewrite L1).
  eexists. split; [reflexivity|]. split.
  - rewrite assign_length; assumption.
  - intros i c Hc.
    assert (Hi : (i < len (close_column df))%nat).
    { rewrite close_column_length. unfold len.
      apply nth_error_Some. rewrite Hc. discriminate. }
    pose proof (observations_closes df Hobs) as Hfin.
    eexists. split.
    + apply (assign_nth_error set_EMA_20 _ _ i
               (set_EMA_9 c (nth i (ewm_mean 9 (close_column df)) 0%float))
               L20).
      apply assign_nth_error; assumption.
    + cbn [set_EMA_20 set_EMA_9 c_date c_open c_high c_low c_close c_volume
           c_EMA_9 c_EMA_20].
      repeat (split; [reflexivity|]).
      rewrite (ewm_mean_nth 9 (close_column df) i
                 ltac:(vm_compute; reflexivity)
                 ltac:(vm_compute; reflexivity)
                 ltac:(vm_compute; reflexivity)
                 ltac:(vm_compute; reflexivity)
                 ltac:(vm_compute; reflexivity) Hfin Hi).
      rewrite (ewm_mean_nth 20 (close_column df) i
                 ltac:(vm_compute; reflexivity)
                 ltac:(vm_compute; reflexivity)
                 ltac:(vm_compute; reflexivity)
                 ltac:(vm_compute; reflexivity)
                 ltac:(vm_compute; reflexivity) Hfin Hi).
      split; f_equal; apply ema_guarded_ext; intros k;
        apply close_column_nth.
Qed.

Lemma indicators_are_unadjusted_ema_witness :
  exists out : DataFrame,
    calculate_indicators (Some (rising_frame signal_day)) = Some out
    /\ len out = 20%nat
    /\ forall (i : nat) (c : Candle),
         nth_error (rising_frame signal_day) i = Some c ->
         exists o : Candle,
           nth_error out i = Some o
           /\ c_date o = c_date c /\ c_open o = c_open c
           /\ c_high o = c_high c /\ c_low o = c_low c
           /\ c_close o = c_close c /\ c_volume o = c_volume c
           /\ c_EMA_9 o
              = Some (ema_guarded 9 (close_at (rising_frame signal_day)) i)
           /\ c_EMA_20 o
              = Some (ema_guarded 20 (close_at (rising_frame signal_day)) i).
Proof.
  apply (indicators_are_unadjusted_ema (rising_frame signal_day)).
  - vm_compute. lia.
  - vm_compute. reflexivity.
Defined.

(** The second bar of the rising frame: 0.2 * 101 + 0.8 * 100. *)
Example rising_frame_second_bar :
  option_map c_EMA_9 (nth_error (annotated (rising_frame signal_day)) 1)
  = Some (Some 100.2%float).
Proof. vm_compute. reflexivity. Qed.

(** ** backtest_engine.py: locating the trigger bar *)

Lemma select_no_match (d : date) (df : DataFrame) :
  forall dates,
    dt_date_column df = Ok dates ->
    ~ In d dates ->
    select df (map (Z.eqb d) dates) = [].
Proof.
  induction df as [|c df IH]; intros dates Hcol Hnot; [reflexivity|].
  simpl in Hcol.
  destruct (c_date c) as [t|r]; [|discriminate].
  destruct (dt_date_column df) as [ds|e]; [|discriminate].
  injection Hcol as <-. simpl.
  destruct (Z.eqb d (dt_date t)) eqn:E.
  - apply Z.eqb_eq in E. exfalso. apply Hnot. left. now symmetry.
  - apply IH; [reflexivity|]. intros Hin. apply Hnot. now right.
Qed.

Lemma check_rules_not_outdated (row : Row) (c : Candle) :
  check_rules row c <> Ok (Rejected DataOutdated).
Proof.
  unfold check_rules.
  destruct (c_EMA_9 c) as [e9|]; [|discriminate].
  destruct (c_EMA_20 c) as [e20|]; [|discriminate].
  destruct (gt e9 e20); cbn [negb]; [|discriminate].
  destruct (gt (c_close c) e9); cbn [negb andb]; [|discriminate].
  destruct (gt (c_close c) e20); cbn [negb]; [|discriminate].
  destruct (spread_pct e9 e20 <? 0.3)%float; [discriminate|].
  destruct (gt (spread_pct e9 e20) 1.2); [discriminate|].
  destruct (r_is_stage2 row); discriminate.
Qed.

(** C8, as stated, turns any date-extraction error of this step into a
    DateError rejection.  The date of the signal is extracted before the
    [try] statement (line 37): for a signal whose date cannot be read the
    validator returns no rejection at all, it raises, with the text of the
    parser; this on a frame that is otherwise in order. *)
Lemma unreadable_signal_date_raises :
  pd_to_datetime (r_date undated_row) = Raise unreadable_text
  /\ validate_setup undated_row (Some frame_3_days_old)
     = Raise unreadable_text
  /\ is_date_error (validate_setup undated_row (Some frame_3_days_old))
     = false.
Proof. vm_compute. repeat split. Qed.

(** C8, amended: for a series of at least 20 bars.  When the date of the
    signal can be read: if the dates of the bars can be extracted and none
    equals the signal date, the validator answers on the series' last bar
    if that bar's date is at most 5 days away, and rejects with DataOutdated
    otherwise (and only then); if extracting the dates of the bars raises,
    it rejects with DateError carrying the exception's text.  When the date
    of the signal cannot be read, the validator raises that error: it
    returns no rejection. *)
Theorem trigger_fallback_within_5_days (row : Row) (df : DataFrame) :
  (20 <= len df)%nat ->
  (forall stamp : datetime,
      pd_to_datetime (r_date row) = Ok stamp ->
      (forall (dates : list date) (last_bar : Candle) (t : datetime),
          dt_date_column df = Ok dates ->
          ~ In (dt_date stamp) dates ->
          iloc_last df = Ok last_bar ->
          c_date last_bar = Timestamp t ->
          let gap := Z.abs (days_between (dt_date t) (dt_date stamp)) in
          ((gap <= 5)%Z ->
           validate_setup row (Some df) = check_rules row last_bar)
          /\ ((5 < gap)%Z ->
              validate_setup row (Some df) = Ok (Rejected DataOutdated))
          /\ (validate_setup row (Some df) = Ok (Rejected DataOutdated)
              <-> (5 < gap)%Z))
      /\ (forall e : string,
            dt_date_column df = Raise e ->
            validate_setup row (Some df) = Ok (Rejected (DateError e)))
      /\ (forall e : string,
            locate_trigger df (dt_date stamp) = Raise e ->
            validate_setup row (Some df) = Ok (Rejected (DateError e))))
  /\ (forall e : string,
        pd_to_datetime (r_date row) = Raise e ->
        validate_setup row (Some df) = Raise e
        /\ is_date_error (validate_setup row (Some df)) = false).
Proof.
  intros Hlen.
  assert (L : (len df <? 20)%nat = false) by (apply Nat.ltb_ge; exact Hlen).
  split.
  - intros stamp Hdate.
    assert (V : validate_setup row (Some df)
                = match locate_trigger df (dt_date stamp) with
                  | Raise e => Ok (Rejected (DateError e))
                  | Ok Outdated => Ok (Rejected DataOutdated)
                  | Ok (Trigger c) => check_rules row c
                  end).
    { unfold validate_setup. now rewrite L, Hdate. }
    split; [|split].
    + intros dates last_bar t Hcol Hnot Hlast Ht gap.
      assert (T : locate_trigger df (dt_date stamp)
                  = if (5 <? gap)%Z then Ok Outdated
                    else Ok (Trigger last_bar)).
      { unfold locate_trigger.
        rewrite Hcol, (select_no_match _ df dates Hcol Hnot), Hlast, Ht.
        reflexivity. }
      rewrite V, T.
      destruct (5 <? gap)%Z eqn:G.
      * apply Z.ltb_lt in G. repeat split; try reflexivity; try lia.
      * apply Z.ltb_ge in G. repeat split; try reflexivity; try lia.
        intros H. exfalso. exact (check_rules_not_outdated row last_bar H).
    + intros e Hcol. rewrite V. unfold locate_trigger. now rewrite Hcol.
    + intros e Hloc. now rewrite V, Hloc.
  - intros e Hdate.
    assert (V : validate_setup row (Some df) = Raise e).
    { unfold validate_setup. now rewrite L, Hdate. }
    rewrite V. now split.
Qed.

Lemma trigger_fallback_within_5_days_witness :
  (exists last_bar : Candle,
      iloc_last frame_3_days_old = Ok last_bar
      /\ validate_setup (plain_row signal_time true)
           (Some frame_3_days_old)
         = check_rules (plain_row signal_time true) last_bar)
  /\ validate_setup (plain_row signal_time true)
       (Some frame_6_days_old)
     = Ok (Rejected DataOutdated)
  /\ validate_setup (plain_row signal_time true)
       (Some (broken_frame signal_day))
     = Ok (Rejected
             (DateError "Can only use .dt accessor with datetimelike values"))
  /\ validate_setup undated_row (Some frame_3_days_old)
     = Raise unreadable_text.
Proof.
  assert (N : forall (d : date) (l : list date),
             forallb (fun x => negb (Z.eqb d x)) l = true -> ~ In d l).
  { intros d l H Hin. rewrite forallb_forall in H. specialize (H d Hin).
    now rewrite Z.eqb_refl in H. }
  split; [|split; [|split]].
  - destruct (trigger_fallback_within_5_days
                (plain_row signal_time true)
                frame_3_days_old
                ltac:(vm_compute; lia)) as [P _].
    destruct (P signal_time eq_refl) as [Q _].
    eexists. split; [vm_compute; reflexivity|].
    eapply Q.
    + vm_compute. reflexivity.
    + apply N. vm_compute. reflexivity.
    + vm_compute. reflexivity.
    + reflexivity.
    + vm_compute. discriminate.
  - destruct (trigger_fallback_within_5_days
                (plain_row signal_time true)
                frame_6_days_old
                ltac:(vm_compute; lia)) as [P _].
    destruct (P signal_time eq_refl) as [Q _].
    eapply Q.
    + vm_compute. reflexivity.
    + apply N. vm_compute. reflexivity.
    + vm_compute. reflexivity.
    + reflexivity.
    + vm_compute. reflexivity.
  - destruct (trigger_fallback_within_5_days
                (plain_row signal_time true)
                (broken_frame signal_day)
                ltac:(vm_compute; lia)) as [P _].
    destruct (P signal_time eq_refl) as [_ [Q _]].
    apply Q. vm_compute. reflexivity.
  - destruct (trigger_fallback_within_5_days
                undated_row frame_3_days_old
                ltac:(vm_compute; lia)) as [_ P].
    apply (P unreadable_text eq_refl).
Defined.

(** ** smart_api_client.py: one pass of the retry loop *)

Ltac run :=
  unfold bind, ret, raise, lift, gets, modify, emit, time_sleep, try_except,
         write_file, set_token_map;
  cbn [fst snd].

Lemma login_runs (env : Env) (w : World) :
  exists b, login env w = (Ok b, add_event Login w).
Proof.
  unfold login. run.
  destruct (generateSession env (count is_login (log w))) as [b|e];
    eexists; reflexivity.
Qed.

(** A rate-limited answer: sleep 5 seconds, log in again on the third pass,
    go on with the same token. *)
Lemma attempt_rate_limited (env : Env) (symbol : string)
      (from_date to_date : datetime) (attempt : nat) (token : option string)
      (w : World) :
  classify (getCandleData env (requests w)
              (candle_params token from_date to_date)) = RateLimited ->
  attempt_body env symbol from_date to_date "ONE_DAY" attempt token w
  = (Ok (Continue token),
     let w' := after_sleep 5
                 (add_event (Request (candle_params token from_date to_date)) w)
     in if (attempt =? 2)%nat then add_event Login w' else w').
Proof.
  intros H. unfold attempt_body, call_getCandleData. run.
  fold (requests w). fold (candle_params token from_date to_date).
  destruct (getCandleData env (requests w)
              (candle_params token from_date to_date)) as [|r|e];
    try discriminate.
  unfold classify in H. run.
  destruct (Bool.eqb (get (status r) false) true
            && negb (len (get (data r) []) =? 0)%nat).
  { discriminate. }
  destruct (str_in (get (errorcode r) EmptyString)
                   ["AB1004"; "AB1005"; "AB2001"]%string).
  2:{ destruct (contains "Invalid Token"
                  (get (message r) "Unknown API Error"%string)
                || (get (errorcode r) EmptyString =? "AG8001")%string);
      discriminate. }
  destruct (attempt =? 2)%nat; [|reflexivity].
  run.
  destruct (login_runs env
              (after_sleep 5
                 (add_event (Request (candle_params token from_date to_date))
                            w))) as [b Hb].
  rewrite Hb. reflexivity.
Qed.

(** *** Counting the requests of a computation *)

Lemma at_most_ret {A : Type} (a : A) : at_most 0 (ret a).
Proof. intros w. simpl. lia. Qed.

Lemma at_most_raise {A : Type} (e : string) : at_most 0 (@raise A e).
Proof. intros w. simpl. lia. Qed.

Lemma at_most_lift {A : Type} (x : Exc A) : at_most 0 (lift x).
Proof. intros w. simpl. lia. Qed.

Lemma at_most_gets {A : Type} (f : World -> A) : at_most 0 (gets f).
Proof. intros w. simpl. lia. Qed.

Lemma at_most_modify (f : World -> World) :
  (forall w, log (f w) = log w) -> at_most 0 (modify f).
Proof. intros H w. unfold requests. simpl. rewrite H. lia. Qed.

Lemma at_most_emit (e : Event) : is_request e = false -> at_most 0 (emit e).
Proof.
  intros H w. unfold requests, count, emit, modify. simpl.
  rewrite H. lia.
Qed.

Lemma at_most_emit_request (p : Params) : at_most 1 (emit (Request p)).
Proof. intros w. unfold requests, count, len. simpl. lia. Qed.

Lemma at_most_time_sleep (secs : Z) : at_most 0 (time_sleep secs).
Proof. intros w. unfold requests, count. simpl. lia. Qed.

Lemma at_most_asyncio_sleep : at_most 0 asyncio_sleep.
Proof. intros w. unfold requests, count. simpl. lia. Qed.

(** A computation that raises stops there, so the bound of [bind m f] is
    the sum of the two bounds. *)
Lemma at_most_bind {A B : Type} (n k : nat) (m : M A) (f : A -> M B) :
  at_most n m -> (forall a, at_most k (f a)) -> at_most (n + k) (bind m f).
Proof.
  intros Hm Hf w. unfold bind. specialize (Hm w).
  destruct (m w) as [[a|e] w1]; simpl in *.
  - specialize (Hf a w1). lia.
  - lia.
Qed.

Lemma at_most_try {A : Type} (n k : nat) (body : M A) (h : string -> M A) :
  at_most n body -> (forall e, at_most k (h e)) ->
  at_most (n + k) (try_except body h).
Proof.
  intros Hb Hh w. unfold try_except. specialize (Hb w).
  destruct (body w) as [[a|e] w1]; simpl in *.
  - lia.
  - specialize (Hh e w1). lia.
Qed.

Lemma at_most_weaken {A : Type} (n k : nat) (m : M A) :
  (n <= k)%nat -> at_most n m -> at_most k m.
Proof. intros Hle H w. specialize (H w). lia. Qed.

Lemma quiet_bind {A B : Type} (m : M A) (f : A -> M B) :
  at_most 0 m -> (forall a, at_most 0 (f a)) -> at_most 0 (bind m f).
Proof. intros. apply (at_most_bind 0 0); assumption. Qed.

Lemma quiet_try {A : Type} (body : M A) (h : string -> M A) :
  at_most 0 body -> (forall e, at_most 0 (h e)) ->
  at_most 0 (try_except body h).
Proof. intros. apply (at_most_try 0 0); assumption. Qed.

(** Splits a computation that logs no request into its steps. *)
Ltac quiet :=
  repeat first
    [ apply at_most_ret | apply at_most_raise | apply at_most_lift
    | apply at_most_gets | apply at_most_time_sleep
    | apply at_most_asyncio_sleep
    | apply at_most_emit; reflexivity
    | apply at_most_modify; intros ?; reflexivity
    | assumption
    | match goal with
      | |- at_most 0 (bind _ _) => apply quiet_bind; [|intros ?]
      | |- at_most 0 (try_except _ _) => apply quiet_try; [|intros ?]
      | |- at_most 0 (match ?x with _ => _ end) => destruct x
      | |- at_most 0 (if ?x then _ else _) => destruct x
      end ].

Lemma login_quiet (env : Env) : at_most 0 (login env).
Proof. unfold login. quiet. Qed.

Lemma download_quiet (env : Env) : at_most 0 (_download_scrip_master env).
Proof. unfold _download_scrip_master, write_file. quiet. Qed.

Lemma load_quiet (env : Env) : at_most 0 (load_scrip_master env).
Proof.
  pose proof (download_quiet env).
  unfold load_scrip_master, set_token_map. quiet.
Qed.

Lemma get_token_quiet (env : Env) (symbol : string) :
  at_most 0 (get_token env symbol).
Proof.
  pose proof (load_quiet env).
  unfold get_token. quiet.
Qed.

Lemma call_getCandleData_once (env : Env) (p : Params) :
  at_most 1 (call_getCandleData env p).
Proof.
  unfold call_getCandleData.
  apply (at_most_bind 0 1); [quiet|intros n].
  apply (at_most_bind 1 0); [apply at_most_emit_request|intros _].
  quiet.
Qed.

(** One pass of the loop sends one request. *)
Lemma attempt_body_once (env : Env) (symbol : string)
      (from_date to_date : datetime) (interval : string) (attempt : nat)
      (token : option string) :
  at_most 1 (attempt_body env symbol from_date to_date interval attempt token).
Proof.
  pose proof (login_quiet env). pose proof (download_quiet env).
  pose proof (load_quiet env). pose proof (get_token_quiet env symbol).
  unfold attempt_body.
  apply (at_most_try 1 0); [|intros e; quiet].
  apply (at_most_bind 1 0); [apply call_getCandleData_once|intros response].
  quiet.
Qed.

Lemma retry_loop_bound (env : Env) (symbol : string)
      (from_date to_date : datetime) (interval : string) :
  forall (attempts : list nat) (token : option string),
    at_most (len attempts)
            (retry_loop env symbol from_date to_date interval attempts token).
Proof.
  induction attempts as [|attempt rest IH]; intros token.
  - apply at_most_ret.
  - cbn [retry_loop]. change (len (attempt :: rest)) with (1 + len rest)%nat.
    apply at_most_bind; [apply attempt_body_once|].
    intros [token'|result].
    + apply IH.
    + apply (at_most_weaken 0); [lia|apply at_most_ret].
Qed.

(** [fetch_historical_data] never sends more than five requests. *)
Lemma fetch_at_most_5 (env : Env) (symbol : string)
      (from_date to_date : datetime) :
  at_most 5 (fetch_historical_data env symbol from_date to_date).
Proof.
  unfold fetch_historical_data.
  apply (at_most_bind 0 5); [apply get_token_quiet|intros token].
  destruct (negb (truthy token)).
  - apply (at_most_weaken 0); [lia|apply at_most_ret].
  - apply (retry_loop_bound env symbol from_date to_date "ONE_DAY" (range 5)).
Qed.

(** An answer of another class than the three retried ones, whose rows
    convert if it is a success, ends the call at once: one request, nothing
    else, and a [return]. *)
Lemma attempt_returns_at_once (env : Env) (symbol : string)
      (from_date to_date : datetime) (attempt : nat) (token : option string)
      (w : World) :
  let p := candle_params token from_date to_date in
  let reply := getCandleData env (requests w) p in
  classify reply <> RateLimited ->
  classify reply <> InvalidIdentifier ->
  classify reply <> TransportException ->
  (classify reply = Success -> exists df, parsed reply = Ok df) ->
  exists result,
    attempt_body env symbol from_date to_date "ONE_DAY" attempt token w
    = (Ok (Return result), add_event (Request p) w).
Proof.
  intros p reply. subst reply.
  unfold attempt_body, call_getCandleData. run.
  fold (requests w). fold (candle_params token from_date to_date). fold p.
  destruct (getCandleData env (requests w) p) as [|r|e];
    intros H1 H2 H3 H4.
  - eexists. reflexivity.
  - unfold classify in H1, H2, H3, H4. unfold parsed in H4. run.
    destruct (Bool.eqb (get (status r) false) true
              && negb (len (get (data r) []) =? 0)%nat).
    + destruct (H4 eq_refl) as [df ->]. eexists. reflexivity.
    + destruct (str_in (get (errorcode r) EmptyString)
                       ["AB1004"; "AB1005"; "AB2001"]%string);
        [now elim H1|].
      destruct (contains "Invalid Token"
                  (get (message r) "Unknown API Error"%string)
                || (get (errorcode r) EmptyString =? "AG8001")%string);
        [now elim H2|].
      eexists. reflexivity.
  - now elim H3.
Qed.

(** An answer on which the body of the [try] raises, be it the call or the
    coercion of the rows of a success, is retried after 2 seconds, up to
    the fifth pass, which returns the exception's text. *)
Lemma attempt_raises (env : Env) (symbol : string)
      (from_date to_date : datetime) (attempt : nat) (token : option string)
      (w : World) (e : string) :
  let p := candle_params token from_date to_date in
  let reply := getCandleData env (requests w) p in
  reply = ReplyRaises e \/ (classify reply = Success /\ parsed reply = Raise e) ->
  attempt_body env symbol from_date to_date "ONE_DAY" attempt token w
  = (Ok (if (attempt =? 4)%nat then Return (Failed (ExceptionError e))
         else Continue token),
     after_sleep 2 (add_event (Request p) w)).
Proof.
  intros p reply H. subst reply.
  unfold attempt_body, call_getCandleData. run.
  fold (requests w). fold (candle_params token from_date to_date). fold p.
  destruct H as [H|[H P]].
  - rewrite H. destruct (attempt =? 4)%nat; reflexivity.
  - destruct (getCandleData env (requests w) p) as [|r|e'];
      try discriminate.
    unfold classify in H. unfold parsed in P. run.
    destruct (Bool.eqb (get (status r) false) true
              && negb (len (get (data r) []) =? 0)%nat).
    + rewrite P. destruct (attempt =? 4)%nat; reflexivity.
    + destruct (str_in (get (errorcode r) EmptyString)
                       ["AB1004"; "AB1005"; "AB2001"]%string);
        [discriminate|].
      destruct (contains "Invalid Token"
                  (get (message r) "Unknown API Error"%string)
                || (get (errorcode r) EmptyString =? "AG8001")%string);
        discriminate.
Qed.

Lemma trace_add_event (e : Event) (w : World) :
  trace (add_event e w) = trace w ++ [e].
Proof. reflexivity. Qed.

Lemma trace_after_sleep (secs : Z) (w : World) :
  trace (after_sleep secs w) = trace w ++ [Sleep secs].
Proof. reflexivity. Qed.

Lemma requests_add_request (p : Params) (w : World) :
  requests (add_event (Request p) w) = S (requests w).
Proof. reflexivity. Qed.

Lemma requests_after_sleep (secs : Z) (w : World) :
  requests (after_sleep secs w) = requests w.
Proof. reflexivity. Qed.

Lemma requests_add_login (w : World) :
  requests (add_event Login w) = requests w.
Proof. reflexivity. Qed.

(** C3, as stated, makes RateLimited, InvalidIdentifier and
    TransportException the only answers that are retried, and five requests
    the outcome of an upstream that only answers with rate limits.  A
    successful answer with a row that does not convert is retried as well
    (five requests, then the text of the exception); and for a symbol the
    table does not resolve no request is sent at all. *)
Lemma success_with_bad_row_is_retried :
  classify (getCandleData garbled_upstream 0 (candle_params (Some "2885"%string)
              from_date_sample to_date_sample)) = Success
  /\ fst (fetch_historical_data garbled_upstream "RELIANCE" from_date_sample
             to_date_sample ready_world)
     = Ok (Failed (ExceptionError "could not convert string to float: 'abc'"))
  /\ requests (snd (fetch_historical_data garbled_upstream "RELIANCE"
                      from_date_sample to_date_sample ready_world)) = 5%nat
  /\ fetch_historical_data busy_upstream "UNKNOWN" from_date_sample
       to_date_sample ready_world
     = (Ok (Failed (TokenNotFound "UNKNOWN")), ready_world).
Proof. vm_compute. repeat split. Qed.

(** C3, amended: for a symbol that resolves to a token, when every answer
    of the upstream is rate limited [fetch_historical_data] sends exactly
    five requests, each followed by a sleep of 5 seconds, with a new login
    after the third, and returns "Max Retries Exceeded"; whatever the
    upstream answers it never sends a sixth request; an answer is retried
    only if it is RateLimited or InvalidIdentifier or makes the pass raise
    (a TransportException, or a success whose rows do not convert): every
    other answer makes the call return after that request, and a pass that
    raises is retried up to the fifth. *)
Theorem rate_limited_exhausts_after_5 (env : Env) (symbol : string)
        (from_date to_date : datetime) :
  (forall (w w1 : World) (tok : string),
      get_token env symbol w = (Ok (Some tok), w1) ->
      tok <> EmptyString ->
      (forall n p, classify (getCandleData env n p) = RateLimited) ->
      let p := candle_params (Some tok) from_date to_date in
      exists w',
        fetch_historical_data env symbol from_date to_date w
        = (Ok (Failed MaxRetriesExceeded), w')
        /\ trace w'
           = trace w1 ++ [Request p; Sleep 5; Request p; Sleep 5;
                          Request p; Sleep 5; Login;
                          Request p; Sleep 5; Request p; Sleep 5]
        /\ requests w' = (requests w1 + 5)%nat)
  /\ (forall w,
        (requests (snd (fetch_historical_data env symbol from_date to_date w))
         <= requests w + 5)%nat)
  /\ (forall (attempt : nat) (token : option string) (w : World),
        let p := candle_params token from_date to_date in
        let reply := getCandleData env (requests w) p in
        classify reply <> RateLimited ->
        classify reply <> InvalidIdentifier ->
        classify reply <> TransportException ->
        (classify reply = Success -> exists df, parsed reply = Ok df) ->
        exists result,
          attempt_body env symbol from_date to_date "ONE_DAY" attempt token w
          = (Ok (Return result), add_event (Request p) w))
  /\ (forall (attempt : nat) (token : option string) (w : World) (e : string),
        let p := candle_params token from_date to_date in
        let reply := getCandleData env (requests w) p in
        reply = ReplyRaises e
        \/ (classify reply = Success /\ parsed reply = Raise e) ->
        attempt_body env symbol from_date to_date "ONE_DAY" attempt token w
        = (Ok (if (attempt =? 4)%nat then Return (Failed (ExceptionError e))
               else Continue token),
           after_sleep 2 (add_event (Request p) w))).
Proof.
  split; [|split; [|split]].
  - intros w w1 tok Hget Htok Hall p.
    unfold fetch_historical_data. unfold bind at 1. rewrite Hget.
    assert (T : truthy (Some tok) = true).
    { simpl. destruct (String.eqb_spec tok EmptyString);
        [contradiction|reflexivity]. }
    rewrite T. cbn [negb range seq retry_loop].
    unfold bind.
    repeat (rewrite attempt_rate_limited by apply Hall; cbn [Nat.eqb]).
    fold p. eexists. split; [reflexivity|]. split.
    + repeat first [rewrite trace_add_event | rewrite trace_after_sleep].
      rewrite <- !app_assoc. reflexivity.
    + repeat first [rewrite requests_after_sleep
                   | rewrite requests_add_request
                   | rewrite requests_add_login].
      lia.
  - exact (fetch_at_most_5 env symbol from_date to_date).
  - exact (attempt_returns_at_once env symbol from_date to_date).
  - exact (attempt_raises env symbol from_date to_date).
Qed.

Lemma rate_limited_exhausts_after_5_witness :
  exists w',
    fetch_historical_data busy_upstream "RELIANCE" from_date_sample
                          to_date_sample ready_world
    = (Ok (Failed MaxRetriesExceeded), w')
    /\ requests w' = 5%nat.
Proof.
  destruct (rate_limited_exhausts_after_5 busy_upstream "RELIANCE"
              from_date_sample to_date_sample) as [A _].
  destruct (A ready_world ready_world "2885"%string) as [w' [F [_ R]]].
  - reflexivity.
  - discriminate.
  - intros n p. reflexivity.
  - exists w'. split; [exact F | exact R].
Defined.

(** An invalid-token answer, when the download of the scrip master
    succeeds: the file and the table are replaced, the token is resolved
    again, and the loop goes on with it after 2 seconds. *)
Lemma attempt_invalid_identifier (env : Env) (symbol : string)
      (from_date to_date : datetime) (attempt : nat) (token : option string)
      (w : World) (table : list ScripItem) :
  let p := candle_params token from_date to_date in
  classify (getCandleData env (requests w) p) = InvalidIdentifier ->
  scrip_master_url env (downloads w) = Ok (mk_http 200 (Ok table)) ->
  attempt_body env symbol from_date to_date "ONE_DAY" attempt token w
  = (Ok (Continue (resolve table symbol)),
     after_sleep 2
       (with_token_map (build_token_map table)
          (with_file (Ok table)
             (add_event Download (add_event (Request p) w))))).
Proof.
  intros p H Hurl. unfold attempt_body, call_getCandleData. run.
  fold (requests w). fold (candle_params token from_date to_date). fold p.
  destruct (getCandleData env (requests w) p) as [|r|e]; try discriminate.
  unfold classify in H. run.
  destruct (Bool.eqb (get (status r) false) true
            && negb (len (get (data r) []) =? 0)%nat).
  { discriminate. }
  destruct (str_in (get (errorcode r) EmptyString)
                   ["AB1004"; "AB1005"; "AB2001"]%string); [discriminate|].
  destruct (contains "Invalid Token"
              (get (message r) "Unknown API Error"%string)
            || (get (errorcode r) EmptyString =? "AG8001")%string);
    [|discriminate].
  unfold _download_scrip_master, load_scrip_master, get_token. run.
  change (count is_download (log (add_event (Request p) w)))
    with (downloads w).
  rewrite Hurl. cbn [status_code text Z.eqb Pos.eqb]. run.
  cbn [scrip_master_file with_file add_event now].
  rewrite Z.sub_diag. cbn [Z.ltb Z.compare Z.mul Pos.mul]. run.
  cbn [scrip_master_file with_file add_event now token_map with_token_map].
  unfold resolve.
  destruct (dict_get symbol (build_token_map table)); reflexivity.
Qed.

(** A successful answer ends the call with its frame. *)
Lemma attempt_success (env : Env) (symbol : string)
      (from_date to_date : datetime) (attempt : nat) (token : option string)
      (w : World) (df : DataFrame) :
  let p := candle_params token from_date to_date in
  classify (getCandleData env (requests w) p) = Success ->
  parsed (getCandleData env (requests w) p) = Ok df ->
  attempt_body env symbol from_date to_date "ONE_DAY" attempt token w
  = (Ok (Return (Fetched df)), add_event (Request p) w).
Proof.
  intros p H Hdf. unfold attempt_body, call_getCandleData. run.
  fold (requests w). fold (candle_params token from_date to_date). fold p.
  destruct (getCandleData env (requests w) p) as [|r|e]; try discriminate.
  unfold classify in H. unfold parsed in Hdf. run.
  destruct (Bool.eqb (get (status r) false) true
            && negb (len (get (data r) []) =? 0)%nat).
  - rewrite Hdf. reflexivity.
  - destruct (str_in (get (errorcode r) EmptyString)
                     ["AB1004"; "AB1005"; "AB2001"]%string); [discriminate|].
    destruct (contains "Invalid Token"
                (get (message r) "Unknown API Error"%string)
              || (get (errorcode r) EmptyString =? "AG8001")%string);
      discriminate.
Qed.

Lemma requests_healed (p : Params) (table : list ScripItem) (w : World) :
  requests
    (after_sleep 2
       (with_token_map (build_token_map table)
          (with_file (Ok table)
             (add_event Download (add_event (Request p) w)))))
  = S (requests w).
Proof. reflexivity. Qed.

(** C4: when the first answer of the upstream is an invalid-identifier
    failure and the second a success (for a symbol that resolves to a token,
    the download of the scrip master succeeding), [fetch_historical_data]
    returns the parsed frame of the second answer; the second request
    carries the token resolved again from the downloaded table, which has
    become the client's table; and the scrip master is downloaded exactly
    once. *)
Theorem invalid_token_self_heals (env : Env) (symbol : string)
        (from_date to_date : datetime) (w w1 : World) (tok : string)
        (table : list ScripItem) (df : DataFrame) :
  get_token env symbol w = (Ok (Some tok), w1) ->
  tok <> EmptyString ->
  let p1 := candle_params (Some tok) from_date to_date in
  let p2 := candle_params (resolve table symbol) from_date to_date in
  classify (getCandleData env (requests w1) p1) = InvalidIdentifier ->
  scrip_master_url env (downloads w1) = Ok (mk_http 200 (Ok table)) ->
  classify (getCandleData env (S (requests w1)) p2) = Success ->
  parsed (getCandleData env (S (requests w1)) p2) = Ok df ->
  exists w',
    fetch_historical_data env symbol from_date to_date w
    = (Ok (Fetched df), w')
    /\ trace w' = trace w1 ++ [Request p1; Download; Sleep 2; Request p2]
    /\ downloads w' = S (downloads w1)
    /\ requests w' = (requests w1 + 2)%nat
    /\ token_map w' = Some (build_token_map table).
Proof.
  intros Hget Htok p1 p2 H1 Hurl H2 Hdf.
  unfold fetch_historical_data. unfold bind at 1. rewrite Hget.
  assert (T : truthy (Some tok) = true).
  { simpl. destruct (String.eqb_spec tok EmptyString);
      [contradiction|reflexivity]. }
  rewrite T. cbn [negb range seq retry_loop]. unfold bind.
  rewrite (attempt_invalid_identifier env symbol from_date to_date 0
             (Some tok) w1 table H1 Hurl).
  fold p1.
  rewrite (attempt_success env symbol from_date to_date 1
             (resolve table symbol) _ df);
    rewrite ?requests_healed; fold p2; try assumption.
  eexists. split; [reflexivity|]. split; [|split; [|split]].
  - unfold trace. simpl. rewrite <- !app_assoc. reflexivity.
  - reflexivity.
  - rewrite requests_add_request, requests_healed. lia.
  - reflexivity.
Qed.

Lemma invalid_token_self_heals_witness :
  exists w',
    fetch_historical_data renumbered_upstream "RELIANCE" from_date_sample
                          to_date_sample ready_world
    = (Ok (Fetched [mk_candle (Timestamp (mk_datetime signal_day 0)) 100 102
                              99 101 1000 None None]), w')
    /\ trace w'
       = [Request (candle_params (Some "2885"%string) from_date_sample
                                 to_date_sample);
          Download; Sleep 2;
          Request (candle_params (Some "2886"%string) from_date_sample
                                 to_date_sample)]
    /\ downloads w' = 1%nat.
Proof.
  destruct (invalid_token_self_heals renumbered_upstream "RELIANCE"
              from_date_sample to_date_sample ready_world ready_world
              "2885"%string [renumbered]
              [mk_candle (Timestamp (mk_datetime signal_day 0)) 100 102
                         99 101 1000 None None])
    as [w' [F [T [D _]]]].
  - reflexivity.
  - discriminate.
  - reflexivity.
  - reflexivity.
  - reflexivity.
  - reflexivity.
  - exists w'. split; [exact F|]. split; [exact T | exact D].
Defined.

(** ** The batch loops *)

Lemma records_append_valid (t : Trade) (b : Batch) :
  records (append_valid t b) = S (records b).
Proof.
  unfold records, append_valid, len. simpl. rewrite length_app. simpl. lia.
Qed.

Lemma records_append_rejected (r : Rejection) (b : Batch) :
  records (append_rejected r b) = S (records b).
Proof.
  unfold records, append_rejected, len. simpl. rewrite length_app. simpl. lia.
Qed.

(** main.py: the [try] statement of a row never raises; it leaves one more
    record, or two. *)
Lemma process_row_total (env : Env) (target_date_str : string) (row : Row)
      (b : Batch) (w : World) :
  exists b' w',
    process_row env target_date_str row b w = (Ok b', w')
    /\ (records b' = S (records b) \/ records b' = S (S (records b))).
Proof.
  unfold process_row, try_except, bind, lift, yield, emit, modify, ret.
  destruct (strptime_iso (r_date row)) as [t|e].
  - destruct (fetch_historical_data env (r_tradingsymbol row)
                (strftime_minute (minus_days t 60)) (strftime_minute t) w)
      as [[[df|err]|e] w1].
    + destruct (validate_setup row (calculate_indicators (Some df)))
        as [[reason|setup]|e]; do 2 eexists; (split; [reflexivity|]).
      * right. now rewrite !records_append_rejected.
      * left. apply records_append_valid.
      * left. apply records_append_rejected.
    + do 2 eexists. split; [reflexivity|]. left.
      apply records_append_rejected.
    + do 2 eexists. split; [reflexivity|]. left.
      apply records_append_rejected.
  - do 2 eexists. split; [reflexivity|]. left. apply records_append_rejected.
Qed.

(** main.py: a row the validator rejects leaves two records. *)
Lemma process_row_rejected_twice (env : Env) (target_date_str : string)
      (row : Row) (b : Batch) (w w1 : World) (t : datetime) (df : DataFrame)
      (reason : Reason) :
  strptime_iso (r_date row) = Ok t ->
  fetch_historical_data env (r_tradingsymbol row)
    (strftime_minute (minus_days t 60)) (strftime_minute t) w
  = (Ok (Fetched df), w1) ->
  validate_setup row (calculate_indicators (Some df)) = Ok (Rejected reason) ->
  let rej_row := mk_rejection (r_tradingsymbol row) (FromValidator reason) in
  fst (process_row env target_date_str row b w)
  = Ok (mk_batch (valid_trades b) (rejected_trades b ++ [rej_row; rej_row])).
Proof.
  intros Ht Hf Hv rej_row.
  unfold process_row, try_except, bind, lift, yield, emit, modify, ret.
  rewrite Ht, Hf, Hv. cbn [fst]. unfold append_rejected. cbn.
  now rewrite <- app_assoc.
Qed.

(** main.py: the loop goes through all its rows. *)
Lemma for_rows_total (env : Env) (target_date_str : string) (total : nat) :
  forall (rows : list Row) (i : nat) (b : Batch) (w : World),
  exists b' w',
    for_rows env target_date_str total i rows b w = (Ok b', w')
    /\ (records b + len rows <= records b')%nat
    /\ (records b' <= records b + 2 * len rows)%nat.
Proof.
  induction rows as [|row rest IH]; intros i b w.
  - exists b, w. split; [reflexivity|]. unfold len. simpl. lia.
  - cbn [for_rows]. unfold bind at 1. unfold yield, emit, modify at 1.
    unfold bind at 1.
    destruct (process_row_total env target_date_str row b
                (add_event (Yielded (YProgress (r_tradingsymbol row) i total))
                           w)) as [b1 [w1 [P R]]].
    rewrite P. unfold bind at 1. unfold asyncio_sleep, modify at 1.
    destruct (IH (S i) b1 (after_async_sleep w1)) as [b' [w' [F [L U]]]].
    exists b', w'. split; [exact F|].
    unfold len in *. simpl. lia.
Qed.

(** app.py: a row that is processed to its end leaves exactly one record. *)
Lemma app_row_one_record (env : Env) (date_str : string) (row : Row)
      (b b' : Batch) (w w' : World) :
  app_row env date_str row b w = (Ok b', w') ->
  records b' = S (records b).
Proof.
  unfold app_row, bind, lift, ret, time_sleep, modify.
  destruct (strptime_iso (r_date row)) as [t|e]; [|discriminate].
  destruct (fetch_historical_data env (r_tradingsymbol row)
              (strftime_minute (minus_days t 60)) (strftime_minute t) w)
    as [[[df|err]|e] w1]; [| |discriminate].
  - destruct (validate_setup row (calculate_indicators (Some df)))
      as [[reason|setup]|e]; [| |discriminate];
      intros H; injection H as <- _.
    + apply records_append_rejected.
    + apply records_append_valid.
  - intros H; injection H as <- _. apply records_append_rejected.
Qed.

(** app.py: a signal whose date does not parse ends the whole loop. *)
Lemma app_rows_misdated (env : Env) (date_str : string) (row : Row)
      (rest : list Row) (b : Batch) (w : World) (e : string) :
  strptime_iso (r_date row) = Raise e ->
  app_rows env date_str (row :: rest) b w = (Raise e, w).
Proof.
  intros H. cbn [app_rows]. unfold bind at 1. unfold app_row.
  unfold bind at 1. unfold lift. now rewrite H.
Qed.

(** C2: one candidate whose series is fetched (a single bar) and which the
    validator rejects.  main.py's loop leaves two rejection records for it
    and reports [rejected_count] 2; app.py's loop, on the same input, leaves
    one. *)
Theorem main_appends_rejection_twice :
  let env := steady_upstream one_bar [plain_row signal_time true] in
  fst (event_generator env "2025-12-31" ready_world)
  = Ok (Some (mk_batch [] [short_rejection; short_rejection]))
  /\ hd_error (log (snd (event_generator env "2025-12-31" ready_world)))
     = Some (Yielded (YComplete 0 2 []))
  /\ fst (app_run_backtest env "2025-12-31" ready_world)
     = Ok (Some (mk_batch [] [short_rejection])).
Proof. vm_compute. repeat split. Qed.

(** C5: two candidates, the first with a date that [strptime] cannot read.
    app.py's loop raises on the first and the run ends there: nothing is
    recorded and no request is sent for the second.  main.py's loop, on the
    same input, records the first as an Error rejection and goes on to the
    second. *)
Theorem app_loop_aborts_on_exception :
  let env := steady_upstream one_bar
               [misdated_row; plain_row signal_time true] in
  app_run_backtest env "2025-12-31" ready_world
  = (Raise bad_date_text, ready_world)
  /\ fst (event_generator env "2025-12-31" ready_world)
     = Ok (Some (mk_batch []
                   [mk_rejection "RELIANCE" (Error bad_date_text);
                    short_rejection; short_rejection])).
Proof. vm_compute. split; reflexivity. Qed.

(** * Further properties *)

(** ** Floats: comparisons and NaN *)

Lemma SFcompare_refl (x : spec_float) :
  x <> S754_nan -> SFcompare x x = Some Eq.
Proof.
  destruct x as [s|s| |s m e]; intros H; try now elim H.
  - reflexivity.
  - destruct s; reflexivity.
  - simpl. rewrite Z.compare_refl.
    assert (R : Pos.compare_cont Eq m m = Eq) by apply Pos.compare_cont_refl.
    rewrite R. destruct s; reflexivity.
Qed.

(** A strict comparison that holds has no NaN on either side. *)
Lemma ltb_true_not_nan (x y : float) :
  (x <? y)%float = true -> is_nan x = false /\ is_nan y = false.
Proof.
  rewrite FloatAxioms.ltb_spec. unfold is_nan.
  rewrite !FloatAxioms.eqb_spec. unfold SFltb, SFeqb.
  intros H.
  assert (Nx : Prim2SF x <> S754_nan).
  { intros E. rewrite E in H. discriminate. }
  assert (Ny : Prim2SF y <> S754_nan).
  { intros E. rewrite E in H.
    destruct (Prim2SF x) as [?|?| |? ? ?]; discriminate. }
  now rewrite (SFcompare_refl _ Nx), (SFcompare_refl _ Ny).
Qed.

(** ** backtest_engine.py: what an accepted setup guarantees *)

Lemma select_In (c : Candle) (df : DataFrame) :
  forall mask, In c (select df mask) -> In c df.
Proof.
  induction df as [|c0 df IH]; intros mask H.
  - destruct mask; exact H.
  - destruct mask as [|b mask]; [contradiction|].
    simpl in H. destruct b.
    + destruct H as [H|H]; [now left | right; eapply IH; eassumption].
    + right. eapply IH; eassumption.
Qed.

Lemma iloc_last_In (df : DataFrame) (c : Candle) :
  iloc_last df = Ok c -> In c df.
Proof.
  induction df as [|c0 df IH]; [discriminate|].
  destruct df as [|c1 df'].
  - simpl. intros H. injection H as ->. now left.
  - intros H. right. apply IH. exact H.
Qed.

(** The trigger candle is a row of the frame. *)
Lemma locate_trigger_In (df : DataFrame) (d : date) (c : Candle) :
  locate_trigger df d = Ok (Trigger c) -> In c df.
Proof.
  unfold locate_trigger.
  destruct (dt_date_column df) as [dates|e]; [|discriminate].
  destruct (select df (map (Z.eqb d) dates)) as [|c0 rest] eqn:S.
  - destruct (iloc_last df) as [l|e] eqn:L; [|discriminate].
    destruct (cell_date (c_date l)) as [td|e]; [|discriminate].
    destruct (5 <? Z.abs (days_between td d))%Z; [discriminate|].
    intros H. injection H as <-. now apply iloc_last_In.
  - intros H. injection H as <-.
    apply (select_In c0 df (map (Z.eqb d) dates)). rewrite S. now left.
Qed.

(** X1: a result with ['valid': True] is only returned for a frame of at
    least 20 rows, on a row of that frame that carries both indicators, with
    EMA 9 above EMA 20, the close above both, a spread that is neither
    below 0.3 nor above 1.2, and a signal in stage 2; none of the three
    numbers is a NaN; the result echoes the indicators, the spread and the
    signal's fields with their defaults. *)
Theorem valid_setup_sound (row : Row) (df : option DataFrame) (s : Setup) :
  validate_setup row df = Ok (Valid s) ->
  exists (d : DataFrame) (c : Candle),
    df = Some d /\ (20 <= len d)%nat /\ In c d
    /\ c_EMA_9 c = Some (v_ema_9 s) /\ c_EMA_20 c = Some (v_ema_20 s)
    /\ gt (v_ema_9 s) (v_ema_20 s) = true
    /\ gt (c_close c) (v_ema_9 s) = true
    /\ gt (c_close c) (v_ema_20 s) = true
    /\ v_spread_pct s = spread_pct (v_ema_9 s) (v_ema_20 s)
    /\ (v_spread_pct s <? 0.3)%float = false
    /\ gt (v_spread_pct s) 1.2 = false
    /\ r_is_stage2 row = true /\ v_is_stage2 s = true
    /\ is_nan (v_ema_9 s) = false /\ is_nan (v_ema_20 s) = false
    /\ is_nan (c_close c) = false
    /\ v_ltp s = r_ltp row
    /\ v_stop_loss s = get (r_stop_loss row) 0%float
    /\ v_target s = get (r_next_target row) 0%float
    /\ v_close s = get (r_close row) (c_close c)
    /\ v_is_mtf s = get (r_is_mtf row) false
    /\ v_note s = get (r_note row) EmptyString.
Proof.
  unfold validate_setup.
  destruct df as [d|]; [|discriminate].
  destruct (len d <? 20)%nat eqn:L; [discriminate|].
  apply Nat.ltb_ge in L.
  destruct (pd_to_datetime (r_date row)) as [stamp|e]; [|discriminate].
  destruct (locate_trigger d (dt_date stamp)) as [[c|]|e] eqn:T;
    try discriminate.
  apply locate_trigger_In in T.
  unfold check_rules.
  destruct (c_EMA_9 c) as [e9|] eqn:E9; [|discriminate].
  destruct (c_EMA_20 c) as [e20|] eqn:E20; [|discriminate].
  destruct (gt e9 e20) eqn:Ga; cbn [negb]; [|discriminate].
  destruct (gt (c_close c) e9) eqn:Gb; cbn [negb andb]; [|discriminate].
  destruct (gt (c_close c) e20) eqn:Gc; cbn [negb]; [|discriminate].
  destruct (spread_pct e9 e20 <? 0.3)%float eqn:Gd; [discriminate|].
  destruct (gt (spread_pct e9 e20) 1.2) eqn:Ge; [discriminate|].
  destruct (r_is_stage2 row) eqn:Gs; cbn [negb]; [|discriminate].
  intros H. injection H as <-. cbn.
  destruct (ltb_true_not_nan _ _ Ga) as [N20 N9].
  destruct (ltb_true_not_nan _ _ Gb) as [_ Nc].
  exists d, c. repeat split; auto.
Qed.

Lemma valid_setup_sound_witness :
  exists (d : DataFrame) (c : Candle),
    Some (flat_frame 20 (trigger_bar signal_time 100.6 100.5 100.0)) = Some d
    /\ In c d /\ c_EMA_9 c = Some 100.5%float
    /\ c_EMA_20 c = Some 100.0%float.
Proof.
  destruct (valid_setup_sound (plain_row signal_time true)
              (Some (flat_frame 20 (trigger_bar signal_time 100.6 100.5 100.0)))
              (mk_setup 0 0 101.5 100.6 100.5 100.0 0.5 false true EmptyString)
              ltac:(vm_compute; reflexivity))
    as [d [c [H1 [_ [H3 [H4 [H5 _]]]]]]].
  exists d, c. repeat split; assumption.
Defined.

(** ** backtest_engine.py: the bar of the signal date *)

Lemma datetimelike_dates (df : DataFrame) :
  datetimelike df -> exists dates, dt_date_column df = Ok dates.
Proof.
  induction 1 as [|c df [t Ht] _ [dates IH]].
  - exists []. reflexivity.
  - exists (dt_date t :: dates). simpl. now rewrite Ht, IH.
Qed.

Lemma dates_datetimelike (df : DataFrame) :
  forall dates, dt_date_column df = Ok dates -> datetimelike df.
Proof.
  induction df as [|c df IH]; intros dates H; [constructor|].
  simpl in H. destruct (c_date c) as [t|r] eqn:E; [|discriminate].
  destruct (dt_date_column df) as [ds|e]; [|discriminate].
  constructor; [now exists t | now apply (IH ds)].
Qed.

Lemma select_first_match (d : date) (c : Candle) (t : datetime)
      (post : DataFrame) :
  c_date c = Timestamp t -> dt_date t = d -> datetimelike post ->
  forall pre,
    Forall (fun c' => exists t', c_date c' = Timestamp t' /\ dt_date t' <> d)
           pre ->
    exists dates rest,
      dt_date_column (pre ++ c :: post) = Ok dates
      /\ select (pre ++ c :: post) (map (Z.eqb d) dates) = c :: rest.
Proof.
  intros Hc Hd Hpost.
  destruct (datetimelike_dates post Hpost) as [dpost Hdpost].
  induction 1 as [|c' pre [t' [Ht' Hne]] _ [dates [rest [IH1 IH2]]]].
  - exists (dt_date t :: dpost), (select post (map (Z.eqb d) dpost)).
    simpl. rewrite Hc, Hdpost. split; [reflexivity|].
    simpl. rewrite Hd, Z.eqb_refl. reflexivity.
  - exists (dt_date t' :: dates), rest. simpl.
    rewrite Ht', IH1. split; [reflexivity|]. simpl.
    destruct (Z.eqb d (dt_date t')) eqn:E.
    + apply Z.eqb_eq in E. now elim Hne.
    + exact IH2.
Qed.

(** X2: when the frame (of at least 20 rows, with timestamps in its date
    column) has a bar on the signal's date, the validator judges the first
    such bar, however old the last bar of the frame is and whether or not
    later bars carry the same date. *)
Theorem first_bar_of_signal_date_is_judged (row : Row) (stamp t : datetime)
        (pre post : DataFrame) (c : Candle) :
  (20 <= len (pre ++ c :: post))%nat ->
  pd_to_datetime (r_date row) = Ok stamp ->
  Forall (fun c' => exists t', c_date c' = Timestamp t'
                               /\ dt_date t' <> dt_date stamp) pre ->
  c_date c = Timestamp t ->
  dt_date t = dt_date stamp ->
  datetimelike post ->
  validate_setup row (Some (pre ++ c :: post)) = check_rules row c.
Proof.
  intros Hlen Hdate Hpre Hc Ht Hpost.
  destruct (select_first_match (dt_date stamp) c t post Hc Ht Hpost pre Hpre)
    as [dates [rest [D S]]].
  apply (validate_setup_located row _ stamp c Hlen Hdate).
  unfold locate_trigger. now rewrite D, S.
Qed.

Lemma first_bar_of_signal_date_is_judged_witness :
  exists c : Candle,
    nth_error frame_ahead 5 = Some c
    /\ validate_setup (plain_row signal_time true) (Some frame_ahead)
       = check_rules (plain_row signal_time true) c.
Proof.
  eexists. split; [vm_compute; reflexivity|].
  match goal with
  | |- validate_setup _ _ = check_rules _ ?c =>
      change (Some frame_ahead)
        with (Some (firstn 5 frame_ahead ++ c :: skipn 6 frame_ahead))
  end.
  eapply (first_bar_of_signal_date_is_judged (plain_row signal_time true)
            signal_time).
  - vm_compute. lia.
  - reflexivity.
  - vm_compute.
    repeat (constructor; [eexists; split; [reflexivity|discriminate]|]).
    constructor.
  - reflexivity.
  - reflexivity.
  - unfold datetimelike. vm_compute.
    repeat (constructor; [eexists; reflexivity|]). constructor.
Defined.

(** ** backtest_engine.py: annotating twice, and validating what was
       annotated *)

Lemma assign_EMA_20_closes (df : DataFrame) :
  forall values,
    len values = len df ->
    close_column (assign set_EMA_20 df values) = close_column df.
Proof.
  induction df as [|c0 df IH]; intros values Hlen; [reflexivity|].
  destruct values as [|v values]; [discriminate|].
  simpl. f_equal. apply IH. unfold len in *. simpl in Hlen. lia.
Qed.

(** Assigning the two columns to a frame that already carries the same
    values leaves it as it is. *)
Lemma assign_twice (d : DataFrame) :
  forall a b : list float,
    assign set_EMA_20
      (assign set_EMA_9 (assign set_EMA_20 (assign set_EMA_9 d a) b) a) b
    = assign set_EMA_20 (assign set_EMA_9 d a) b.
Proof.
  induction d as [|c d IH]; intros a b; [reflexivity|].
  destruct a as [|x a]; [reflexivity|].
  destruct b as [|y b]; [reflexivity|].
  simpl. f_equal. apply IH.
Qed.

(** On a long frame both columns are computed from the closes of the
    frame. *)
Lemma calculate_indicators_long (d : DataFrame) :
  (len d <? 20)%nat = false ->
  calculate_indicators (Some d)
  = Some (assign set_EMA_20
            (assign set_EMA_9 d (ewm_mean 9 (close_column d)))
            (ewm_mean 20 (close_column d))).
Proof.
  intros L. unfold calculate_indicators. rewrite L.
  rewrite (assign_EMA_9_closes d); [reflexivity|].
  rewrite ewm_mean_length. apply close_column_length.
Qed.

(** X3: [calculate_indicators] is idempotent: annotating a frame that was
    already annotated gives the same frame (for a missing frame, a short one
    and a long one alike). *)
Theorem calculate_indicators_idempotent (df : option DataFrame) :
  calculate_indicators (calculate_indicators df) = calculate_indicators df.
Proof.
  destruct df as [d|]; [|reflexivity].
  destruct (len d <? 20)%nat eqn:L.
  - unfold calculate_indicators. now rewrite L, L.
  - rewrite (calculate_indicators_long d L).
    set (e9 := ewm_mean 9 (close_column d)).
    set (e20 := ewm_mean 20 (close_column d)).
    set (d2 := assign set_EMA_20 (assign set_EMA_9 d e9) e20).
    assert (L9 : len e9 = len d)
      by (unfold e9; rewrite ewm_mean_length; apply close_column_length).
    assert (L1 : len (assign set_EMA_9 d e9) = len d)
      by (apply assign_length; exact L9).
    assert (L20 : len e20 = len (assign set_EMA_9 d e9))
      by (unfold e20; rewrite ewm_mean_length, close_column_length;
          now rewrite L1).
    assert (L2 : len d2 = len d)
      by (unfold d2; rewrite assign_length; assumption).
    assert (C2 : close_column d2 = close_column d).
    { unfold d2. rewrite assign_EMA_20_closes by exact L20.
      apply assign_EMA_9_closes. exact L9. }
    rewrite (calculate_indicators_long d2) by (now rewrite L2).
    rewrite C2. fold e9 e20. f_equal. unfold d2. apply assign_twice.
Qed.

Lemma assign_has_indicators (d : DataFrame) :
  forall a b : list float,
    has_indicators (assign set_EMA_20 (assign set_EMA_9 d a) b).
Proof.
  induction d as [|c d IH]; intros a b; [constructor|].
  destruct a as [|x a]; [constructor|].
  destruct b as [|y b]; [constructor|].
  simpl. constructor; [split; discriminate | apply IH].
Qed.

(** On a long frame the annotated frame has both indicators on every
    row. *)
Lemma annotated_has_indicators (d out : DataFrame) :
  (20 <= len d)%nat ->
  calculate_indicators (Some d) = Some out ->
  has_indicators out /\ len out = len d.
Proof.
  intros Hlen H.
  assert (L : (len d <? 20)%nat = false) by (apply Nat.ltb_ge; exact Hlen).
  rewrite (calculate_indicators_long d L) in H. injection H as <-.
  split; [apply assign_has_indicators|].
  assert (L9 : len (ewm_mean 9 (close_column d)) = len d)
    by (rewrite ewm_mean_length; apply close_column_length).
  assert (L1 : len (assign set_EMA_9 d (ewm_mean 9 (close_column d)))
               = len d) by (apply assign_length; exact L9).
  rewrite assign_length; [exact L1|].
  rewrite ewm_mean_length, close_column_length. now rewrite L1.
Qed.

Lemma assign_datetimelike (set : Candle -> float -> Candle) :
  (forall c v, c_date (set c v) = c_date c) ->
  forall (d : DataFrame) (a : list float),
    datetimelike d -> datetimelike (assign set d a).
Proof.
  intros Hset. induction d as [|c d IH]; intros a H; [constructor|].
  destruct a as [|x a]; [constructor|].
  inversion H as [|? ? [t Ht] Hd]; subst. simpl. constructor.
  - exists t. now rewrite Hset.
  - now apply IH.
Qed.

Lemma calculate_indicators_datetimelike (d out : DataFrame) :
  datetimelike d ->
  calculate_indicators (Some d) = Some out ->
  datetimelike out.
Proof.
  intros Hd. unfold calculate_indicators.
  destruct (len d <? 20)%nat; intros H; injection H as <-; [exact Hd|].
  apply assign_datetimelike; [reflexivity|].
  apply assign_datetimelike; [reflexivity|exact Hd].
Qed.

(** With both indicators on the trigger candle the rules return a result,
    and never a date error. *)
Lemma check_rules_returns (row : Row) (c : Candle) :
  c_EMA_9 c <> None -> c_EMA_20 c <> None ->
  exists v, check_rules row c = Ok v /\ forall e, v <> Rejected (DateError e).
Proof.
  intros H9 H20. unfold check_rules.
  destruct (c_EMA_9 c) as [e9|]; [|now elim H9].
  destruct (c_EMA_20 c) as [e20|]; [|now elim H20].
  destruct (gt e9 e20); cbn [negb];
    [|eexists; split; [reflexivity|discriminate]].
  destruct (gt (c_close c) e9); cbn [negb andb];
    [|eexists; split; [reflexivity|discriminate]].
  destruct (gt (c_close c) e20); cbn [negb];
    [|eexists; split; [reflexivity|discriminate]].
  destruct (spread_pct e9 e20 <? 0.3)%float;
    [eexists; split; [reflexivity|discriminate]|].
  destruct (gt (spread_pct e9 e20) 1.2);
    [eexists; split; [reflexivity|discriminate]|].
  destruct (r_is_stage2 row); eexists; (split; [reflexivity|discriminate]).
Qed.

Lemma iloc_last_nonempty (c : Candle) (df : DataFrame) :
  exists l, iloc_last (c :: df) = Ok l.
Proof.
  revert c. induction df as [|c1 df IH]; intros c.
  - exists c. reflexivity.
  - destruct (IH c1) as [l Hl]. exists l. exact Hl.
Qed.

Lemma locate_trigger_datetimelike (df : DataFrame) (d : date) :
  df <> [] -> datetimelike df -> exists r, locate_trigger df d = Ok r.
Proof.
  intros Hne Hd. unfold locate_trigger.
  destruct (datetimelike_dates df Hd) as [dates ->].
  destruct (select df (map (Z.eqb d) dates)) as [|c0 rest];
    [|eexists; reflexivity].
  destruct df as [|c df]; [now elim Hne|].
  destruct (iloc_last_nonempty c df) as [l Hl]. rewrite Hl.
  apply iloc_last_In in Hl.
  unfold datetimelike in Hd. rewrite Forall_forall in Hd.
  destruct (Hd l Hl) as [t Ht]. rewrite Ht. simpl.
  destruct (5 <? Z.abs (days_between (dt_date t) d))%Z; eexists; reflexivity.
Qed.

(** What the validator returns on an annotated frame. *)
Lemma validate_annotated_returns (row : Row) (df : option DataFrame)
        (stamp : datetime) :
  pd_to_datetime (r_date row) = Ok stamp ->
  exists v,
    validate_setup row (calculate_indicators df) = Ok v
    /\ ((forall d, df = Some d -> datetimelike d) ->
        forall e, v <> Rejected (DateError e)).
Proof.
  intros Hdate.
  destruct df as [d|];
    [|eexists; split; [reflexivity|discriminate]].
  destruct (len d <? 20)%nat eqn:L.
  - exists (Rejected InsufficientData). split; [|discriminate].
    unfold calculate_indicators. rewrite L. unfold validate_setup.
    now rewrite L.
  - apply Nat.ltb_ge in L.
    destruct (calculate_indicators (Some d)) as [out|] eqn:C.
    2:{ unfold calculate_indicators in C.
        destruct (len d <? 20)%nat; discriminate. }
    destruct (annotated_has_indicators d out L C) as [HI HL].
    unfold validate_setup. rewrite HL.
    destruct (len d <? 20)%nat eqn:L'; [apply Nat.ltb_lt in L'; lia|].
    rewrite Hdate.
    destruct (locate_trigger out (dt_date stamp)) as [[c|]|e] eqn:T.
    + pose proof (locate_trigger_In _ _ _ T) as Hin.
      unfold has_indicators in HI. rewrite Forall_forall in HI.
      destruct (HI c Hin) as [H9 H20].
      destruct (check_rules_returns row c H9 H20) as [v [Hv Hn]].
      exists v. split; [exact Hv | intros _; exact Hn].
    + eexists. split; [reflexivity|discriminate].
    + eexists. split; [reflexivity|].
      intros Hd. exfalso.
      assert (Hout : datetimelike out)
        by (apply (calculate_indicators_datetimelike d out);
            [now apply Hd | exact C]).
      assert (Hne : out <> []).
      { intros E. rewrite E in HL. unfold len in *. simpl in HL. lia. }
      destruct (locate_trigger_datetimelike out (dt_date stamp) Hne Hout)
        as [r Hr].
      rewrite Hr in T. discriminate.
Qed.

(** X4: the validator, given what [calculate_indicators] returned, raises
    only if the signal's date cannot be read: no indicator is ever missing
    on the trigger candle.  If moreover the date column of the frame holds
    timestamps (as every fetched frame's does), the result is never a date
    error. *)
Theorem validator_after_annotation (row : Row) (df : option DataFrame)
        (stamp : datetime) :
  pd_to_datetime (r_date row) = Ok stamp ->
  exists v,
    validate_setup row (calculate_indicators df) = Ok v
    /\ ((forall d, df = Some d -> datetimelike d) ->
        forall e, v <> Rejected (DateError e)).
Proof. exact (validate_annotated_returns row df stamp). Qed.

Lemma validator_after_annotation_witness :
  exists v,
    validate_setup (plain_row signal_time true)
      (calculate_indicators (Some (rising_frame signal_day))) = Ok v
    /\ forall e, v <> Rejected (DateError e).
Proof.
  destruct (validator_after_annotation (plain_row signal_time true)
              (Some (rising_frame signal_day)) signal_time eq_refl)
    as [v [Hv Hn]].
  exists v. split; [exact Hv|]. apply Hn.
  intros d H. injection H as <-. unfold datetimelike. vm_compute.
  repeat (constructor; [eexists; reflexivity|]). constructor.
Defined.

(** X5: the validator reads the indicators off the trigger candle with no
    default: on a frame of at least 20 rows that was not annotated (no
    EMA_9 column) it raises KeyError 'EMA_9', unless it returns 'Data
    Outdated' before reading them. *)
Theorem unannotated_frame_raises_key_error (row : Row) (df : DataFrame)
        (stamp : datetime) :
  (20 <= len df)%nat ->
  datetimelike df ->
  Forall (fun c => c_EMA_9 c = None) df ->
  pd_to_datetime (r_date row) = Ok stamp ->
  validate_setup row (Some df) = Raise "'EMA_9'"
  \/ validate_setup row (Some df) = Ok (Rejected DataOutdated).
Proof.
  intros Hlen Hd Hnone Hdate.
  assert (Hne : df <> []).
  { intros E. rewrite E in Hlen. unfold len in Hlen. simpl in Hlen. lia. }
  destruct (locate_trigger_datetimelike df (dt_date stamp) Hne Hd)
    as [[c|] Hr].
  - left. rewrite (validate_setup_located row df stamp c Hlen Hdate Hr).
    apply locate_trigger_In in Hr. rewrite Forall_forall in Hnone.
    unfold check_rules. now rewrite (Hnone c Hr).
  - right. unfold validate_setup.
    destruct (len df <? 20)%nat eqn:L; [apply Nat.ltb_lt in L; lia|].
    now rewrite Hdate, Hr.
Qed.

Lemma unannotated_frame_raises_key_error_witness :
  validate_setup (plain_row signal_time true) (Some (rising_frame signal_day))
  = Raise "'EMA_9'".
Proof.
  destruct (unannotated_frame_raises_key_error (plain_row signal_time true)
              (rising_frame signal_day) signal_time) as [H|H].
  - vm_compute. lia.
  - unfold datetimelike. vm_compute.
    repeat (constructor; [eexists; reflexivity|]). constructor.
  - vm_compute. repeat (constructor; [reflexivity|]). constructor.
  - reflexivity.
  - exact H.
  - vm_compute in H. discriminate.
Defined.

(** ** smart_api_client.py: the frame of a successful answer *)

Lemma column_cons {A : Type} (cell : RawRow -> Exc A) (r : RawRow)
      (rows : list RawRow) (l : list A) :
  column cell (r :: rows) = Ok l ->
  exists a l', cell r = Ok a /\ column cell rows = Ok l' /\ l = a :: l'.
Proof.
  simpl. destruct (cell r) as [a|e]; [|discriminate].
  destruct (column cell rows) as [l'|e]; [|discriminate].
  intros H. injection H as <-. now exists a, l'.
Qed.

Lemma columns_convert (rows : list RawRow) :
  forall dates opens highs lows closes volumes,
    column raw_date rows = Ok dates ->
    column raw_open rows = Ok opens ->
    column raw_high rows = Ok highs ->
    column raw_low rows = Ok lows ->
    column raw_close rows = Ok closes ->
    column raw_volume rows = Ok volumes ->
    Forall2 converts_to rows (frame dates opens highs lows closes volumes).
Proof.
  induction rows as [|r rows IH]; intros dates opens highs lows closes volumes
                                         Hd Ho Hh Hl Hc Hv.
  - simpl in Hd. injection Hd as <-. constructor.
  - apply column_cons in Hd, Ho, Hh, Hl, Hc, Hv.
    destruct Hd as [d [ds [Hd [Hds ->]]]].
    destruct Ho as [o [os [Ho [Hos ->]]]].
    destruct Hh as [h [hs [Hh [Hhs ->]]]].
    destruct Hl as [l [ls [Hl [Hls ->]]]].
    destruct Hc as [c [cs [Hc [Hcs ->]]]].
    destruct Hv as [v [vs [Hv [Hvs ->]]]].
    simpl. constructor.
    + exists d, o, h, l, c, v. repeat split; assumption.
    + now apply IH.
Qed.

Lemma converts_columns (rows : list RawRow) (df : DataFrame) :
  Forall2 converts_to rows df ->
  exists dates opens highs lows closes volumes,
    column raw_date rows = Ok dates
    /\ column raw_open rows = Ok opens
    /\ column raw_high rows = Ok highs
    /\ column raw_low rows = Ok lows
    /\ column raw_close rows = Ok closes
    /\ column raw_volume rows = Ok volumes
    /\ frame dates opens highs lows closes volumes = df.
Proof.
  induction 1 as [|r c rows df
                   [d [o [h [l [cl [v [Hd [Ho [Hh [Hl [Hc [Hv ->]]]]]]]]]]]]
                   _ [ds [os [hs [ls [cs [vs IH]]]]]]].
  - exists [], [], [], [], [], []. repeat split.
  - destruct IH as [Ids [Ios [Ihs [Ils [Ics [Ivs <-]]]]]].
    exists (d :: ds), (o :: os), (h :: hs), (l :: ls), (cl :: cs), (v :: vs).
    simpl. rewrite Hd, Ho, Hh, Hl, Hc, Hv, Ids, Ios, Ihs, Ils, Ics, Ivs.
    repeat split.
Qed.

(** X6: the rows of a successful answer become a frame all together or not
    at all: the coercion returns a frame exactly when every cell of every
    row converts, and the frame then has one candle per row, in order, with
    the six values, a timestamp as its date and no indicator; otherwise it
    raises, and no partial frame is returned. *)
Theorem parse_frame_all_or_nothing (rows : list RawRow) (df : DataFrame) :
  parse_frame rows = Ok df <-> Forall2 converts_to rows df.
Proof.
  split.
  - unfold parse_frame.
    destruct (column raw_date rows) as [dates|e] eqn:Hd; [|discriminate].
    destruct (column raw_open rows) as [opens|e] eqn:Ho; [|discriminate].
    destruct (column raw_high rows) as [highs|e] eqn:Hh; [|discriminate].
    destruct (column raw_low rows) as [lows|e] eqn:Hl; [|discriminate].
    destruct (column raw_close rows) as [closes|e] eqn:Hc; [|discriminate].
    destruct (column raw_volume rows) as [vols|e] eqn:Hv; [|discriminate].
    intros H. injection H as <-. now apply columns_convert.
  - intros H.
    destruct (converts_columns rows df H)
      as [ds [os [hs [ls [cs [vs [Hd [Ho [Hh [Hl [Hc [Hv <-]]]]]]]]]]]].
    unfold parse_frame. now rewrite Hd, Ho, Hh, Hl, Hc, Hv.
Qed.

(** ** smart_api_client.py: the other ways a fetch ends *)

Lemma truthy_nonempty (tok : string) :
  tok <> EmptyString -> truthy (Some tok) = true.
Proof.
  intros H. simpl. destruct (String.eqb_spec tok EmptyString);
    [contradiction|reflexivity].
Qed.

(** X7: when every call of the upstream raises, [fetch_historical_data]
    (for a symbol that resolves to a token) sends five requests, sleeps 2
    seconds after each, and returns "Exception: ..." with the text of the
    fifth exception, not "Max Retries Exceeded"; the call has blocked 10
    seconds. *)
Theorem raising_upstream_gives_up (env : Env) (symbol : string)
        (from_date to_date : datetime) (w w1 : World) (tok : string)
        (err : nat -> string) :
  get_token env symbol w = (Ok (Some tok), w1) ->
  tok <> EmptyString ->
  (forall n p, getCandleData env n p = ReplyRaises (err n)) ->
  let p := candle_params (Some tok) from_date to_date in
  exists w',
    fetch_historical_data env symbol from_date to_date w
    = (Ok (Failed (ExceptionError (err (4 + requests w1)%nat))), w')
    /\ trace w'
       = trace w1 ++ [Request p; Sleep 2; Request p; Sleep 2; Request p;
                      Sleep 2; Request p; Sleep 2; Request p; Sleep 2]
    /\ now w' = (now w1 + 10000)%Z.
Proof.
  intros Hget Htok Hall p.
  unfold fetch_historical_data. unfold bind at 1. rewrite Hget.
  rewrite (truthy_nonempty tok Htok). cbn [negb range seq retry_loop].
  unfold bind.
  repeat (rewrite (attempt_raises env symbol from_date to_date _ (Some tok) _
                     _ (or_introl (Hall _ _))); cbn [Nat.eqb]).
  fold p. eexists. split; [reflexivity|]. split.
  - repeat first [rewrite trace_add_event | rewrite trace_after_sleep].
    rewrite <- !app_assoc. reflexivity.
  - cbn [now after_sleep add_event]. lia.
Qed.

Lemma raising_upstream_gives_up_witness :
  exists w',
    fetch_historical_data dead_upstream "RELIANCE" from_date_sample
                          to_date_sample ready_world
    = (Ok (Failed (ExceptionError "Read timed out (fifth call)")), w')
    /\ now w' = 10000%Z.
Proof.
  destruct (raising_upstream_gives_up dead_upstream "RELIANCE"
              from_date_sample to_date_sample ready_world ready_world
              "2885"%string timeout_text eq_refl)
    as [w' [F [_ N]]].
  - discriminate.
  - intros n p. reflexivity.
  - exists w'. split; [exact F | exact N].
Defined.

(** X8: failures that are final.  For a symbol the loaded table does not
    know, or knows with an empty token, the call returns "Token Not Found"
    and nothing is sent.  An upstream that returns [None], or an error that
    is neither a rate limit nor an invalid token, ends the call after that
    one request, with no sleep: "API returned None", or "API Error" with the
    answer's message and code ('Unknown API Error' and the empty code when
    the keys are missing). *)
Theorem final_failures_are_not_retried (env : Env) (symbol : string)
        (from_date to_date : datetime) (w : World) :
  (forall d,
      token_map w = Some d ->
      option_map token (dict_get symbol d) = None
      \/ option_map token (dict_get symbol d) = Some EmptyString ->
      fetch_historical_data env symbol from_date to_date w
      = (Ok (Failed (TokenNotFound symbol)), w))
  /\ (forall w1 tok,
        get_token env symbol w = (Ok (Some tok), w1) ->
        tok <> EmptyString ->
        let p := candle_params (Some tok) from_date to_date in
        (getCandleData env (requests w1) p = ReplyNone ->
         fetch_historical_data env symbol from_date to_date w
         = (Ok (Failed ApiReturnedNone), add_event (Request p) w1))
        /\ (forall r,
              getCandleData env (requests w1) p = ReplyDict r ->
              classify (ReplyDict r) = OtherApiError ->
              fetch_historical_data env symbol from_date to_date w
              = (Ok (Failed (ApiError
                               (get (message r) "Unknown API Error"%string)
                               (get (errorcode r) EmptyString))),
                 add_event (Request p) w1))).
Proof.
  split.
  - intros d Hmap H.
    unfold fetch_historical_data, get_token. run. rewrite Hmap. run.
    rewrite Hmap.
    destruct (dict_get symbol d) as [item|]; simpl in H.
    + destruct H as [H|H]; [discriminate|]. injection H as H.
      run. rewrite H. reflexivity.
    + reflexivity.
  - intros w1 tok Hget Htok p. split.
    + intros Hreply.
      unfold fetch_historical_data. unfold bind at 1. rewrite Hget.
      rewrite (truthy_nonempty tok Htok). cbn [negb range seq retry_loop].
      unfold bind at 1. unfold attempt_body, call_getCandleData. run.
      fold (requests w1). fold (candle_params (Some tok) from_date to_date).
      fold p. rewrite Hreply. reflexivity.
    + intros r Hreply Hclass.
      unfold fetch_historical_data. unfold bind at 1. rewrite Hget.
      rewrite (truthy_nonempty tok Htok). cbn [negb range seq retry_loop].
      unfold bind at 1. unfold attempt_body, call_getCandleData. run.
      fold (requests w1). fold (candle_params (Some tok) from_date to_date).
      fold p. rewrite Hreply. unfold classify in Hclass. run.
      destruct (Bool.eqb (get (status r) false) true
                && negb (len (get (data r) []) =? 0)%nat); [discriminate|].
      destruct (str_in (get (errorcode r) EmptyString)
                       ["AB1004"; "AB1005"; "AB2001"]%string); [discriminate|].
      destruct (contains "Invalid Token"
                  (get (message r) "Unknown API Error"%string)
                || (get (errorcode r) EmptyString =? "AG8001")%string);
        [discriminate|].
      reflexivity.
Qed.

Lemma final_failures_are_not_retried_witness :
  fetch_historical_data erring_upstream "UNKNOWN" from_date_sample
                        to_date_sample ready_world
  = (Ok (Failed (TokenNotFound "UNKNOWN")), ready_world)
  /\ fetch_historical_data erring_upstream "RELIANCE" from_date_sample
       to_date_sample ready_world
     = (Ok (Failed (ApiError "Something Went Wrong" "AB1010")),
        add_event (Request (candle_params (Some "2885"%string)
                                          from_date_sample to_date_sample))
                  ready_world).
Proof.
  split.
  - destruct (final_failures_are_not_retried erring_upstream "UNKNOWN"
                from_date_sample to_date_sample ready_world) as [A _].
    apply (A (build_token_map [reliance]) eq_refl). left. reflexivity.
  - destruct (final_failures_are_not_retried erring_upstream "RELIANCE"
                from_date_sample to_date_sample ready_world) as [_ B].
    destruct (B ready_world "2885"%string eq_refl) as [_ C];
      [discriminate|].
    apply (C other_error_response); reflexivity.
Defined.

(** X9: the refresh of the scrip master is bounded too.  When the upstream
    answers every request with an invalid-token failure, while each download
    of the scrip master succeeds, [fetch_historical_data] sends five
    requests, downloads the scrip master five times (once per request,
    sleeping 2 seconds each time), and returns "Max Retries Exceeded"; the
    client is left with the table of the last download. *)
Theorem invalid_token_forever_exhausts (env : Env) (symbol : string)
        (from_date to_date : datetime) (w w1 : World) (tok : string)
        (table : nat -> list ScripItem) :
  get_token env symbol w = (Ok (Some tok), w1) ->
  tok <> EmptyString ->
  (forall n p, classify (getCandleData env n p) = InvalidIdentifier) ->
  (forall n, scrip_master_url env n = Ok (mk_http 200 (Ok (table n)))) ->
  exists w',
    fetch_historical_data env symbol from_date to_date w
    = (Ok (Failed MaxRetriesExceeded), w')
    /\ requests w' = (5 + requests w1)%nat
    /\ downloads w' = (5 + downloads w1)%nat
    /\ now w' = (now w1 + 10000)%Z
    /\ token_map w' = Some (build_token_map (table (4 + downloads w1)%nat)).
Proof.
  intros Hget Htok Hall Hurl.
  unfold fetch_historical_data. unfold bind at 1. rewrite Hget.
  rewrite (truthy_nonempty tok Htok). cbn [negb range seq retry_loop].
  unfold bind.
  repeat (rewrite (attempt_invalid_identifier env symbol from_date to_date
                     _ _ _ _ (Hall _ _) (Hurl _))).
  eexists. split; [reflexivity|].
  split; [reflexivity|]. split; [reflexivity|]. split.
  - cbn [now after_sleep add_event with_token_map with_file]. lia.
  - reflexivity.
Qed.

Lemma invalid_token_forever_exhausts_witness :
  exists w',
    fetch_historical_data rejecting_upstream "RELIANCE" from_date_sample
                          to_date_sample ready_world
    = (Ok (Failed MaxRetriesExceeded), w')
    /\ requests w' = 5%nat /\ downloads w' = 5%nat.
Proof.
  destruct (invalid_token_forever_exhausts rejecting_upstream "RELIANCE"
              from_date_sample to_date_sample ready_world ready_world
              "2885"%string (fun _ => [reliance]) eq_refl)
    as [w' [F [R [D _]]]].
  - discriminate.
  - intros n p. reflexivity.
  - intros n. reflexivity.
  - exists w'. split; [exact F|]. split; [exact R | exact D].
Defined.

(** ** smart_api_client.py: the token table *)

Lemma dict_get_In {V : Type} (k : string) (v : V) (d : dict V) :
  dict_get k d = Some v -> In (k, v) d.
Proof.
  induction d as [|[k' v'] d IH]; [discriminate|]. simpl.
  destruct (String.eqb_spec k k') as [->|N].
  - intros H. injection H as ->. now left.
  - intros H. right. now apply IH.
Qed.

Lemma dict_get_set_same {V : Type} (k : string) (v : V) (d : dict V) :
  dict_get k (dict_set k v d) = Some v.
Proof. simpl. now rewrite String.eqb_refl. Qed.

(** Where the bindings of the built table come from. *)
Lemma index_item_bindings (data : list ScripItem) :
  forall (d0 : dict ScripItem) (k : string) (v : ScripItem),
    In (k, v) (fold_left index_item data d0) ->
    In (k, v) d0
    \/ (In v data /\ exch_seg v = "NSE"%string /\ k = root v).
Proof.
  induction data as [|x data IH]; intros d0 k v H; [now left|].
  simpl in H. apply IH in H. destruct H as [H|[H1 H2]].
  - unfold index_item in H.
    destruct (String.eqb_spec (exch_seg x) "NSE") as [E|N]; simpl in H.
    + destruct (endswith (symbol x) "-EQ") eqn:S; simpl in H.
      * destruct H as [H|H]; [|now left].
        injection H as <- <-. right. split; [now left|]. split; [exact E|].
        unfold root. now rewrite S.
      * destruct H as [H|H]; [|now left].
        injection H as <- <-. right. split; [now left|]. split; [exact E|].
        unfold root. now rewrite S.
    + now left.
  - right. split; [now right | exact H2].
Qed.


Lemma index_item_files (x : ScripItem) (d0 : dict ScripItem) :
  exch_seg x = "NSE"%string ->
  dict_get (root x) (index_item d0 x) = Some x.
Proof.
  intros E. unfold index_item, root. rewrite E. simpl.
  destruct (endswith (symbol x) "-EQ"); simpl; now rewrite String.eqb_refl.
Qed.



(** ** smart_api_client.py: the scrip master file *)

(** X11: how [load_scrip_master] uses the file.  A file at most 24 hours
    old is loaded with no download.  An older file is downloaded again
    first; if the download is refused (a status other than 200) the old
    file is loaded all the same, but if the download raises, the load
    raises with it and the table is left as it was.  With no file and a
    refused download the load raises and the table is left as it was. *)
Theorem scrip_master_file_cache (env : Env) (w : World) :
  (forall mtime data,
      scrip_master_file w = Some (mtime, Ok data) ->
      (now w - mtime <= 1000 * 86400)%Z ->
      load_scrip_master env w
      = (Ok tt, with_token_map (build_token_map data) w))
  /\ (forall mtime data data',
        scrip_master_file w = Some (mtime, Ok data) ->
        (1000 * 86400 < now w - mtime)%Z ->
        scrip_master_url env (downloads w) = Ok (mk_http 200 (Ok data')) ->
        load_scrip_master env w
        = (Ok tt, with_token_map (build_token_map data')
                    (with_file (Ok data') (add_event Download w))))
  /\ (forall mtime data code body,
        scrip_master_file w = Some (mtime, Ok data) ->
        (1000 * 86400 < now w - mtime)%Z ->
        scrip_master_url env (downloads w) = Ok (mk_http code body) ->
        code <> 200%Z ->
        load_scrip_master env w
        = (Ok tt, with_token_map (build_token_map data)
                    (add_event Download w)))
  /\ (forall mtime content e,
        scrip_master_file w = Some (mtime, content) ->
        (1000 * 86400 < now w - mtime)%Z ->
        scrip_master_url env (downloads w) = Raise e ->
        load_scrip_master env w = (Raise e, add_event Download w))
  /\ (forall code body,
        scrip_master_file w = None ->
        scrip_master_url env (downloads w) = Ok (mk_http code body) ->
        code <> 200%Z ->
        load_scrip_master env w
        = (Raise "No such file or directory: 'OpenAPIScripMaster.json'",
           add_event Download w)).
Proof.
  split; [|split; [|split; [|split]]].
  - intros mtime data Hf Hage.
    unfold load_scrip_master. run. rewrite Hf.
    destruct (1000 * 86400 <? now w - mtime)%Z eqn:A;
      [apply Z.ltb_lt in A; lia|].
    run. rewrite Hf. reflexivity.
  - intros mtime data data' Hf Hage Hurl.
    unfold load_scrip_master, _download_scrip_master. run. rewrite Hf.
    destruct (1000 * 86400 <? now w - mtime)%Z eqn:A;
      [|apply Z.ltb_ge in A; lia].
    run. fold (downloads w). rewrite Hurl. reflexivity.
  - intros mtime data code body Hf Hage Hurl Hcode.
    unfold load_scrip_master, _download_scrip_master. run. rewrite Hf.
    destruct (1000 * 86400 <? now w - mtime)%Z eqn:A;
      [|apply Z.ltb_ge in A; lia].
    run. fold (downloads w). rewrite Hurl. cbn [status_code text].
    destruct (Z.eqb_spec code 200); [contradiction|].
    run. cbn [scrip_master_file add_event]. rewrite Hf. reflexivity.
  - intros mtime content e Hf Hage Hurl.
    unfold load_scrip_master, _download_scrip_master. run. rewrite Hf.
    destruct (1000 * 86400 <? now w - mtime)%Z eqn:A;
      [|apply Z.ltb_ge in A; lia].
    run. fold (downloads w). rewrite Hurl. reflexivity.
  - intros code body Hf Hurl Hcode.
    unfold load_scrip_master, _download_scrip_master. run. rewrite Hf.
    run. fold (downloads w). rewrite Hurl. cbn [status_code text].
    destruct (Z.eqb_spec code 200); [contradiction|].
    run. cbn [scrip_master_file add_event]. rewrite Hf. reflexivity.
Qed.

Lemma scrip_master_file_cache_witness :
  load_scrip_master busy_upstream ready_world
  = (Ok tt, with_token_map (build_token_map [reliance]) ready_world)
  /\ load_scrip_master renumbered_upstream stale_world
     = (Ok tt, with_token_map (build_token_map [renumbered])
                 (with_file (Ok [renumbered])
                            (add_event Download stale_world)))
  /\ load_scrip_master busy_upstream stale_world
     = (Raise "connection refused", add_event Download stale_world).
Proof.
  split; [|split].
  - destruct (scrip_master_file_cache busy_upstream ready_world) as [A _].
    apply (A 0%Z [reliance] eq_refl). vm_compute. discriminate.
  - destruct (scrip_master_file_cache renumbered_upstream stale_world)
      as [_ [B _]].
    apply (B 0%Z [reliance] [renumbered] eq_refl); reflexivity.
  - destruct (scrip_master_file_cache busy_upstream stale_world)
      as [_ [_ [_ [D _]]]].
    apply (D 0%Z (Ok [reliance]) "connection refused"%string eq_refl);
      reflexivity.
Defined.

(** ** smart_api_client.py: what a fetch may do *)

Section Steps.

Variable R : World -> World -> Prop.
Hypothesis R_refl : forall w, R w w.
Hypothesis R_trans : forall w1 w2 w3, R w1 w2 -> R w2 w3 -> R w1 w3.

Lemma steps_ret {A : Type} (a : A) : steps R (ret a).
Proof. intros w. apply R_refl. Qed.

Lemma steps_raise {A : Type} (e : string) : steps R (@raise A e).
Proof. intros w. apply R_refl. Qed.

Lemma steps_lift {A : Type} (x : Exc A) : steps R (lift x).
Proof. intros w. apply R_refl. Qed.

Lemma steps_gets {A : Type} (f : World -> A) : steps R (gets f).
Proof. intros w. apply R_refl. Qed.

Lemma steps_modify (f : World -> World) :
  (forall w, R w (f w)) -> steps R (modify f).
Proof. intros H w. apply H. Qed.

Lemma steps_bind {A B : Type} (m : M A) (f : A -> M B) :
  steps R m -> (forall a, steps R (f a)) -> steps R (bind m f).
Proof.
  intros Hm Hf w. unfold bind. specialize (Hm w).
  destruct (m w) as [[a|e] w1]; simpl in *; [|exact Hm].
  eapply R_trans; [exact Hm | apply Hf].
Qed.

Lemma steps_try {A : Type} (body : M A) (h : string -> M A) :
  steps R body -> (forall e, steps R (h e)) -> steps R (try_except body h).
Proof.
  intros Hb Hh w. unfold try_except. specialize (Hb w).
  destruct (body w) as [[a|e] w1]; simpl in *; [exact Hb|].
  eapply R_trans; [exact Hb | apply Hh].
Qed.

End Steps.

Lemma fetch_step_refl (from_date to_date : datetime) (w : World) :
  fetch_step from_date to_date w w.
Proof.
  split; [exists []; split; [reflexivity|constructor]|].
  split; [lia|]. split; [reflexivity|auto].
Qed.

Lemma fetch_step_trans (from_date to_date : datetime) (w1 w2 w3 : World) :
  fetch_step from_date to_date w1 w2 -> fetch_step from_date to_date w2 w3 ->
  fetch_step from_date to_date w1 w3.
Proof.
  intros [[n1 [L1 F1]] [T1 [C1 M1]]] [[n2 [L2 F2]] [T2 [C2 M2]]].
  split; [|split; [lia | split; [congruence | auto]]].
  exists (n2 ++ n1). split.
  - rewrite L2, L1. apply app_assoc.
  - apply Forall_app. now split.
Qed.

Lemma fetch_step_event (from_date to_date : datetime) (e : Event) (w : World) :
  fetch_event from_date to_date e ->
  fetch_step from_date to_date w (add_event e w).
Proof.
  intros H. split; [exists [e]; split; [reflexivity|now constructor]|].
  split; [simpl; lia|]. split; [reflexivity|auto].
Qed.

Lemma fetch_step_sleep (from_date to_date : datetime) (secs : Z) (w : World) :
  secs = 2%Z \/ secs = 5%Z ->
  fetch_step from_date to_date w (after_sleep secs w).
Proof.
  intros H. split; [exists [Sleep secs]; split; [reflexivity|now constructor]|].
  split; [simpl; destruct H; subst; lia|]. split; [reflexivity|auto].
Qed.

(** Splits a computation into its steps and closes the steps of the
    client's own operations. *)
Ltac steps_of from_date to_date :=
  repeat first
    [ apply steps_ret; apply fetch_step_refl
    | apply steps_raise; apply fetch_step_refl
    | apply steps_lift; apply fetch_step_refl
    | apply steps_gets; apply fetch_step_refl
    | assumption
    | match goal with
      | |- steps _ (bind _ _) =>
          apply steps_bind;
          [apply fetch_step_trans | | intros ?]
      | |- steps _ (try_except _ _) =>
          apply steps_try;
          [apply fetch_step_trans | | intros ?]
      | |- steps _ (emit _) =>
          apply steps_modify; intros ?; apply fetch_step_event; simpl; auto
      | |- steps _ (time_sleep _) =>
          apply steps_modify; intros ?; apply fetch_step_sleep; auto
      | |- steps _ (write_file _) =>
          apply steps_modify; intros ?;
          (split; [exists []; split; [reflexivity|constructor]|]);
          (split; [simpl; lia|]); (split; [reflexivity|auto])
      | |- steps _ (set_token_map _) =>
          apply steps_modify; intros ?;
          (split; [exists []; split; [reflexivity|constructor]|]);
          (split; [simpl; lia|]); (split; [reflexivity|]);
          intros _; discriminate
      | |- steps _ (match ?x with _ => _ end) => destruct x
      | |- steps _ (if ?x then _ else _) => destruct x
      end ].

Lemma login_steps (env : Env) (from_date to_date : datetime) :
  steps (fetch_step from_date to_date) (login env).
Proof. unfold login. steps_of from_date to_date. Qed.

Lemma download_steps (env : Env) (from_date to_date : datetime) :
  steps (fetch_step from_date to_date) (_download_scrip_master env).
Proof. unfold _download_scrip_master. steps_of from_date to_date. Qed.

Lemma load_steps (env : Env) (from_date to_date : datetime) :
  steps (fetch_step from_date to_date) (load_scrip_master env).
Proof.
  pose proof (download_steps env from_date to_date).
  unfold load_scrip_master. steps_of from_date to_date.
Qed.

Lemma get_token_steps (env : Env) (from_date to_date : datetime)
      (symbol : string) :
  steps (fetch_step from_date to_date) (get_token env symbol).
Proof.
  pose proof (load_steps env from_date to_date).
  unfold get_token. steps_of from_date to_date.
Qed.

Lemma attempt_body_steps (env : Env) (symbol : string)
      (from_date to_date : datetime) (attempt : nat)
      (token : option string) :
  steps (fetch_step from_date to_date)
        (attempt_body env symbol from_date to_date "ONE_DAY" attempt token).
Proof.
  pose proof (login_steps env from_date to_date).
  pose proof (download_steps env from_date to_date).
  pose proof (load_steps env from_date to_date).
  pose proof (get_token_steps env from_date to_date symbol).
  unfold attempt_body, call_getCandleData. steps_of from_date to_date.
Qed.

Lemma retry_loop_steps (env : Env) (symbol : string)
      (from_date to_date : datetime) :
  forall (attempts : list nat) (token : option string),
    steps (fetch_step from_date to_date)
          (retry_loop env symbol from_date to_date "ONE_DAY" attempts token).
Proof.
  induction attempts as [|attempt rest IH]; intros token.
  - apply steps_ret. apply fetch_step_refl.
  - cbn [retry_loop]. apply steps_bind.
    + apply fetch_step_trans.
    + apply attempt_body_steps.
    + intros [token'|result]; [apply IH|].
      apply steps_ret. apply fetch_step_refl.
Qed.

Lemma fetch_steps (env : Env) (symbol : string)
      (from_date to_date : datetime) :
  steps (fetch_step from_date to_date)
        (fetch_historical_data env symbol from_date to_date).
Proof.
  unfold fetch_historical_data. apply steps_bind.
  - apply fetch_step_trans.
  - apply get_token_steps.
  - intros token. destruct (negb (truthy token)).
    + apply steps_ret. apply fetch_step_refl.
    + apply retry_loop_steps.
Qed.

(** X12: whatever the upstream does, a call of [fetch_historical_data] only
    appends to what was done before: requests to NSE for daily candles of
    the window it was given (only the token may differ from one request to
    the next), sleeps of 2 or 5 seconds, logins and downloads of the scrip
    master; the clock never goes back, and a table that was loaded stays
    loaded. *)
Theorem fetch_only_asks_for_its_window (env : Env) (symbol : string)
        (from_date to_date : datetime) (w : World) :
  fetch_step from_date to_date w
    (snd (fetch_historical_data env symbol from_date to_date w)).
Proof. apply fetch_steps. Qed.

(** ** backend/main.py: the global client *)

(** X13: [get_client] makes the client once.  With a client it returns at
    once, with no login.  Without one it creates the client and logs in;
    when the login fails it raises "Failed to login to SmartAPI", but the
    client it created stays the global one, so that the next call returns
    it, not logged in, with no new attempt. *)
Theorem get_client_keeps_failed_client (env : Env) (w : World) :
  (client w = true -> get_client env w = (Ok tt, w))
  /\ (client w = false ->
      generateSession env (count is_login (log w)) <> Ok true ->
      let w1 := add_event Login (with_new_client w) in
      get_client env w = (Raise "Failed to login to SmartAPI", w1)
      /\ get_client env w1 = (Ok tt, w1))
  /\ (client w = false ->
      generateSession env (count is_login (log w)) = Ok true ->
      get_client env w = (Ok tt, add_event Login (with_new_client w))).
Proof.
  split; [|split].
  - intros H. unfold get_client. run. now rewrite H.
  - intros H Hs w1. split.
    + unfold get_client, login. run. rewrite H. run.
      cbn [log with_new_client].
      destruct (generateSession env (count is_login (log w))) as [[]|e];
        [now elim Hs | reflexivity | reflexivity].
    + unfold get_client. run. reflexivity.
  - intros H Hs. unfold get_client, login. run. rewrite H. run.
    cbn [log with_new_client]. rewrite Hs. reflexivity.
Qed.

Lemma get_client_keeps_failed_client_witness :
  get_client locked_out fresh_world
  = (Raise "Failed to login to SmartAPI",
     add_event Login (with_new_client fresh_world))
  /\ get_client locked_out (add_event Login (with_new_client fresh_world))
     = (Ok tt, add_event Login (with_new_client fresh_world)).
Proof.
  destruct (get_client_keeps_failed_client locked_out fresh_world)
    as [_ [B _]].
  apply B; [reflexivity | discriminate].
Defined.

(** ** smart_api_client.py: a fetch that returns *)




(** ** app.py: a run that completes *)




(** ** backend/main.py: how a run ends *)

(** X15: [event_generator] never raises, whatever the signal source, the
    login, the scrip master and the upstream do.  It ends either with the
    accumulators, its last line being the "complete" line that reports their
    lengths and the valid trades, or without them, its last line being an
    "error" line (no signals, login failed, or a critical error). *)
Theorem event_generator_always_ends (env : Env) (target_date_str : string)
        (w : World) :
  exists r w',
    event_generator env target_date_str w = (Ok r, w')
    /\ match r with
       | Some b =>
           hd_error (log w')
           = Some (Yielded (YComplete (len (valid_trades b))
                                      (len (rejected_trades b))
                                      (valid_trades b)))
       | None => exists m, hd_error (log w') = Some (Yielded (YError m))
       end.
Proof.
  unfold event_generator, yield. run. unfold modify. cbn beta iota.
  destruct (fetch_signals env target_date_str) as [[|row rows]|].
  - exists None. eexists. split; [reflexivity|]. eexists. reflexivity.
  - match goal with
    | |- context [get_client env ?w1] =>
        destruct (get_client env w1) as [[[]|e] w2]
    end.
    + destruct (token_map w2) as [d|].
      * match goal with
        | |- context [for_rows env ?d ?n ?i ?rs ?b0 ?w3] =>
            destruct (for_rows_total env d n rs i b0 w3) as [b [w4 [F _]]];
            rewrite F
        end.
        exists (Some b). eexists. split; [reflexivity|]. reflexivity.
      * match goal with
        | |- context [load_scrip_master env ?w3] =>
            destruct (load_scrip_master env w3) as [[[]|e] w4]
        end.
        -- match goal with
           | |- context [for_rows env ?d ?n ?i ?rs ?b0 ?w5] =>
               destruct (for_rows_total env d n rs i b0 w5)
                 as [b [w6 [F _]]];
               rewrite F
           end.
           exists (Some b). eexists. split; [reflexivity|]. reflexivity.
        -- exists None. eexists. split; [reflexivity|].
           eexists. reflexivity.
    + exists None. eexists. split; [reflexivity|]. eexists. reflexivity.
  - exists None. eexists. split; [reflexivity|]. eexists. reflexivity.
Qed.

Lemma fetch_events_no_line (from_date to_date : datetime) (l : list Event) :
  Forall (fetch_event from_date to_date) l -> no_line l.
Proof.
  unfold no_line. apply Forall_impl. intros [p|s| | | |y] H; simpl in *; auto.
Qed.

(** The shape of what the [try] statement of a row does. *)
Lemma process_row_shape (env : Env) (target_date_str : string)
        (row : Row) (b : Batch) (w : World) :
  let symbol := r_tradingsymbol row in
  exists b' w' new,
    process_row env target_date_str row b w = (Ok b', w')
    /\ log w' = new ++ log w
    /\ ((exists setup rest,
            new = Yielded (YMatchFound
                             (mk_trade setup symbol target_date_str)) :: rest
            /\ b' = append_valid (mk_trade setup symbol target_date_str) b
            /\ no_line rest)
        \/ (exists reason rest,
              let rej_row := mk_rejection symbol (FromValidator reason) in
              new = Yielded (YMatchRejected (FromValidator reason) symbol)
                    :: rest
              /\ b' = append_rejected rej_row (append_rejected rej_row b)
              /\ no_line rest)
        \/ (exists error_msg rest,
              new = Yielded (YMatchRejected (NoData error_msg) symbol) :: rest
              /\ b' = append_rejected
                        (mk_rejection symbol (NoData error_msg)) b
              /\ no_line rest)
        \/ (exists e,
              b' = append_rejected (mk_rejection symbol (Error e)) b
              /\ no_line new)).
Proof.
  intros symbol. unfold process_row, yield. run. unfold modify.
  cbn beta iota. fold symbol.
  destruct (strptime_iso (r_date row)) as [t|e].
  - pose proof (fetch_steps env symbol
                  (strftime_minute (minus_days t 60)) (strftime_minute t) w)
      as S.
    destruct (fetch_historical_data env symbol
                (strftime_minute (minus_days t 60)) (strftime_minute t) w)
      as [[[df|err]|e] w1]; simpl in S;
      destruct S as [[new1 [L1 F1]] _];
      apply fetch_events_no_line in F1.
    + destruct (validate_setup row (calculate_indicators (Some df)))
        as [[reason|setup]|e].
      * do 2 eexists. exists (Yielded (YMatchRejected (FromValidator reason)
                                         symbol) :: new1).
        split; [reflexivity|]. split; [simpl; now rewrite L1|].
        right. left. exists reason, new1. repeat split. exact F1.
      * do 2 eexists. exists (Yielded (YMatchFound
                                 (mk_trade setup symbol target_date_str))
                              :: new1).
        split; [reflexivity|]. split; [simpl; now rewrite L1|].
        left. exists setup, new1. repeat split. exact F1.
      * do 2 eexists. exists new1. split; [reflexivity|].
        split; [exact L1|]. right. right. right. exists e. now split.
    + do 2 eexists. exists (Yielded (YMatchRejected (NoData err) symbol)
                             :: new1).
      split; [reflexivity|]. split; [simpl; now rewrite L1|].
      right. right. left. exists err, new1. repeat split. exact F1.
    + do 2 eexists. exists new1. split; [reflexivity|].
      split; [exact L1|]. right. right. right. exists e. now split.
  - do 2 eexists. exists []. split; [reflexivity|]. split; [reflexivity|].
    right. right. right. exists e. split; [reflexivity|constructor].
Qed.

(** X16: what main.py records and streams for one signal.  The [try]
    statement never raises and appends to the log.  It streams at most one
    line, as the last thing it does: "match_found" with the trade it has
    appended to the valid trades (the validator's result with the symbol and
    the target date); or "match_rejected" with the validator's reason, the
    rejection being appended twice; or "match_rejected" with "No Data" when
    the fetch failed, the rejection being appended once and the validator
    not called.  A signal on which an exception is raised is recorded once
    as "Error" and streams no line at all. *)
Theorem main_row_line_and_record (env : Env) (target_date_str : string)
        (row : Row) (b : Batch) (w : World) :
  let symbol := r_tradingsymbol row in
  exists b' w' new,
    process_row env target_date_str row b w = (Ok b', w')
    /\ log w' = new ++ log w
    /\ ((exists setup rest,
            new = Yielded (YMatchFound
                             (mk_trade setup symbol target_date_str)) :: rest
            /\ b' = append_valid (mk_trade setup symbol target_date_str) b
            /\ no_line rest)
        \/ (exists reason rest,
              let rej_row := mk_rejection symbol (FromValidator reason) in
              new = Yielded (YMatchRejected (FromValidator reason) symbol)
                    :: rest
              /\ b' = append_rejected rej_row (append_rejected rej_row b)
              /\ no_line rest)
        \/ (exists error_msg rest,
              new = Yielded (YMatchRejected (NoData error_msg) symbol) :: rest
              /\ b' = append_rejected
                        (mk_rejection symbol (NoData error_msg)) b
              /\ no_line rest)
        \/ (exists e,
              b' = append_rejected (mk_rejection symbol (Error e)) b
              /\ no_line new)).
Proof. exact (process_row_shape env target_date_str row b w). Qed.

(** ** backtest_engine.py: the rule that never fires *)

(** X17: rule 3 never rejects.  'Close below EMA 9' is tested after rule 2
    has already required the close to be above EMA 9, so the validator never
    returns that reason, for any signal and any frame. *)
Theorem close_below_ema_9_is_never_returned (row : Row)
        (df : option DataFrame) :
  is_close_below_ema_9 (validate_setup row df) = false.
Proof.
  unfold validate_setup.
  destruct df as [d|]; [|reflexivity].
  destruct (len d <? 20)%nat; [reflexivity|].
  destruct (pd_to_datetime (r_date row)) as [stamp|e]; [|reflexivity].
  destruct (locate_trigger d (dt_date stamp)) as [[c|]|e]; try reflexivity.
  unfold check_rules.
  destruct (c_EMA_9 c) as [e9|]; [|reflexivity].
  destruct (c_EMA_20 c) as [e20|]; [|reflexivity].
  destruct (gt e9 e20); cbn [negb]; [|reflexivity].
  destruct (gt (c_close c) e9); cbn [negb andb]; [|reflexivity].
  destruct (gt (c_close c) e20); cbn [negb]; [|reflexivity].
  destruct (spread_pct e9 e20 <? 0.3)%float; [reflexivity|].
  destruct (gt (spread_pct e9 e20) 1.2); [reflexivity|].
  destruct (r_is_stage2 row); reflexivity.
Qed.

(** ** smart_api_client.py: recovering from rate limits *)

Lemma after_rate_limits_counts (p : Params) :
  forall (k a : nat) (w : World),
    requests (after_rate_limits p a k w) = (requests w + k)%nat
    /\ now (after_rate_limits p a k w) = (now w + 5000 * Z.of_nat k)%Z
    /\ count is_login (log (after_rate_limits p a k w))
       = (count is_login (log w)
          + if (a <=? 2)%nat && (2 <? a + k)%nat then 1 else 0)%nat.
Proof.
  induction k as [|k IH]; intros a w.
  - cbn [after_rate_limits]. rewrite Nat.add_0_r, Z.add_0_r.
    repeat split.
    destruct (a <=? 2)%nat eqn:A; destruct (2 <? a + 0)%nat eqn:B;
      cbn [andb]; try lia.
    apply Nat.leb_le in A. apply Nat.ltb_lt in B. lia.
  - cbn [after_rate_limits]. rewrite Nat2Z.inj_succ.
    destruct (IH (S a)
                (if (a =? 2)%nat
                 then add_event Login
                        (after_sleep 5 (add_event (Request p) w))
                 else after_sleep 5 (add_event (Request p) w)))
      as [R [T L]].
    rewrite R, T, L. clear R T L IH.
    destruct (Nat.eqb_spec a 2) as [->|N].
    + repeat split.
      * rewrite requests_add_login, requests_after_sleep,
          requests_add_request. lia.
      * cbn [now after_sleep add_event]. lia.
      * assert (E : count is_login
                      (log (add_event Login
                              (after_sleep 5 (add_event (Request p) w))))
                    = S (count is_login (log w))) by reflexivity.
        rewrite E.
        assert (B : (2 <? 2 + S k)%nat = true) by (apply Nat.ltb_lt; lia).
        rewrite B. cbn [Nat.leb andb]. lia.
    + repeat split.
      * rewrite requests_after_sleep, requests_add_request. lia.
      * cbn [now after_sleep add_event]. lia.
      * assert (E : count is_login
                      (log (after_sleep 5 (add_event (Request p) w)))
                    = count is_login (log w)) by reflexivity.
        rewrite E. f_equal.
        destruct (S a <=? 2)%nat eqn:A1; destruct (2 <? S a + k)%nat eqn:B1;
          destruct (a <=? 2)%nat eqn:A2; destruct (2 <? a + S k)%nat eqn:B2;
          cbn [andb]; try reflexivity; exfalso;
          rewrite ?Nat.leb_le, ?Nat.leb_gt, ?Nat.ltb_lt, ?Nat.ltb_ge in *;
          lia.
Qed.

Lemma retry_loop_recovers (env : Env) (symbol : string)
      (from_date to_date : datetime) (token : option string)
      (df : DataFrame) :
  let p := candle_params token from_date to_date in
  forall (k a m : nat) (w : World),
    (forall n, (n < k)%nat ->
               classify (getCandleData env (requests w + n) p) = RateLimited) ->
    classify (getCandleData env (requests w + k) p) = Success ->
    parsed (getCandleData env (requests w + k) p) = Ok df ->
    retry_loop env symbol from_date to_date "ONE_DAY" (seq a (k + S m)) token w
    = (Ok (Fetched df), add_event (Request p) (after_rate_limits p a k w)).
Proof.
  intros p. induction k as [|k IH]; intros a m w Hrl Hok Hdf.
  - rewrite Nat.add_0_r in Hok, Hdf. cbn [Nat.add seq retry_loop].
    unfold bind.
    now rewrite (attempt_success env symbol from_date to_date a token w df
                   Hok Hdf).
  - cbn [Nat.add seq retry_loop]. unfold bind.
    assert (H0 : classify (getCandleData env (requests w) p) = RateLimited).
    { rewrite <- (Nat.add_0_r (requests w)). apply Hrl. lia. }
    rewrite (attempt_rate_limited env symbol from_date to_date a token w H0).
    cbv zeta. fold p. cbn [after_rate_limits].
    apply IH.
    + intros n Hn.
      replace (requests _ + n)%nat with (requests w + S n)%nat;
        [apply Hrl; lia|].
      destruct (a =? 2)%nat;
        rewrite ?requests_add_login, requests_after_sleep,
          requests_add_request; lia.
    + replace (requests _ + k)%nat with (requests w + S k)%nat;
        [exact Hok|].
      destruct (a =? 2)%nat;
        rewrite ?requests_add_login, requests_after_sleep,
          requests_add_request; lia.
    + replace (requests _ + k)%nat with (requests w + S k)%nat;
        [exact Hdf|].
      destruct (a =? 2)%nat;
        rewrite ?requests_add_login, requests_after_sleep,
          requests_add_request; lia.
Qed.

(** X18: a fetch recovers from up to four rate-limited answers.  When the
    first [k] answers (k at most 4) are rate limited and the next one is a
    success whose rows convert, [fetch_historical_data] returns the frame
    after k+1 requests and k sleeps of 5 seconds; it has logged in again
    once if k is 3 or 4, and not at all otherwise. *)
Theorem fetch_recovers_from_rate_limits (env : Env) (symbol : string)
        (from_date to_date : datetime) (w w1 : World) (tok : string)
        (k : nat) (df : DataFrame) :
  get_token env symbol w = (Ok (Some tok), w1) ->
  tok <> EmptyString ->
  (k <= 4)%nat ->
  let p := candle_params (Some tok) from_date to_date in
  (forall n, (n < k)%nat ->
             classify (getCandleData env (requests w1 + n) p) = RateLimited) ->
  classify (getCandleData env (requests w1 + k) p) = Success ->
  parsed (getCandleData env (requests w1 + k) p) = Ok df ->
  exists w',
    fetch_historical_data env symbol from_date to_date w
    = (Ok (Fetched df), w')
    /\ requests w' = (requests w1 + k + 1)%nat
    /\ now w' = (now w1 + 5000 * Z.of_nat k)%Z
    /\ count is_login (log w')
       = (count is_login (log w1) + if (3 <=? k)%nat then 1 else 0)%nat.
Proof.
  intros Hget Htok Hk p Hrl Hok Hdf.
  unfold fetch_historical_data. unfold bind at 1. rewrite Hget.
  rewrite (truthy_nonempty tok Htok). cbn [negb]. unfold range.
  replace 5%nat with (k + S (4 - k))%nat by lia.
  rewrite (retry_loop_recovers env symbol from_date to_date (Some tok) df
             k 0 (4 - k) w1 Hrl Hok Hdf).
  fold p. eexists. split; [reflexivity|].
  destruct (after_rate_limits_counts p k 0 w1) as [R [T L]].
  rewrite requests_add_request.
  change (now (add_event (Request p) (after_rate_limits p 0 k w1)))
    with (now (after_rate_limits p 0 k w1)).
  change (count is_login
            (log (add_event (Request p) (after_rate_limits p 0 k w1))))
    with (count is_login (log (after_rate_limits p 0 k w1))).
  rewrite R, T, L. repeat split; lia.
Qed.

Lemma fetch_recovers_from_rate_limits_witness :
  exists w',
    fetch_historical_data recovering_upstream "RELIANCE" from_date_sample
                          to_date_sample ready_world
    = (Ok (Fetched [mk_candle (Timestamp (mk_datetime signal_day 0)) 100 102
                              99 101 1000 None None]), w')
    /\ requests w' = 4%nat
    /\ now w' = 15000%Z
    /\ count is_login (log w') = 1%nat.
Proof.
  destruct (fetch_recovers_from_rate_limits recovering_upstream "RELIANCE"
              from_date_sample to_date_sample ready_world ready_world
              "2885"%string 3
              [mk_candle (Timestamp (mk_datetime signal_day 0)) 100 102
                         99 101 1000 None None] eq_refl)
    as [w' [F [R [T L]]]].
  - discriminate.
  - lia.
  - intros n Hn. destruct n as [|[|[|n]]]; [reflexivity..|lia].
  - reflexivity.
  - reflexivity.
  - exists w'. split; [exact F|]. split; [exact R|]. split; [exact T|exact L].
Defined.

(** ** backend/main.py: the progress lines *)





(** ** backend/main.py and app.py: the same logic for one signal *)

(** X20: main.py's [try] statement ("Logic (Copied from app.py)") follows
    app.py's loop body on every signal and from every state.  Where app.py's
    body returns, both have talked to the upstream in the same way (app.py
    then sleeps a second, main.py streams one line), they hold the same
    valid trades, and the same rejections except that main.py holds a
    rejection of the validator twice.  Where app.py's body raises, main.py
    has done the same and records the signal as "Error" with the text of
    that exception. *)
Theorem main_row_follows_app_row (env : Env) (date_str : string)
        (row : Row) (b : Batch) (w : World) :
  match app_row env date_str row b w with
  | (Ok b_app, w_app) =>
      exists b_main w1 line,
        process_row env date_str row b w
        = (Ok b_main, add_event (Yielded line) w1)
        /\ w_app = after_sleep 1 w1
        /\ valid_trades b_main = valid_trades b_app
        /\ (rejected_trades b_main = rejected_trades b_app
            \/ exists reason,
                let rej_row :=
                  mk_rejection (r_tradingsymbol row) (FromValidator reason) in
                rejected_trades b_app = rejected_trades b ++ [rej_row]
                /\ rejected_trades b_main
                   = rejected_trades b ++ [rej_row; rej_row])
  | (Raise e, w_app) =>
      process_row env date_str row b w
      = (Ok (append_rejected
               (mk_rejection (r_tradingsymbol row) (Error e)) b), w_app)
  end.
Proof.
  unfold app_row, process_row, yield, time_sleep. run. unfold modify.
  cbn beta iota.
  destruct (strptime_iso (r_date row)) as [t|e]; [|reflexivity].
  destruct (fetch_historical_data env (r_tradingsymbol row)
              (strftime_minute (minus_days t 60)) (strftime_minute t) w)
    as [[[df|err]|e] w1]; [| |reflexivity].
  - destruct (validate_setup row (calculate_indicators (Some df)))
      as [[reason|setup]|e]; [| |reflexivity].
    + do 3 eexists. split; [reflexivity|]. split; [reflexivity|].
      split; [reflexivity|]. right. exists reason.
      cbn [rejected_trades append_rejected].
      split; [reflexivity|]. now rewrite <- app_assoc.
    + do 3 eexists. split; [reflexivity|]. split; [reflexivity|].
      split; [reflexivity|]. now left.
  - do 3 eexists. split; [reflexivity|]. split; [reflexivity|].
    split; [reflexivity|]. now left.
Qed.

(** ** smart_api_client.py: the key of an equity *)

Lemma length_append (a b : string) :
  String.length (a ++ b) = (String.length a + String.length b)%nat.
Proof. induction a as [|c a IH]; simpl; [reflexivity | now rewrite IH]. Qed.

Lemma substring_whole (s : string) : substring 0 (String.length s) s = s.
Proof. induction s as [|c s IH]; simpl; [reflexivity | now rewrite IH]. Qed.

Lemma substring_after (a b : string) (m : nat) :
  substring (String.length a) m (a ++ b) = substring 0 m b.
Proof. induction a as [|c a IH]; simpl; [reflexivity | exact IH]. Qed.

Lemma endswith_append (s suffix : string) :
  endswith (s ++ suffix) suffix = true.
Proof.
  unfold endswith. rewrite length_append.
  replace (String.length s + String.length suffix - String.length suffix)%nat
    with (String.length s) by lia.
  rewrite substring_after, substring_whole, String.eqb_refl.
  rewrite andb_true_r. apply Nat.leb_le. lia.
Qed.

(** [old in s] is false only if [s] does not start with [old] and [old] is
    not in the rest of [s] either. *)
Lemma contains_cons (old : string) (c : Ascii.ascii) (s : string) :
  contains old (String c s) = false ->
  prefix old (String c s) = false /\ contains old s = false.
Proof.
  unfold contains. cbn [index].
  destruct (prefix old (String c s)); [discriminate|].
  destruct (index 0 old s); [discriminate|]. now split.
Qed.

(** No occurrence of "-EQ" straddles the end of a symbol and a "-EQ" put
    after it. *)
Lemma no_EQ_across (c : Ascii.ascii) (s : string) :
  prefix "-EQ" (String c s) = false ->
  prefix "-EQ" (String c s ++ "-EQ") = false.
Proof.
  cbn [prefix append].
  destruct (Ascii.ascii_dec _ c) as [_|_]; [|reflexivity].
  destruct s as [|d s]; cbn [prefix append]; [reflexivity|].
  destruct (Ascii.ascii_dec _ d) as [_|_]; [|reflexivity].
  destruct s as [|e s]; cbn [prefix append];
    [intros _; vm_compute; reflexivity|].
  destruct (Ascii.ascii_dec _ e) as [_|_]; [|reflexivity].
  destruct s; cbn [prefix]; discriminate.
Qed.

Lemma replace_EQ_append (s : string) :
  contains "-EQ" s = false ->
  replace "-EQ" EmptyString (s ++ "-EQ") = s.
Proof.
  unfold replace. induction s as [|c s IH]; intros H; [reflexivity|].
  apply contains_cons in H. destruct H as [P H].
  apply no_EQ_across in P.
  change (String c s ++ "-EQ")%string with (String c (s ++ "-EQ")) in *.
  cbn [replace_from]. rewrite P. now rewrite (IH H).
Qed.

(** X21: the key of an equity.  An NSE entry whose symbol is a name
    followed by "-EQ" is filed by [load_scrip_master] under the name alone,
    provided the name itself holds no "-EQ" (every occurrence would be
    removed, not only the last one); [get_token] then answers the name with
    the token of that entry when it is the last one of the file. *)
Theorem equity_is_filed_under_its_name (name tok : string)
        (table : list ScripItem) :
  contains "-EQ" name = false ->
  let item := mk_item (name ++ "-EQ") "NSE" tok in
  root item = name
  /\ resolve (table ++ [item]) name = Some tok.
Proof.
  intros H item.
  assert (R : root item = name).
  { unfold root, item. cbn [symbol]. rewrite endswith_append.
    now apply replace_EQ_append. }
  split; [exact R|].
  unfold resolve, build_token_map. rewrite fold_left_app. cbn [fold_left].
  rewrite <- R at 1.
  now rewrite (index_item_files item _ eq_refl).
Qed.

Lemma equity_is_filed_under_its_name_witness :
  root (mk_item "RELIANCE-EQ" "NSE" "2885") = "RELIANCE"%string
  /\ resolve (sample_table ++ [mk_item "RELIANCE-EQ" "NSE" "2885"])
             "RELIANCE"
     = Some "2885"%string.
Proof.
  exact (equity_is_filed_under_its_name "RELIANCE" "2885" sample_table
           eq_refl).
Defined.

(** ** debug_mapping.py: what the script lists *)

Lemma note_match_get (item : ScripItem) (found_map : dict (list string))
      (t t' : string) :
  dict_get t' (note_match item found_map t)
  = if (t' =? t)%string && hit t item
    then Some (get (dict_get t' found_map) [] ++ [symbol item])
    else dict_get t' found_map.
Proof.
  unfold note_match. fold (hit t item).
  destruct (hit t item); [|now rewrite andb_false_r].
  rewrite andb_true_r. unfold dict_set. cbn [dict_get].
  destruct (String.eqb_spec t' t) as [->|N].
  - destruct (dict_get t found_map) eqn:G; [now rewrite G|].
    cbn [dict_get]. now rewrite String.eqb_refl.
  - destruct (dict_get t found_map); [reflexivity|].
    cbn [dict_get]. apply String.eqb_neq in N. now rewrite N.
Qed.

(** The inner loop, on targets that are all different. *)
Lemma inner_loop_get (item : ScripItem) (t' : string) :
  forall (targets : list string) (found_map : dict (list string)),
    NoDup targets ->
    dict_get t' (fold_left (note_match item) targets found_map)
    = if str_in t' targets && hit t' item
      then Some (get (dict_get t' found_map) [] ++ [symbol item])
      else dict_get t' found_map.
Proof.
  induction targets as [|t ts IH]; intros found_map D; [reflexivity|].
  inversion D as [|? ? Hnotin Hts]; subst.
  cbn [fold_left]. rewrite (IH _ Hts), note_match_get.
  unfold str_in. cbn [existsb]. fold (str_in t' ts).
  destruct (String.eqb_spec t' t) as [->|N]; cbn [orb andb].
  - assert (F : str_in t ts = false).
    { unfold str_in. destruct (existsb (String.eqb t) ts) eqn:E; [|easy].
      apply existsb_exists in E. destruct E as [x [Hx E]].
      apply String.eqb_eq in E. now subst. }
    rewrite F. reflexivity.
  - reflexivity.
Qed.

(** The two loops: what is found for a target is what was there before
    followed by the symbols that are listed for it. *)
Lemma find_matches_get (targets : list string) (t' : string) :
  NoDup targets -> str_in t' targets = true ->
  forall (data : list ScripItem) (found_map : dict (list string)),
    dict_get t'
      (fold_left (fun found_map item =>
                    fold_left (note_match item) targets found_map)
                 data found_map)
    = match listed data t' with
      | [] => dict_get t' found_map
      | l => Some (get (dict_get t' found_map) [] ++ l)
      end.
Proof.
  intros D T data. induction data as [|item rest IH]; intros found_map;
    [reflexivity|].
  cbn [fold_left]. rewrite IH, (inner_loop_get item t' targets _ D), T.
  unfold listed. cbn [filter andb].
  destruct (hit t' item); cbn [map get].
  - destruct (map symbol (filter (hit t') rest)); [reflexivity|].
    now rewrite <- app_assoc.
  - reflexivity.
Qed.

Lemma target_symbols_differ : NoDup target_symbols.
Proof.
  unfold target_symbols.
  repeat (constructor; [cbn [In]; intuition discriminate|]). constructor.
Qed.

Lemma check_symbols_loaded (w : World) (mtime : Z)
      (data : list ScripItem) :
  scrip_master_file w = Some (mtime, Ok data) ->
  check_symbols w
  = LoadedItems (len data)
    :: map (fun t => MatchesFor t (matches data t)) target_symbols.
Proof.
  intros F. unfold check_symbols. rewrite F. f_equal.
  apply map_ext_in. intros t Ht. f_equal.
  unfold find_matches, matches.
  rewrite (find_matches_get target_symbols t target_symbols_differ).
  - cbn [dict_get get]. now destruct (listed data t).
  - unfold str_in. apply existsb_exists. exists t.
    split; [exact Ht | apply String.eqb_refl].
Qed.

(** X22: what debug_mapping.py prints.  When the scrip master file loads,
    the script prints the number of entries and then one line per target
    symbol, in the order of its list: the symbols of the NSE entries that
    contain the target, in the order of the file, or 'None' when there is
    none; entries of other exchanges are never listed.  When the file is
    missing or does not load, it prints one "Error" line and nothing
    else. *)
Theorem check_symbols_prints_nse_matches (w : World) :
  match scrip_master_file w with
  | Some (_, Ok data) =>
      check_symbols w
      = LoadedItems (len data)
        :: map (fun t => MatchesFor t (matches data t)) target_symbols
  | _ => exists e, check_symbols w = [ErrorLine e]
  end.
Proof.
  destruct (scrip_master_file w) as [[mtime [data|e]]|] eqn:F.
  - exact (check_symbols_loaded w mtime data F).
  - exists e. unfold check_symbols. now rewrite F.
  - eexists. unfold check_symbols. now rewrite F.
Qed.

(** ** debug_mapping.py and smart_api_client.py: listed and resolved *)

Lemma prefix_append (t x : string) : prefix t (t ++ x) = true.
Proof.
  induction t as [|a t IH]; [now destruct x|].
  cbn [append prefix]. now destruct (Ascii.ascii_dec a a).
Qed.

Lemma contains_append (t x : string) : contains t (t ++ x) = true.
Proof.
  unfold contains. destruct t as [|a t].
  - destruct x; reflexivity.
  - change (String a t ++ x)%string with (String a (t ++ x)).
    cbn [index].
    change (String a (t ++ x)) with (String a t ++ x)%string.
    now rewrite prefix_append.
Qed.

Lemma append_empty (t : string) : (t ++ EmptyString)%string = t.
Proof. induction t as [|a t IH]; simpl; [reflexivity | now rewrite IH]. Qed.

Lemma contains_self (t : string) : contains t t = true.
Proof. rewrite <- (append_empty t) at 2. apply contains_append. Qed.

(** A symbol that resolves is the key of an NSE entry of the file. *)
Lemma resolve_entry (data : list ScripItem) (t tok : string) :
  resolve data t = Some tok ->
  exists item,
    In item data /\ exch_seg item = "NSE"%string /\ root item = t.
Proof.
  unfold resolve. intros H.
  destruct (dict_get t (build_token_map data)) as [item|] eqn:G;
    [|discriminate].
  apply dict_get_In, index_item_bindings in G.
  destruct G as [[]|[H1 [H2 H3]]]. exists item. now repeat split.
Qed.

(** X23: the mapping script finds what the client resolves.  On a scrip
    master file whose symbols hold "-EQ" at their end only, a target symbol
    for which [get_token]'s table has a token is never printed with 'None':
    its line lists the symbol of the entry behind that token, which is the
    target itself or the target followed by "-EQ". *)
Theorem resolved_target_is_listed (w : World) (mtime : Z)
        (data : list ScripItem) (t tok : string) :
  scrip_master_file w = Some (mtime, Ok data) ->
  Forall plain data ->
  In t target_symbols ->
  resolve data t = Some tok ->
  exists l sym,
    In (MatchesFor t (Some l)) (check_symbols w)
    /\ In sym l
    /\ (sym = t \/ sym = (t ++ "-EQ")%string).
Proof.
  intros F P T R.
  destruct (resolve_entry data t tok R) as [item [Hin [E K]]].
  assert (Hplain : plain item).
  { rewrite Forall_forall in P. now apply P. }
  assert (C : contains t (symbol item) = true).
  { destruct Hplain as [S|S].
    - rewrite <- S, K. apply contains_self.
    - rewrite S, K. apply contains_append. }
  assert (L : In (symbol item) (listed data t)).
  { unfold listed. apply in_map, filter_In. split; [exact Hin|].
    unfold hit. rewrite C, E. reflexivity. }
  exists (listed data t), (symbol item). split; [|split].
  - rewrite (check_symbols_loaded w mtime data F). right.
    apply in_map_iff. exists t. split; [|exact T].
    unfold matches. destruct (listed data t); [contradiction|reflexivity].
  - exact L.
  - destruct Hplain as [S|S]; rewrite <- K; [left|right]; congruence.
Qed.

Lemma resolved_target_is_listed_witness :
  exists l sym,
    In (MatchesFor "SAIL" (Some l)) (check_symbols sail_world)
    /\ In sym l
    /\ (sym = "SAIL"%string \/ sym = "SAIL-EQ"%string).
Proof.
  apply (resolved_target_is_listed sail_world 0%Z sail_table "SAIL" "2963").
  - reflexivity.
  - repeat (constructor;
            [first [left; reflexivity | right; reflexivity]|]).
    constructor.
  - cbn [target_symbols In]. tauto.
  - reflexivity.
Defined.
